(** * rommelmarkt-zoeker: a shallow embedding of the crawler and its heuristics

    The development follows the Python sources:
    - [Py]              the built-ins the code relies on ([int(s, 16)],
                        [chr], slicing, [range], [str.lower], [str.title],
                        [datetime.date]) and the first-occurrence loop;
    - [EmailDecoder]    [src/scraper/email_decoder.py];
    - [Re]              the fragment of Python's [re] that the scrapers use;
    - [Soup]            what the scrapers read from a parsed page;
    - [Listing], [ListingScraper]
                        [src/scraper/listing_scraper.py];
    - [Model]           [src/models/event.py];
    - [Storage]         [src/storage/database.py];
    - [World]           the network, the clock, the store and the history
                        of actions, with [BaseScraper.fetch];
    - [Detail]          [src/scraper/detail_scraper.py];
    - [Crawl]           the crawl loop of [main.py];
    - [Parse]           [scrape_detail_page] and the body of the loop
                        with the exception the parser can raise;
    - [PyStr], [Months] [get_months_to_scrape] of [main.py] with the
                        built-ins it needs ([str.split], indexing, [int]);
    - [Fields]          the venue, description, website and price
                        heuristics of [src/scraper/detail_scraper.py];
    - [RegexSem]        which texts a pattern matches, stated without the
                        matcher;
    - [Accounting], [Steps], [Hex]
                        what the theorems count and tell apart.
    The modules whose names end in [Spec] or [Facts] hold the proofs.

    Conventions.  A Python [str] is a Rocq [string] over the alphabet of
    [Py.ord]: the code points 0..255, with the en dash, the euro sign and
    three letters beyond 255 in the place of five control characters; an
    [int] is a [Z]; [None] is [None]; an exception that the code catches
    is the [None] (or [Raise]) branch of the function that raises it.
    [Detail] and [Crawl] describe the runs in which the parser takes every
    page; [Parse] adds the exception it can raise.  Event ids are taken to
    fit the integers the store can hold, and an interruption by the user
    is not part of the model. *)

From Stdlib Require Import ZArith List Ascii String Bool Lia.
From stdpp Require Import gmap strings list.

(* ===================================================================== *)
(** * Python built-ins *)
(* ===================================================================== *)

Module Py.
Local Open Scope Z_scope.

(** ** The alphabet

    A [str] is a [string] over an alphabet of 256 characters.  [ord]
    gives the code point of each.  The alphabet holds the code points
    0..255 but for five control characters of the block U+0080..U+009F,
    which no page text holds and which the code treats like any other
    character that is no digit, blank or letter: their places are taken
    by the five characters beyond 255 that the code names in a pattern
    or that [str.title] and [str.lower] give on the rest of the
    alphabet. *)

(** U+20AC, the euro sign, named by the pattern of [_extract_price]. *)
Definition euro_sign : ascii := "128"%char.

(** U+2013, the en dash, named by the pattern of [_extract_times]. *)
Definition en_dash : ascii := "150"%char.

(** U+039C and U+03BC, the Greek letter mu: the capital is the title
    case of the micro sign U+00B5, the small letter its lower case. *)
Definition capital_mu : ascii := "141"%char.
Definition small_mu : ascii := "157"%char.

(** U+0178, the title case of U+00FF. *)
Definition capital_y_diaeresis : ascii := "159"%char.

(** [ord(c)] *)
Definition ord (c : ascii) : Z :=
  if Ascii.eqb c euro_sign then 8364
  else if Ascii.eqb c en_dash then 8211
  else if Ascii.eqb c capital_mu then 924
  else if Ascii.eqb c small_mu then 956
  else if Ascii.eqb c capital_y_diaeresis then 376
  else Z.of_N (N_of_ascii c).

Definition in_range (lo hi : Z) (c : ascii) : bool :=
  (lo <=? ord c) && (ord c <=? hi).

(** [s[i:j]] for [0 <= i <= j]: slices never raise, they truncate. *)
Definition slice (s : string) (i j : nat) : string :=
  String.substring i (j - i) s.

(** [range(start, stop, 2)] *)
Definition range_step2 (start stop : nat) : list nat :=
  map (fun j => (start + 2 * j)%nat) (seq 0 ((stop - start + 1) / 2)).

(** The white space [int()] skips: [Py_ISSPACE] on the ASCII part
    (TAB, LF, VT, FF, CR, SPACE) and, in a string that is not pure ASCII,
    the Unicode spaces, of which the alphabet holds U+0085 and U+00A0. *)
Definition int_space (c : ascii) : bool :=
  in_range 9 13 c || (ord c =? 32) || (ord c =? 133) || (ord c =? 160).

Fixpoint skip_space (s : string) : string :=
  match s with
  | String c s' => if int_space c then skip_space s' else s
  | EmptyString => s
  end.

(** Value of a digit in base 16, [None] for any other character. *)
Definition hex_value (c : ascii) : option Z :=
  if in_range 48 57 c then Some (ord c - 48)
  else if in_range 97 102 c then Some (ord c - 87)
  else if in_range 65 70 c then Some (ord c - 55)
  else None.

(** The digit scanner of [int]: digits with single underscores between
    them; a doubled or trailing underscore is a syntax error.  Returns
    the value, the number of digits and the unread rest. *)
Fixpoint scan_digits (s : string) (prev_underscore : bool) (digits : nat)
    (acc : Z) : option (Z * nat * string) :=
  match s with
  | String c s' =>
      match hex_value c with
      | Some d => scan_digits s' false (S digits) (acc * 16 + d)
      | None =>
          if Ascii.eqb c "_" then
            if prev_underscore then None
            else scan_digits s' true digits acc
          else if prev_underscore then None
          else Some (acc, digits, s)
      end
  | EmptyString =>
      if prev_underscore then None else Some (acc, digits, s)
  end.

(** [int(s, 16)]; [None] stands for [ValueError].  White space is
    stripped on both sides, a sign and a [0x] prefix (with one underscore
    after it) are accepted, at least one digit is required. *)
Definition int16 (s : string) : option Z :=
  let s1 := skip_space s in
  let '(sign, s2) :=
    match s1 with
    | String "+" r => (1, r)
    | String "-" r => (-1, r)
    | _ => (1, s1)
    end in
  let s3 :=
    match s2 with
    | String "0" (String x r) =>
        if Ascii.eqb x "x" || Ascii.eqb x "X"
        then match r with String "_" r' => r' | _ => r end
        else s2
    | _ => s2
    end in
  match s3 with
  | String "_" _ => None
  | _ =>
      match scan_digits s3 false 0 0 with
      | Some (v, S _, rest) =>
          match skip_space rest with
          | EmptyString => Some (sign * v)
          | _ => None
          end
      | _ => None
      end
  end.

(** [chr(i)]: the character with code point [i]; [ValueError] outside
    [range(0x110000)].  The result is kept as its code point.  (The codes
    the decoder computes lie between -256 and 255, far from the range
    where [chr] would raise another error.) *)
Definition chr (i : Z) : option Z :=
  if (0 <=? i) && (i <? 1114112) then Some i else None.

(** The two-digit lower-case hexadecimal form of a byte ([%02x]). *)
Definition hex_digit (d : Z) : ascii :=
  ascii_of_N (Z.to_N (if d <? 10 then 48 + d else 87 + d)).

Definition hex2 (b : Z) : string :=
  String (hex_digit (b / 16)) (String (hex_digit (b mod 16)) EmptyString).

(** [int(s)] for a text made of ASCII digits, as every text matched by
    [\d+] on the alphabet is. *)
Definition int_digits (s : string) : Z :=
  fold_left (fun acc c => acc * 10 + (ord c - 48)) (list_ascii_of_string s) 0.

(** [s.startswith(c)] for a one-character prefix. *)
Definition startswith (s : string) (c : ascii) : bool :=
  match s with
  | String x _ => Ascii.eqb x c
  | EmptyString => false
  end.

(** [needle in haystack] on strings. *)
Fixpoint contains (needle haystack : string) : bool :=
  String.prefix needle haystack ||
  match haystack with
  | String _ h' => contains needle h'
  | EmptyString => false
  end.

(** [s.replace(a, b)] for single characters. *)
Fixpoint replace (a b : ascii) (s : string) : string :=
  match s with
  | String c s' => String (if Ascii.eqb c a then b else c) (replace a b s')
  | EmptyString => EmptyString
  end.

(** Case of the characters below 256 whose other case lies 32 places
    away: the ASCII letters and the letters U+00C0..U+00DE and
    U+00E0..U+00FE (without the signs U+00D7, U+00F7). *)
Definition is_upper (c : ascii) : bool :=
  in_range 65 90 c || (in_range 192 222 c && negb (ord c =? 215)).

Definition is_lower_pair (c : ascii) : bool :=
  in_range 97 122 c || (in_range 224 254 c && negb (ord c =? 247)).

(** Cased characters: the letters above, the lower-case characters
    U+00AA, U+00B5, U+00BA, U+00DF, U+00FF and the letters U+0178,
    U+039C, U+03BC. *)
Definition is_cased (c : ascii) : bool :=
  is_upper c || is_lower_pair c || (ord c =? 170) || (ord c =? 181)
  || (ord c =? 186) || (ord c =? 223) || (ord c =? 255)
  || (ord c =? 376) || (ord c =? 924) || (ord c =? 956).

(** Lower case of one character: U+0178 becomes U+00FF and U+039C
    becomes U+03BC. *)
Definition lower_char (c : ascii) : ascii :=
  if is_upper c then ascii_of_N (N_of_ascii c + 32)
  else if ord c =? 376 then "255"%char
  else if ord c =? 924 then small_mu
  else c.

(** [str.lower()] *)
Fixpoint lower (s : string) : string :=
  match s with
  | String c s' => String (lower_char c) (lower s')
  | EmptyString => EmptyString
  end.

(** Title case of one character.  U+00DF becomes [Ss], U+00FF becomes
    U+0178, U+00B5 and U+03BC become U+039C. *)
Definition title_char (c : ascii) : string :=
  if is_lower_pair c then String (ascii_of_N (N_of_ascii c - 32)) EmptyString
  else if ord c =? 223 then "Ss"%string
  else if ord c =? 255 then String capital_y_diaeresis EmptyString
  else if (ord c =? 181) || (ord c =? 956) then String capital_mu EmptyString
  else String c EmptyString.

(** [str.title()]: a cased character is put in title case when the
    character before it is not cased, and in lower case otherwise. *)
Fixpoint title_from (previous_is_cased : bool) (s : string) : string :=
  match s with
  | String c s' =>
      (if previous_is_cased then String (lower_char c) EmptyString
       else title_char c) +:+ title_from (is_cased c) s'
  | EmptyString => EmptyString
  end.

Definition title (s : string) : string := title_from false s.

(** [datetime.date]: the constructor raises [ValueError] (here [None])
    unless year, month and day form a date of the proleptic Gregorian
    calendar with [1 <= year <= 9999]. *)
Record date := { year : Z; month : Z; day : Z }.

Definition is_leap (y : Z) : bool :=
  (y mod 4 =? 0) && (negb (y mod 100 =? 0) || (y mod 400 =? 0)).

Definition days_in_month (y m : Z) : Z :=
  if m =? 2 then (if is_leap y then 29 else 28)
  else if (m =? 4) || (m =? 6) || (m =? 9) || (m =? 11) then 30
  else 31.

Definition make_date (y m d : Z) : option date :=
  if (1 <=? y) && (y <=? 9999) && (1 <=? m) && (m <=? 12)
     && (1 <=? d) && (d <=? days_in_month y m)
  then Some {| year := y; month := m; day := d |}
  else None.

(** The loop that keeps, in order, the first item of every key:
    [seen = set()], then for each item [x], [if key(x) not in seen:
    seen.add(key(x)); unique.append(x)]. *)
Fixpoint unique_loop {A K : Type} `{Countable K} (key : A -> K)
    (items : list A) (seen : gset K) (unique : list A) : list A :=
  match items with
  | [] => unique
  | x :: items' =>
      if decide (key x ∈ seen) then unique_loop key items' seen unique
      else unique_loop key items' ({[key x]} ∪ seen) (unique ++ [x])
  end.

(** The items the loop appends, without the accumulator. *)
Fixpoint firsts {A K : Type} `{Countable K} (key : A -> K)
    (items : list A) (seen : gset K) : list A :=
  match items with
  | [] => []
  | x :: items' =>
      if decide (key x ∈ seen) then firsts key items' seen
      else x :: firsts key items' ({[key x]} ∪ seen)
  end.

End Py.

(* ===================================================================== *)
(** * The obfuscation decoder: [email_decoder.py] *)
(* ===================================================================== *)

Module EmailDecoder.
Local Open Scope Z_scope.

(** [decode_cloudflare_email].  The result is the decoded [str], given by
    the code points of its characters.  Every exception raised inside
    the [try] is a [ValueError] (from [int] or [chr]) and is caught. *)
Definition decode_cloudflare_email (encoded_string : string)
    : option (list Z) :=
  match encoded_string with
  | EmptyString => None
  | _ =>
      key ← Py.int16 (Py.slice encoded_string 0 2);
      mapM (fun i =>
              let hex_pair := Py.slice encoded_string i (i + 2) in
              code ← Py.int16 hex_pair;
              Py.chr (Z.lxor code key))
           (Py.range_step2 2 (String.length encoded_string))
  end.

(** The encoding scheme as the specification words it:
    [hex(k) + concat(hex(byte ^ k) for byte in plaintext)]. *)
Definition payload (k : Z) (plaintext : list Z) : string :=
  fold_right (fun byte acc => Py.hex2 (Z.lxor byte k) +:+ acc)
             EmptyString plaintext.

Definition xor_encode (k : Z) (plaintext : list Z) : string :=
  Py.hex2 k +:+ payload k plaintext.

Definition is_byte (b : Z) : Prop := 0 <= b < 256.

End EmailDecoder.

(* ===================================================================== *)
(** * The fragment of [re] used by the scrapers *)
(* ===================================================================== *)

Module Re.
Local Open Scope Z_scope.

(** Patterns: the constructs that occur in the modelled expressions.
    A repetition is always over a single-character item, as in
    [\d{1,2}], [\s+] or [.+]; all quantifiers are greedy. *)
Inductive re : Type :=
| Eps
| Char (p : ascii -> bool)
| Seq (r1 r2 : re)
| Alt (r1 r2 : re)
| Opt (r : re)
| Rep (p : ascii -> bool) (lo : nat) (hi : option nat)
| Group (n : nat) (r : re).

Definition groups := list (nat * string).

Record match_object := { group0 : string; captured : groups }.

(** The text read between the input [s] and its suffix [s']. *)
Definition consumed (s s' : string) : string :=
  String.substring 0 (String.length s - String.length s')%nat s.

Section Matcher.
Context {R : Type}.

(** Greedy repetition: take one more character while allowed, and give
    characters back one at a time when the rest of the pattern fails. *)
Fixpoint rep (p : ascii -> bool) (lo : nat) (hi : option nat) (s : string)
    (k : string -> option R) : option R :=
  let stop := match lo with O => k s | S _ => None end in
  match s with
  | String c s' =>
      if p c && negb (bool_decide (hi = Some O)) then
        match rep p (pred lo) (pred <$> hi) s' k with
        | Some x => Some x
        | None => stop
        end
      else stop
  | EmptyString => stop
  end.

(** Backtracking matcher in continuation-passing style: alternatives are
    tried in order, the first complete match wins. *)
Fixpoint walk (r : re) (s : string) (g : groups)
    (k : string -> groups -> option R) : option R :=
  match r with
  | Eps => k s g
  | Char p =>
      match s with
      | String c s' => if p c then k s' g else None
      | EmptyString => None
      end
  | Seq r1 r2 => walk r1 s g (fun s' g' => walk r2 s' g' k)
  | Alt r1 r2 =>
      match walk r1 s g k with
      | Some x => Some x
      | None => walk r2 s g k
      end
  | Opt r1 =>
      match walk r1 s g k with
      | Some x => Some x
      | None => k s g
      end
  | Rep p lo hi => rep p lo hi s (fun s' => k s' g)
  | Group n r1 =>
      walk r1 s g (fun s' g' => k s' ((n, consumed s s') :: g'))
  end.

End Matcher.

(** [pattern.match(s)]: a match that starts at the first character. *)
Definition re_match (r : re) (s : string) : option match_object :=
  walk r s [] (fun s' g => Some {| group0 := consumed s s'; captured := g |}).

(** [pattern.search(s)]: the leftmost position at which a match starts. *)
Fixpoint search (r : re) (s : string) : option match_object :=
  match re_match r s with
  | Some m => Some m
  | None =>
      match s with
      | String _ s' => search r s'
      | EmptyString => None
      end
  end.

(** [m.group(n)] for a group that took part in the match (every numbered
    group of the modelled patterns lies on the mandatory path). *)
Definition group (m : match_object) (n : nat) : string :=
  match n with
  | O => group0 m
  | _ => default EmptyString (snd <$> List.find (fun e => Nat.eqb (fst e) n) (captured m))
  end.

(** Character classes on the alphabet. *)
Definition digit (c : ascii) : bool := Py.in_range 48 57 c.

Definition space (c : ascii) : bool :=
  Py.in_range 9 13 c || Py.in_range 28 32 c
  || (Py.ord c =? 133) || (Py.ord c =? 160).

Definition dot (c : ascii) : bool := negb (Py.ord c =? 10).

Definition one_of (set : string) (c : ascii) : bool :=
  existsb (Ascii.eqb c) (list_ascii_of_string set).

Definition ascii_lower (c : ascii) : ascii :=
  if Py.in_range 65 90 c then ascii_of_N (N_of_ascii c + 32) else c.

(** A literal, and a literal under [re.IGNORECASE] (the letters of the
    modelled patterns are ASCII, so only ASCII case is folded). *)
Fixpoint lit (s : string) : re :=
  match s with
  | EmptyString => Eps
  | String c s' => Seq (Char (Ascii.eqb c)) (lit s')
  end.

Fixpoint lit_i (s : string) : re :=
  match s with
  | EmptyString => Eps
  | String c s' =>
      Seq (Char (fun x => Ascii.eqb (ascii_lower x) (ascii_lower c))) (lit_i s')
  end.

Fixpoint alts (rs : list re) : re :=
  match rs with
  | [] => Char (fun _ => false)
  | [r] => r
  | r :: rs' => Alt r (alts rs')
  end.

Fixpoint seqs (rs : list re) : re :=
  match rs with
  | [] => Eps
  | [r] => r
  | r :: rs' => Seq r (seqs rs')
  end.

End Re.

(* ===================================================================== *)
(** * Parsed pages *)
(* ===================================================================== *)

Module Soup.

(** What the scrapers read from a [BeautifulSoup] tree: the text of the
    whole page and its elements in document order, each with its name,
    its [href] attribute, the values of its [class] attribute and its
    text, stripped ([get_text(strip=True)]). *)
Record tag := {
  name : string;
  href : option string;
  class_ : list string;
  text : string
}.

Record soup := { get_text : string; tags : list tag }.

(** How an attribute filter given as a pattern is compared with a value:
    [pattern.search(value)]. *)
Definition matches (r : Re.re) (value : string) : bool :=
  bool_decide (is_Some (Re.search r value)).

(** A multi-valued attribute such as [class] matches when one of its
    values does, or when the values joined by spaces do. *)
Definition matches_values (r : Re.re) (values : list string) : bool :=
  existsb (matches r) values || matches r (String.concat " " values).

(** [soup.find_all('a', href=pattern)] *)
Definition find_all_href (r : Re.re) (s : soup) : list tag :=
  List.filter
    (fun t => String.eqb (name t) "a" &&
              match href t with Some h => matches r h | None => false end)
    (tags s).

(** [soup.find_all(names, class_=pattern)]; an element without a [class]
    attribute (no values) never matches. *)
Definition find_all_class (names : list string) (r : Re.re) (s : soup)
    : list tag :=
  List.filter
    (fun t => existsb (String.eqb (name t)) names &&
              matches_values r (class_ t))
    (tags s).

End Soup.

(* ===================================================================== *)
(** * Listing pages: [listing_scraper.py] *)
(* ===================================================================== *)

Module Listing.

Record EventLink := { id : Z; slug : string; url : string }.

(** [EVENT_LINK_PATTERN = re.compile(r'/rommelmarkt/(\d+)/(.+)')] *)
Definition EVENT_LINK_PATTERN : Re.re :=
  Re.seqs [Re.lit "/rommelmarkt/"; Re.Group 1 (Re.Rep Re.digit 1 None);
           Re.lit "/"; Re.Group 2 (Re.Rep Re.dot 1 None)].

(** The body of the first loop of [scrape_listing_page] for one anchor. *)
Definition link_of (base_url : string) (link : Soup.tag) : option EventLink :=
  href ← Soup.href link;
  match Re.re_match EVENT_LINK_PATTERN href with
  | Some m =>
      let event_id := Py.int_digits (Re.group m 1) in
      let slug := Re.group m 2 in
      let full_url :=
        if Py.startswith href "/" then base_url +:+ href else href in
      Some {| id := event_id; slug := slug; url := full_url |}
  | None => None
  end.

(** [event_links] after the first loop. *)
Definition event_links (base_url : string) (soup : Soup.soup)
    : list EventLink :=
  omap (link_of base_url) (Soup.find_all_href EVENT_LINK_PATTERN soup).

(** The second loop: [unique_links]. *)
Definition unique_links (links : list EventLink) : list EventLink :=
  Py.unique_loop id links ∅ [].

(** [scrape_listing_page] once the page has been fetched and parsed. *)
Definition links_of_page (base_url : string) (soup : Soup.soup)
    : list EventLink :=
  unique_links (event_links base_url soup).

End Listing.

(* ===================================================================== *)
(** * What lies outside the modelled sources *)
(* ===================================================================== *)

(** An exception raised by a callee: every one of them is an instance of
    [Exception] (an interruption by the user is not modelled). *)
Inductive result (A : Type) : Type :=
| Ok (a : A)
| Raise (e : string).
Arguments Ok {A} a.
Arguments Raise {A} e.

#[export] Instance result_ret : MRet result := fun A a => Ok a.
#[export] Instance result_bind : MBind result := fun A B f r =>
  match r with
  | Ok a => f a
  | Raise e => Raise e
  end.

(** Library types and functions: [decimal.Decimal], [float],
    [float(decimal)], [json.dumps] and [BeautifulSoup(html, 'lxml')]. *)
Class Platform := {
  Decimal : Type;
  float : Type;
  float_of_decimal : Decimal -> float;
  json_dumps : list string -> string;
  BeautifulSoup : string -> Soup.soup
}.

(* ===================================================================== *)
(** * The event record: [models/event.py] *)
(* ===================================================================== *)

Module Model.
Section Model.
Context `{Platform}.

Record Event := {
  id : Z;
  naam : string;
  gemeente : option string;
  postcode : option string;
  adres : option string;
  locatie_naam : option string;
  datum : option Py.date;
  start_tijd : option string;
  eind_tijd : option string;
  types : list string;
  inkom_prijs : option Decimal;
  standplaats_prijs : option Decimal;
  organisator : option string;
  telefoon : option string;
  email : option string;
  website : option string;
  beschrijving : option string;
  afbeelding_url : option string;
  source_url : string
}.

(** The values bound to the columns of the [events] table, in the order
    of the [INSERT] statement. *)
Record db_tuple := {
  c_id : Z;
  c_naam : string;
  c_gemeente : option string;
  c_postcode : option string;
  c_adres : option string;
  c_locatie_naam : option string;
  c_datum : option string;
  c_start_tijd : option string;
  c_eind_tijd : option string;
  c_types : string;
  c_inkom_prijs : option float;
  c_standplaats_prijs : option float;
  c_organisator : option string;
  c_telefoon : option string;
  c_email : option string;
  c_website : option string;
  c_beschrijving : option string;
  c_afbeelding_url : option string;
  c_source_url : string
}.

(** [date.isoformat()]: [YYYY-MM-DD]. *)
Definition digit_char (d : Z) : ascii := ascii_of_N (Z.to_N (48 + d mod 10)).

Definition isoformat (d : Py.date) : string :=
  let y := Py.year d in
  let m := Py.month d in
  let dd := Py.day d in
  string_of_list_ascii
    [digit_char (y / 1000); digit_char (y / 100); digit_char (y / 10);
     digit_char y; "-"%char; digit_char (m / 10); digit_char m; "-"%char;
     digit_char (dd / 10); digit_char dd].

(** [json.dumps(self.types) if self.types else '[]'] *)
Definition types_json (ts : list string) : string :=
  match ts with
  | [] => "[]"
  | _ => json_dumps ts
  end.

(** [Event.to_db_tuple] *)
Definition to_db_tuple (self : Event) : db_tuple :=
  {| c_id := id self;
     c_naam := naam self;
     c_gemeente := gemeente self;
     c_postcode := postcode self;
     c_adres := adres self;
     c_locatie_naam := locatie_naam self;
     c_datum := isoformat <$> datum self;
     c_start_tijd := start_tijd self;
     c_eind_tijd := eind_tijd self;
     c_types := types_json (types self);
     c_inkom_prijs := float_of_decimal <$> inkom_prijs self;
     c_standplaats_prijs := float_of_decimal <$> standplaats_prijs self;
     c_organisator := organisator self;
     c_telefoon := telefoon self;
     c_email := email self;
     c_website := website self;
     c_beschrijving := beschrijving self;
     c_afbeelding_url := afbeelding_url self;
     c_source_url := source_url self |}.

End Model.
End Model.

(* ===================================================================== *)
(** * The store: [storage/database.py] *)
(* ===================================================================== *)

Module Storage.
Section Storage.
Context `{Platform}.

(** A row of the table [events] (the schema created by [_init_schema]):
    the bound columns and the two time stamps, both declared
    [DEFAULT CURRENT_TIMESTAMP]. *)
Record row := {
  cols : Model.db_tuple;
  first_scraped_at : Z;
  last_updated_at : Z
}.

(** The table, keyed by its primary key [id]. *)
Definition table := gmap Z row.

(** [SELECT 1 FROM events WHERE id = ?] *)
Definition exists_row (db : gmap Z row) (event_id : Z) : bool :=
  bool_decide (is_Some (db !! event_id)).

(** The [UPDATE events SET ... WHERE id = ?] statement applied to the row
    it selects; [now] is [CURRENT_TIMESTAMP]. *)
Definition update_row (event : Model.Event) (now : Z) (r : row) : row :=
  {| cols :=
       {| Model.c_id := Model.c_id (cols r);
          Model.c_naam := Model.naam event;
          Model.c_gemeente := Model.gemeente event;
          Model.c_postcode := Model.postcode event;
          Model.c_adres := Model.adres event;
          Model.c_locatie_naam := Model.locatie_naam event;
          Model.c_datum := Model.isoformat <$> Model.datum event;
          Model.c_start_tijd := Model.start_tijd event;
          Model.c_eind_tijd := Model.eind_tijd event;
          Model.c_types := Model.types_json (Model.types event);
          Model.c_inkom_prijs := float_of_decimal <$> Model.inkom_prijs event;
          Model.c_standplaats_prijs :=
            float_of_decimal <$> Model.standplaats_prijs event;
          Model.c_organisator := Model.organisator event;
          Model.c_telefoon := Model.telefoon event;
          Model.c_email := Model.email event;
          Model.c_website := Model.website event;
          Model.c_beschrijving := Model.beschrijving event;
          Model.c_afbeelding_url := Model.afbeelding_url event;
          Model.c_source_url := Model.source_url event |};
     first_scraped_at := first_scraped_at r;
     last_updated_at := now |}.

(** The [INSERT INTO events (...) VALUES (...)] statement: the time
    stamps are not bound and take their default. *)
Definition insert_row (t : Model.db_tuple) (now : Z) : row :=
  {| cols := t; first_scraped_at := now; last_updated_at := now |}.

(** [Database.upsert_event] on the table. *)
Definition upsert_event (now : Z) (event : Model.Event) (db : gmap Z row)
    : gmap Z row :=
  let exists_ := exists_row db (Model.id event) in
  if exists_ then alter (update_row event now) (Model.id event) db
  else <[Model.id event := insert_row (Model.to_db_tuple event) now]> db.

(** Every row is stored under the id it carries. *)
Definition well_keyed (db : gmap Z row) : Prop :=
  forall i r, db !! i = Some r -> Model.c_id (cols r) = i.

End Storage.
End Storage.
(* ===================================================================== *)
(** * The world of a crawl: network, clock, store and history *)
(* ===================================================================== *)

Module World.

(** The observable actions of a crawl. *)
Inductive effect : Type :=
| HttpGet (url : string)
| DbExists (event_id : Z)
| DbWrite (event_id : Z).

(** The surroundings of a run: the configured base URL, what a request
    answers after a given history ([None] for a time-out, an HTTP error or
    any other failure of the request, all caught by [BaseScraper.fetch]),
    and the reading of the database clock. *)
Class Outside := {
  base_url : string;
  http_get : list effect -> string -> option string;
  current_timestamp : list effect -> Z
}.

Section World.
Context `{Platform} `{Outside}.

Record world := {
  db : gmap Z Storage.row;
  log : list effect
}.

Definition io (A : Type) : Type := world -> A * world.

Definition io_ret {A : Type} (a : A) : io A := fun w => (a, w).

Definition io_bind {A B : Type} (c : io A) (k : A -> io B) : io B :=
  fun w => let '(a, w') := c w in k a w'.

Definition emit (e : effect) (w : world) : world :=
  {| db := db w; log := log w ++ [e] |}.

(** [BaseScraper.fetch] *)
Definition fetch (url : string) : io (option string) :=
  fun w => (http_get (log w) url, emit (HttpGet url) w).

(** [Database.event_exists] *)
Definition event_exists (event_id : Z) : io bool :=
  fun w => (Storage.exists_row (db w) event_id, emit (DbExists event_id) w).

(** [Database.upsert_event]: the existence check, then the statement. *)
Definition upsert_event (event : Model.Event) : io unit :=
  fun w =>
    let w1 := emit (DbExists (Model.id event)) w in
    let now := current_timestamp (log w1) in
    (tt, {| db := Storage.upsert_event now event (db w1);
            log := log w1 ++ [DbWrite (Model.id event)] |}).

(** [for x in items: acc = body(x, acc)] *)
Fixpoint for_each {A S : Type} (body : A -> S -> io S) (items : list A)
    (acc : S) : io S :=
  match items with
  | [] => io_ret acc
  | x :: items' => io_bind (body x acc) (for_each body items')
  end.

End World.

Notation "'let*' x := c 'in' k" := (io_bind c (fun x => k))
  (at level 10, x pattern, c at level 100, k at level 200).

End World.
(* ===================================================================== *)
(** * Listing pages, fetched *)
(* ===================================================================== *)

Module ListingScraper.
Import World.
Section ListingScraper.
Context `{Platform} `{Outside}.

(** [ListingScraper.scrape_listing_page]; [not html] holds for a failed
    fetch and for an empty page. *)
Definition scrape_listing_page (province month : string)
    : io (list Listing.EventLink) :=
  let url :=
    base_url +:+ "/rommelmarkten-tijdens-" +:+ month +:+ "-in-" +:+ province in
  let* html := fetch url in
  match html with
  | None | Some EmptyString => io_ret []
  | Some html => io_ret (Listing.links_of_page base_url (BeautifulSoup html))
  end.

End ListingScraper.
End ListingScraper.

(* ===================================================================== *)
(** * Detail pages: [detail_scraper.py] *)
(* ===================================================================== *)

Module Detail.
Import World.

(** [DUTCH_MONTHS] *)
Definition DUTCH_MONTHS : gmap string Z :=
  list_to_map
    [("januari", 1); ("jan", 1);
     ("februari", 2); ("feb", 2);
     ("maart", 3); ("mrt", 3); ("mar", 3);
     ("april", 4); ("apr", 4);
     ("mei", 5);
     ("juni", 6); ("jun", 6);
     ("juli", 7); ("jul", 7);
     ("augustus", 8); ("aug", 8);
     ("september", 9); ("sep", 9); ("sept", 9);
     ("oktober", 10); ("okt", 10); ("oct", 10);
     ("november", 11); ("nov", 11);
     ("december", 12); ("dec", 12)]%Z.

(** The pattern of [_extract_datum], compiled with [re.IGNORECASE]:
    [(?:ma|di|...|zondag)\s+(\d{1,2})\s+(jan(?:uari)?|...)\s+(\d{4})]. *)
Definition weekday : Re.re :=
  Re.alts (map Re.lit_i
    ["ma"; "di"; "wo"; "do"; "vr"; "za"; "zo"; "maandag"; "dinsdag";
     "woensdag"; "donderdag"; "vrijdag"; "zaterdag"; "zondag"]).

Definition with_tail (head tail : string) : Re.re :=
  Re.Seq (Re.lit_i head) (Re.Opt (Re.lit_i tail)).

Definition month_name : Re.re :=
  Re.alts
    [with_tail "jan" "uari"; with_tail "feb" "ruari"; Re.lit_i "mrt";
     with_tail "mar" "t"; with_tail "apr" "il"; Re.lit_i "mei";
     with_tail "jun" "i"; with_tail "jul" "i"; with_tail "aug" "ustus";
     Re.Seq (Re.lit_i "sep")
            (Re.Opt (Re.Seq (Re.lit_i "t") (Re.Opt (Re.lit_i "ember"))));
     with_tail "okt" "ober"; Re.lit_i "oct"; with_tail "nov" "ember";
     with_tail "dec" "ember"].

Definition date_pattern : Re.re :=
  Re.seqs
    [weekday; Re.Rep Re.space 1 None;
     Re.Group 1 (Re.Rep Re.digit 1 (Some 2)); Re.Rep Re.space 1 None;
     Re.Group 2 month_name; Re.Rep Re.space 1 None;
     Re.Group 3 (Re.Rep Re.digit 4 (Some 4))].

(** [_extract_datum]: the [ValueError] of [date(...)] is caught. *)
Definition _extract_datum (soup : Soup.soup) : option Py.date :=
  let text := Soup.get_text soup in
  match Re.search date_pattern text with
  | Some m =>
      let day := Py.int_digits (Re.group m 1) in
      let month_str := Py.lower (Re.group m 2) in
      let year := Py.int_digits (Re.group m 3) in
      match DUTCH_MONTHS !! month_str with
      | Some month => Py.make_date year month day
      | None => None
      end
  | None => None
  end.

(** The pattern of [_extract_times]:
    [(\d{1,2}[:.]\d{2})\s*[-...tot]+\s*(\d{1,2}[:.]\d{2})]; the class in
    the middle holds the hyphen, the en dash U+2013 and the letters [t]
    and [o]. *)
Definition clock_time : Re.re :=
  Re.seqs [Re.Rep Re.digit 1 (Some 2); Re.Char (Re.one_of ":.");
           Re.Rep Re.digit 2 (Some 2)].

Definition time_pattern : Re.re :=
  Re.seqs
    [Re.Group 1 clock_time; Re.Rep Re.space 0 None;
     Re.Rep (Re.one_of (String "-" (String Py.en_dash "tot"))) 1 None;
     Re.Rep Re.space 0 None;
     Re.Group 2 clock_time].

(** [_extract_times] *)
Definition _extract_times (soup : Soup.soup) : list string :=
  let text := Soup.get_text soup in
  match Re.search time_pattern text with
  | Some m =>
      let start := Py.replace "." ":" (Re.group m 1) in
      let end_ := Py.replace "." ":" (Re.group m 2) in
      [start; end_]
  | None => []
  end.

(** [_extract_start_tijd]: [times[0] if times else None] *)
Definition _extract_start_tijd (soup : Soup.soup) : option string :=
  let times := _extract_times soup in
  match times with
  | [] => None
  | _ => times !! 0%nat
  end.

(** [_extract_eind_tijd]: [times[1] if len(times) > 1 else None] *)
Definition _extract_eind_tijd (soup : Soup.soup) : option string :=
  let times := _extract_times soup in
  if bool_decide (1 < length times)%nat then times !! 1%nat else None.

(** [_extract_types] *)
Definition known_types : list string :=
  ["rommelmarkt"; "binnenrommelmarkt"; "buitenrommelmarkt";
   "antiekbeurs"; "brocante beurs"; "brocantebeurs";
   "kinderrommelmarkt"; "tweedehandsmarkt"; "vlooienmarkt";
   "verzamelbeurs"; "curiosamarkt"; "garageverkoop"].

Definition badge_class : Re.re :=
  Re.alts (map Re.lit_i ["badge"; "btn"; "theme"; "tag"; "label"; "category"]).

(** The elements the first loop visits. *)
Definition badges (soup : Soup.soup) : list Soup.tag :=
  Soup.find_all_class ["span"; "a"; "div"] badge_class soup.

(** The body of the first loop for one element: what it appends. *)
Definition type_of (element : Soup.tag) : option string :=
  let text := Py.lower (Soup.text element) in
  if existsb (String.eqb text) known_types
     || existsb (fun kt => Py.contains kt text) known_types
  then Some (Py.title text)
  else None.

Definition _extract_types (soup : Soup.soup) : list string :=
  let types := omap type_of (badges soup) in
  Py.unique_loop Py.lower types ∅ [].

(** The reading of the types under which the page's own casing is kept:
    every entry is the text of a badge as the page shows it. *)
Definition keeps_page_casing (soup : Soup.soup) : Prop :=
  forall t, t ∈ _extract_types soup ->
            exists e, e ∈ badges soup /\ Soup.text e = t.

Section DetailScraper.
Context `{Platform} `{Outside}.

(** The field heuristics that are not embedded: each reads the parsed
    page (or the URL) and returns its value or raises. *)
Record location_info := {
  li_gemeente : option string;
  li_postcode : option string;
  li_adres : option string
}.

Class FieldRules := {
  _extract_location_info : Soup.soup -> result location_info;
  _extract_title : Soup.soup -> result string;
  _title_from_url : string -> result string;
  _extract_locatie_naam : Soup.soup -> result (option string);
  _extract_inkom_prijs : Soup.soup -> result (option Decimal);
  _extract_standplaats_prijs : Soup.soup -> result (option Decimal);
  _extract_organisator : Soup.soup -> result (option string);
  _extract_telefoon : Soup.soup -> result (option string);
  _extract_email : Soup.soup -> result (option string);
  _extract_website : Soup.soup -> result (option string);
  _extract_beschrijving : Soup.soup -> result (option string);
  _extract_afbeelding : Soup.soup -> result (option string)
}.

Context `{FieldRules}.

(** The body of the [try] block of [scrape_detail_page]. *)
Definition extract_event (url : string) (event_id : Z) (soup : Soup.soup)
    : result Model.Event :=
  location_info ← _extract_location_info soup;
  naam ← _extract_title soup;
  naam ← (if String.eqb naam "Onbekend" then _title_from_url url
          else Ok naam);
  locatie_naam ← _extract_locatie_naam soup;
  let datum := _extract_datum soup in
  let start_tijd := _extract_start_tijd soup in
  let eind_tijd := _extract_eind_tijd soup in
  let types := _extract_types soup in
  inkom_prijs ← _extract_inkom_prijs soup;
  standplaats_prijs ← _extract_standplaats_prijs soup;
  organisator ← _extract_organisator soup;
  telefoon ← _extract_telefoon soup;
  email ← _extract_email soup;
  website ← _extract_website soup;
  beschrijving ← _extract_beschrijving soup;
  afbeelding_url ← _extract_afbeelding soup;
  Ok {| Model.id := event_id;
        Model.naam := naam;
        Model.gemeente := li_gemeente location_info;
        Model.postcode := li_postcode location_info;
        Model.adres := li_adres location_info;
        Model.locatie_naam := locatie_naam;
        Model.datum := datum;
        Model.start_tijd := start_tijd;
        Model.eind_tijd := eind_tijd;
        Model.types := types;
        Model.inkom_prijs := inkom_prijs;
        Model.standplaats_prijs := standplaats_prijs;
        Model.organisator := organisator;
        Model.telefoon := telefoon;
        Model.email := email;
        Model.website := website;
        Model.beschrijving := beschrijving;
        Model.afbeelding_url := afbeelding_url;
        Model.source_url := url |}.

(** [DetailScraper.scrape_detail_page] on the pages the parser takes:
    [None] when the page could not be fetched (or is empty) and when
    anything in the [try] block raised.  [Parse.scrape_detail_page] is
    the function with the exception of the parser, raised before the
    [try] block. *)
Definition scrape_detail_page (url : string) (event_id : Z)
    : io (option Model.Event) :=
  let* html := fetch url in
  match html with
  | None | Some EmptyString => io_ret None
  | Some html =>
      let soup := BeautifulSoup html in
      match extract_event url event_id soup with
      | Ok event => io_ret (Some event)
      | Raise _ => io_ret None
      end
  end.

(** What [scrape_detail_page] returns, read off the answer of the
    network and the run of the [try] block. *)
Definition outcome (url : string) (event_id : Z) (w : world)
    : option Model.Event :=
  match http_get (log w) url with
  | None | Some EmptyString => None
  | Some html =>
      match extract_event url event_id (BeautifulSoup html) with
      | Ok event => Some event
      | Raise _ => None
      end
  end.

End DetailScraper.
End Detail.
(* ===================================================================== *)
(** * The crawl: [main.py] *)
(* ===================================================================== *)

Module Crawl.
Import World.
Local Open Scope Z_scope.

(** The statistics kept by [main]. *)
Record stats := {
  total_events : Z;
  new_events : Z;
  updated_events : Z;
  skipped_events : Z;
  failed_events : Z
}.

Definition count_total (s : stats) : stats :=
  {| total_events := total_events s + 1; new_events := new_events s;
     updated_events := updated_events s; skipped_events := skipped_events s;
     failed_events := failed_events s |}.

Definition count_new (s : stats) : stats :=
  {| total_events := total_events s; new_events := new_events s + 1;
     updated_events := updated_events s; skipped_events := skipped_events s;
     failed_events := failed_events s |}.

Definition count_updated (s : stats) : stats :=
  {| total_events := total_events s; new_events := new_events s;
     updated_events := updated_events s + 1;
     skipped_events := skipped_events s; failed_events := failed_events s |}.

Definition count_skipped (s : stats) : stats :=
  {| total_events := total_events s; new_events := new_events s;
     updated_events := updated_events s;
     skipped_events := skipped_events s + 1;
     failed_events := failed_events s |}.

Definition count_failed (s : stats) : stats :=
  {| total_events := total_events s; new_events := new_events s;
     updated_events := updated_events s; skipped_events := skipped_events s;
     failed_events := failed_events s + 1 |}.

Section Crawl.
Context `{Platform} `{Outside} `{!Detail.FieldRules}.

(** The body of [for link in event_links].  In
    [not args.full_refresh and db.event_exists(link.id)] the store is
    asked only when [full_refresh] is off. *)
Definition process_link (full_refresh : bool) (link : Listing.EventLink)
    (s : stats) : io stats :=
  let s := count_total s in
  let* skip :=
    (if negb full_refresh then event_exists (Listing.id link)
     else io_ret false) in
  if skip then io_ret (count_skipped s)
  else
    let* event :=
      Detail.scrape_detail_page (Listing.url link) (Listing.id link) in
    match event with
    | Some event =>
        let* was_existing := event_exists (Listing.id link) in
        let* _ := upsert_event event in
        if was_existing then io_ret (count_updated s)
        else io_ret (count_new s)
    | None => io_ret (count_failed s)
    end.

(** The world in which the detail page of a link is scraped: the one
    left by the existence check, which a full refresh does not make. *)
Definition after_check (full_refresh : bool) (link : Listing.EventLink)
    (w : world) : world :=
  if full_refresh then w else emit (DbExists (Listing.id link)) w.

(** The body of [for month in months]. *)
Definition scrape_month (full_refresh : bool) (province month : string)
    (s : stats) : io stats :=
  let* event_links := ListingScraper.scrape_listing_page province month in
  for_each (process_link full_refresh) event_links s.

(** The two outer loops of [main]. *)
Definition crawl (full_refresh : bool) (provinces months : list string)
    (s : stats) : io stats :=
  for_each
    (fun province =>
       for_each (fun month => scrape_month full_refresh province month)
                months)
    provinces s.

End Crawl.
End Crawl.
(* ===================================================================== *)
(** * Detail pages the parser refuses *)
(* ===================================================================== *)

Module Parse.
Import World Crawl.

Section Parse.
Context `{Platform} `{Outside} `{!Detail.FieldRules}.

(** [BeautifulSoup(html, 'lxml')] stands at line 62 of
    [detail_scraper.py], after the test of [html] and before the [try]
    block, and the constructor can raise: a [UnicodeEncodeError] on a
    text that holds a lone surrogate, [FeatureNotFound] where the parser
    is not installed.  [parser_error html] is the exception it raises on
    [html], if it raises one; where it raises none, the tree it returns
    is [BeautifulSoup html]. *)
Class Constructor := { parser_error : string -> option string }.

Context `{Constructor}.

(** [DetailScraper.scrape_detail_page] on every page.  [Ok None] is the
    [None] the function returns, [Raise e] an exception that leaves
    it. *)
Definition scrape_detail_page (url : string) (event_id : Z)
    : io (result (option Model.Event)) :=
  let* html := fetch url in
  match html with
  | None | Some EmptyString => io_ret (Ok None)
  | Some html =>
      match parser_error html with
      | Some e => io_ret (Raise e)
      | None =>
          let soup := BeautifulSoup html in
          match Detail.extract_event url event_id soup with
          | Ok event => io_ret (Ok (Some event))
          | Raise _ => io_ret (Ok None)
          end
      end
  end.

(** The body of [for link in event_links] on every page.  [main] wraps
    its loops in [try: ... except KeyboardInterrupt], so an exception
    that leaves [scrape_detail_page] leaves the loops and [main] as
    well: the run ends with it, here [Raise e]. *)
Definition process_link (full_refresh : bool) (link : Listing.EventLink)
    (s : stats) (w : world) : result (stats * world) :=
  let s := count_total s in
  let '(skip, w) :=
    (if negb full_refresh then event_exists (Listing.id link)
     else io_ret false) w in
  if skip then Ok (count_skipped s, w)
  else
    let '(answer, w) :=
      scrape_detail_page (Listing.url link) (Listing.id link) w in
    match answer with
    | Raise e => Raise e
    | Ok (Some event) =>
        let '(was_existing, w) := event_exists (Listing.id link) w in
        let '(_, w) := upsert_event event w in
        Ok (if was_existing then count_updated s else count_new s, w)
    | Ok None => Ok (count_failed s, w)
    end.

End Parse.
End Parse.
(* ===================================================================== *)
(** * Pages and surroundings for the worked examples *)
(* ===================================================================== *)

Module Pages.

Definition anchor (h : string) : Soup.tag :=
  {| Soup.name := "a"; Soup.href := Some h; Soup.class_ := [];
     Soup.text := EmptyString |}.

(** A listing page with the given links, in document order. *)
Definition page_of (hrefs : list string) : Soup.soup :=
  {| Soup.get_text := EmptyString; Soup.tags := anchor <$> hrefs |}.

(** A page with the given text and no elements of interest. *)
Definition text_page (t : string) : Soup.soup :=
  {| Soup.get_text := t; Soup.tags := [] |}.

Definition badge (t : string) : Soup.tag :=
  {| Soup.name := "span"; Soup.href := None; Soup.class_ := ["badge"%string];
     Soup.text := t |}.

(** A detail page with one badge per given text. *)
Definition badge_page (ts : list string) : Soup.soup :=
  {| Soup.get_text := EmptyString; Soup.tags := badge <$> ts |}.

End Pages.

Module Demo.
Import World.

(** Stand-ins for the libraries: decimals and floats are integers (cents),
    [json.dumps] joins the items, and the parser keeps the text. *)
Definition platform : Platform :=
  {| Decimal := Z;
     float := Z;
     float_of_decimal := fun d => d;
     json_dumps := String.concat ", ";
     BeautifulSoup := Pages.text_page |}.

Definition detail_url : string :=
  "https://www.rommelmarkten.be/rommelmarkt/42/markt-temse".

(** A site that serves one detail page and nothing else, and a clock
    that counts the actions so far. *)
Definition outside : Outside :=
  {| base_url := "https://www.rommelmarkten.be";
     http_get := fun _ url =>
       if String.eqb url detail_url
       then Some "Rommelmarkt za 7 feb 2026 van 9.00 - 17:00"%string
       else None;
     current_timestamp := fun history => Z.of_nat (length history) |}.

(** Field rules that find a title and nothing else. *)
Definition rules : @Detail.FieldRules platform :=
  {| Detail._extract_location_info := fun _ =>
       Ok {| Detail.li_gemeente := None; Detail.li_postcode := None;
             Detail.li_adres := None |};
     Detail._extract_title := fun _ => Ok "Rommelmarkt Temse"%string;
     Detail._title_from_url := fun _ => Ok "Markt Temse"%string;
     Detail._extract_locatie_naam := fun _ => Ok None;
     Detail._extract_inkom_prijs := fun _ => Ok None;
     Detail._extract_standplaats_prijs := fun _ => Ok None;
     Detail._extract_organisator := fun _ => Ok None;
     Detail._extract_telefoon := fun _ => Ok None;
     Detail._extract_email := fun _ => Ok None;
     Detail._extract_website := fun _ => Ok None;
     Detail._extract_beschrijving := fun _ => Ok None;
     Detail._extract_afbeelding := fun _ => Ok None |}.

(** Field rules whose title heuristic fails on every page. *)
Definition failing_rules : @Detail.FieldRules platform :=
  {| Detail._extract_location_info := fun _ =>
       Ok {| Detail.li_gemeente := None; Detail.li_postcode := None;
             Detail.li_adres := None |};
     Detail._extract_title := fun _ => Raise "AttributeError"%string;
     Detail._title_from_url := fun _ => Ok "Markt Temse"%string;
     Detail._extract_locatie_naam := fun _ => Ok None;
     Detail._extract_inkom_prijs := fun _ => Ok None;
     Detail._extract_standplaats_prijs := fun _ => Ok None;
     Detail._extract_organisator := fun _ => Ok None;
     Detail._extract_telefoon := fun _ => Ok None;
     Detail._extract_email := fun _ => Ok None;
     Detail._extract_website := fun _ => Ok None;
     Detail._extract_beschrijving := fun _ => Ok None;
     Detail._extract_afbeelding := fun _ => Ok None |}.

Definition link42 : Listing.EventLink :=
  {| Listing.id := 42; Listing.slug := "markt-temse";
     Listing.url := detail_url |}.

Definition event42 : @Model.Event platform :=
  {| Model.id := 42; Model.naam := "Rommelmarkt Temse";
     Model.gemeente := Some "Temse"%string; Model.postcode := None;
     Model.adres := None; Model.locatie_naam := None;
     Model.datum := Some {| Py.year := 2026; Py.month := 2; Py.day := 7 |};
     Model.start_tijd := Some "9:00"%string;
     Model.eind_tijd := Some "17:00"%string;
     Model.types := ["Rommelmarkt"%string];
     Model.inkom_prijs := Some (450%Z : @Decimal platform);
     Model.standplaats_prijs := None;
     Model.organisator := None; Model.telefoon := None; Model.email := None;
     Model.website := None; Model.beschrijving := None;
     Model.afbeelding_url := None; Model.source_url := detail_url |}.

Definition zero : Crawl.stats :=
  {| Crawl.total_events := 0; Crawl.new_events := 0;
     Crawl.updated_events := 0; Crawl.skipped_events := 0;
     Crawl.failed_events := 0 |}.

(** The world whose store holds event 42, inserted at time 5. *)
Definition stored_world : @world platform :=
  {| db := Storage.upsert_event 5 event42 ∅; log := [] |}.

End Demo.

(* ===================================================================== *)
(** * What a pattern reads, stated without the search order *)
(* ===================================================================== *)

Module RegexSem.
Import Re.

Definition all_chars (p : ascii -> bool) (w : string) : Prop :=
  Forall (fun c => p c = true) (list_ascii_of_string w).

Definition within (hi : option nat) (n : nat) : Prop :=
  match hi with
  | Some h => n <= h
  | None => True
  end.

(** [parses r s g s' g']: the pattern [r] can read a prefix of [s], leaving
    [s'], and turn the captures [g] into [g']. *)
Fixpoint parses (r : re) (s : string) (g : groups) (s' : string)
    (g' : groups) : Prop :=
  match r with
  | Eps => s' = s /\ g' = g
  | Char p => exists c, s = String c s' /\ p c = true /\ g' = g
  | Seq r1 r2 =>
      exists s1 g1, parses r1 s g s1 g1 /\ parses r2 s1 g1 s' g'
  | Alt r1 r2 => parses r1 s g s' g' \/ parses r2 s g s' g'
  | Opt r1 => (s' = s /\ g' = g) \/ parses r1 s g s' g'
  | Rep p lo hi =>
      g' = g /\
      exists w, s = w +:+ s' /\ all_chars p w /\
                lo <= String.length w /\ within hi (String.length w)
  | Group n r1 =>
      exists g1, parses r1 s g s' g1 /\ g' = (n, consumed s s') :: g1
  end.

End RegexSem.

(* ===================================================================== *)
(** * More built-ins *)
(* ===================================================================== *)

Module PyStr.
Local Open Scope Z_scope.

(** [s.startswith(prefix)] *)
Definition startswith (s prefix : string) : bool := String.prefix prefix s.

(** [sep.join(items)] *)
Definition join (sep : string) (items : list string) : string :=
  String.concat sep items.

(** [s.split(sep)] for a one-character separator: the pieces between the
    separators, empty pieces included. *)
Fixpoint split_from (sep : ascii) (s : string) (piece : string)
    : list string :=
  match s with
  | EmptyString => [piece]
  | String c s' =>
      if Ascii.eqb c sep then piece :: split_from sep s' EmptyString
      else split_from sep s' (piece +:+ String c EmptyString)
  end.

Definition split (sep : ascii) (s : string) : list string :=
  split_from sep s EmptyString.

(** [items[i]]: a negative index counts from the end; [None] stands for
    [IndexError]. *)
Definition getitem {A : Type} (items : list A) (i : Z) : option A :=
  let n := Z.of_nat (length items) in
  if (0 <=? i) && (i <? n) then items !! Z.to_nat i
  else if (- n <=? i) && (i <? 0) then items !! Z.to_nat (n + i)
  else None.

(** [range(n)] *)
Definition range (n : Z) : list Z := Z.of_nat <$> seq 0 (Z.to_nat n).

Definition dec_value (c : ascii) : option Z :=
  if Py.in_range 48 57 c then Some (Py.ord c - 48) else None.

(** The digit scanner of [int] in base 10 (see [Py.scan_digits]). *)
Fixpoint scan_decimal (s : string) (prev_underscore : bool) (digits : nat)
    (acc : Z) : option (Z * nat * string) :=
  match s with
  | String c s' =>
      match dec_value c with
      | Some d => scan_decimal s' false (S digits) (acc * 10 + d)
      | None =>
          if Ascii.eqb c "_" then
            if prev_underscore then None
            else scan_decimal s' true digits acc
          else if prev_underscore then None
          else Some (acc, digits, s)
      end
  | EmptyString =>
      if prev_underscore then None else Some (acc, digits, s)
  end.

(** [int(s)]; [None] stands for [ValueError].  [max_str_digits] is the
    interpreter's limit on the number of digits ([0] for none); a longer
    number is a [ValueError]. *)
Definition int10 (max_str_digits : nat) (s : string) : option Z :=
  let s1 := Py.skip_space s in
  let '(sign, s2) :=
    match s1 with
    | String "+" r => (1, r)
    | String "-" r => (-1, r)
    | _ => (1, s1)
    end in
  match s2 with
  | String "_" _ => None
  | _ =>
      match scan_decimal s2 false 0 0 with
      | Some (v, S n, rest) =>
          if (0 <? max_str_digits)%nat && (max_str_digits <? S n)%nat
          then None
          else
            match Py.skip_space rest with
            | EmptyString => Some (sign * v)
            | _ => None
            end
      | _ => None
      end
  end.

(** A text within the interpreter's limit on digits. *)
Definition within_limit (max_str_digits : nat) (ds : string) : Prop :=
  max_str_digits = 0%nat \/ (String.length ds <= max_str_digits)%nat.

End PyStr.

(* ===================================================================== *)
(** * The months to scrape: [get_months_to_scrape] of [main.py] *)
(* ===================================================================== *)

Module Months.
Local Open Scope Z_scope.

(** [DUTCH_MONTHS] of [main.py] *)
Definition DUTCH_MONTHS : list string :=
  ["januari"; "februari"; "maart"; "april"; "mei"; "juni";
   "juli"; "augustus"; "september"; "oktober"; "november"; "december"].

(** The two keys of the target configuration the function reads:
    [month_selection], a text when present, and [months], present here
    when the key holds a list. *)
Record target := {
  month_selection : option string;
  months : option (list string)
}.

(** [[DUTCH_MONTHS[(current_month_idx + i) % 12] for i in range(n)]];
    [None] stands for an [IndexError]. *)
Definition months_ahead (current_month_idx n : Z) : option (list string) :=
  mapM (fun i => PyStr.getitem DUTCH_MONTHS ((current_month_idx + i) mod 12))
       (PyStr.range n).

(** The month [k] places after january, counted round the year. *)
Definition month_at (k : Z) : string :=
  nth (Z.to_nat (k mod 12)) DUTCH_MONTHS EmptyString.

(** [n] months in a row, the first one [k] places after january. *)
Definition months_from (k n : Z) : list string :=
  (fun i => month_at (k + i)) <$> PyStr.range n.

(** [get_months_to_scrape]; [now_month] is [datetime.now().month].  The
    result [None] stands for an exception that leaves the function. *)
Definition get_months_to_scrape (max_str_digits : nat) (now_month : Z)
    (config : target) : option (list string) :=
  let selection := default "next_3"%string (month_selection config) in
  match months config with
  | Some explicit => Some explicit
  | None =>
      let current_month_idx := now_month - 1 in
      if String.eqb selection "all" then Some DUTCH_MONTHS
      else if String.eqb selection "current" then
        m ← PyStr.getitem DUTCH_MONTHS current_month_idx; Some [m]
      else
        let attempt :=
          if PyStr.startswith selection "next_" then
            piece ← PyStr.getitem (PyStr.split "_" selection) 1;
            count ← PyStr.int10 max_str_digits piece;
            months_ahead current_month_idx (count + 1)
          else None in
        match attempt with
        | Some found => Some found
        | None => months_ahead current_month_idx 4
        end
  end.

End Months.

(* ===================================================================== *)
(** * More field heuristics of [detail_scraper.py] *)
(* ===================================================================== *)

Module Fields.
Local Open Scope Z_scope.

(** [soup.find_all(name)] *)
Definition find_all (name : string) (soup : Soup.soup) : list Soup.tag :=
  List.filter (fun t => String.eqb (Soup.name t) name) (Soup.tags soup).

(** [any(word in text.lower() for word in words)] *)
Definition mentions (words : list string) (text : string) : bool :=
  existsb (fun word => Py.contains word (Py.lower text)) words.

Definition day_names : list string :=
  ["maandag"; "dinsdag"; "woensdag"; "donderdag";
   "vrijdag"; "zaterdag"; "zondag"].

(** [_extract_locatie_naam] *)
Definition _extract_locatie_naam (soup : Soup.soup) : option string :=
  Soup.text <$>
    List.find (fun h4 => negb (mentions day_names (Soup.text h4)))
              (find_all "h4" soup).

Definition skip_words : list string :=
  ["cookie"; "privacy"; "copyright"; "advertentie"].

(** The test a paragraph passes to enter the description. *)
Definition describes (text : string) : bool :=
  (50 <? String.length text)%nat && negb (mentions skip_words text).

Definition blank_line : string := String "010" (String "010" EmptyString).

(** [_extract_beschrijving] *)
Definition _extract_beschrijving (soup : Soup.soup) : option string :=
  let descriptions :=
    List.filter describes (Soup.text <$> find_all "p" soup) in
  match descriptions with
  | [] => None
  | _ => Some (PyStr.join blank_line (take 3 descriptions))
  end.

(** The pattern of [_extract_website], compiled with [re.IGNORECASE]:
    [(?:website|www|http)[:\s]*(https?://U+|www\.U+)], where [U] stands
    for the class of the characters other than blanks, [<], [>] and the
    double quote (code 34). *)
Definition colon_or_space (c : ascii) : bool :=
  Ascii.eqb c ":" || Re.space c.

Definition url_char (c : ascii) : bool :=
  negb (Re.space c || Ascii.eqb c "<" || Ascii.eqb c ">"
        || Ascii.eqb c "034").

Definition url_pattern : Re.re :=
  Re.seqs
    [Re.alts [Re.lit_i "website"; Re.lit_i "www"; Re.lit_i "http"];
     Re.Rep colon_or_space 0 None;
     Re.Group 1
       (Re.Alt
          (Re.seqs [Re.lit_i "http"; Re.Opt (Re.lit_i "s"); Re.lit "://";
                    Re.Rep url_char 1 None])
          (Re.seqs [Re.lit_i "www"; Re.lit "."; Re.Rep url_char 1 None]))].

(** The test of the first loop of [_extract_website] on an anchor;
    [find_all('a', href=True)] keeps the anchors that carry an [href]. *)
Definition external_link (link : Soup.tag) : bool :=
  match Soup.href link with
  | Some href =>
      PyStr.startswith href "http"
      && negb (Py.contains "rommelmarkten.be" href)
      && negb (PyStr.startswith href "mailto:")
  | None => false
  end.

(** [_extract_website] *)
Definition _extract_website (soup : Soup.soup) : option string :=
  match List.find external_link (find_all "a" soup) with
  | Some link => Soup.href link
  | None =>
      match Re.search url_pattern (Soup.get_text soup) with
      | Some m =>
          let url := Re.group m 1 in
          Some (if PyStr.startswith url "http" then url
                else "http://" +:+ url)
      | None => None
      end
  end.

(** The shape [H:MM] or [HH:MM] of a time of day, digits around a colon. *)
Definition clock_text (t : string) : bool :=
  match list_ascii_of_string t with
  | [h; c; m1; m2] =>
      Re.digit h && Ascii.eqb c ":" && Re.digit m1 && Re.digit m2
  | [h1; h2; c; m1; m2] =>
      Re.digit h1 && Re.digit h2 && Ascii.eqb c ":" && Re.digit m1
      && Re.digit m2
  | _ => false
  end.

(** A [Decimal]: the number [coefficient * 10 ^ exponent] (no sign: the
    texts read below carry none). *)
Record decimal := { coefficient : Z; exponent : Z }.

Fixpoint all_digits (s : string) : bool :=
  match s with
  | EmptyString => true
  | String c s' => Re.digit c && all_digits s'
  end.

(** The part of a text before its first dot, and the part after it. *)
Fixpoint cut_at_dot (s : string) : string * option string :=
  match s with
  | EmptyString => (EmptyString, None)
  | String c s' =>
      if Ascii.eqb c "." then (EmptyString, Some s')
      else let '(a, b) := cut_at_dot s' in (String c a, b)
  end.

(** [Decimal(s)] for a text made of digits and dots (no sign, exponent,
    blank, underscore or special value); [None] stands for
    [InvalidOperation]. *)
Definition Decimal (s : string) : option decimal :=
  let '(whole, fraction) := cut_at_dot s in
  let frac := default EmptyString fraction in
  if all_digits whole && all_digits frac
     && (0 <? String.length whole + String.length frac)%nat
  then Some {| coefficient := Py.int_digits (whole +:+ frac);
               exponent := - Z.of_nat (String.length frac) |}
  else None.

(** The pattern [_extract_price] builds for a keyword made of letters,
    compiled with [re.IGNORECASE]:
    [keyword[:\s]*\**(\d+(?:[,\.]\d+)?)\s*(?:...|EUR|euro)?\**]; the first
    currency mark is the euro sign U+20AC. *)
Definition comma_or_dot (c : ascii) : bool :=
  Ascii.eqb c "," || Ascii.eqb c ".".

Definition amount : Re.re :=
  Re.Seq (Re.Rep Re.digit 1 None)
         (Re.Opt (Re.Seq (Re.Char comma_or_dot) (Re.Rep Re.digit 1 None))).

Definition price_pattern (keyword : string) : Re.re :=
  Re.seqs
    [Re.lit_i keyword; Re.Rep colon_or_space 0 None;
     Re.Rep (Ascii.eqb "*") 0 None; Re.Group 1 amount;
     Re.Rep Re.space 0 None;
     Re.Opt (Re.alts [Re.lit (String Py.euro_sign EmptyString);
                      Re.lit_i "EUR"; Re.lit_i "euro"]);
     Re.Rep (Ascii.eqb "*") 0 None].

(** [_extract_price] *)
Fixpoint _extract_price (soup : Soup.soup) (keywords : list string)
    : option decimal :=
  match keywords with
  | [] => None
  | keyword :: keywords' =>
      match Re.search (price_pattern keyword) (Soup.get_text soup) with
      | Some m =>
          let price_str := Py.replace "," "." (Re.group m 1) in
          match Decimal price_str with
          | Some price => Some price
          | None => _extract_price soup keywords'
          end
      | None => _extract_price soup keywords'
      end
  end.

(** What it means that the first keyword found in the text decides the
    price: no keyword is found and there is no price, or the price is
    the amount that follows the first keyword, in the order of the list,
    whose pattern is found. *)
Definition first_keyword_decides (soup : Soup.soup) (keywords : list string)
    (result : option decimal) : Prop :=
  let found keyword :=
    Re.search (price_pattern keyword) (Soup.get_text soup) in
  match result with
  | None => Forall (fun keyword => found keyword = None) keywords
  | Some price =>
      exists before keyword after m,
        keywords = before ++ keyword :: after /\
        Forall (fun earlier => found earlier = None) before /\
        found keyword = Some m /\
        Decimal (Py.replace "," "." (Re.group m 1)) = Some price
  end.

(** [_extract_inkom_prijs] and [_extract_standplaats_prijs] *)
Definition _extract_inkom_prijs (soup : Soup.soup) : option decimal :=
  _extract_price soup ["inkom"; "toegang"; "entree"; "entrance"].

Definition _extract_standplaats_prijs (soup : Soup.soup) : option decimal :=
  _extract_price soup ["standplaats"; "stand"; "tafel"; "kraam"].

End Fields.

(* ===================================================================== *)
(** * Measures of a run *)
(* ===================================================================== *)

Module Accounting.
Import World.

(** The number of requests in a history. *)
Definition requests (history : list effect) : nat :=
  length (List.filter (fun e => match e with HttpGet _ => true | _ => false end)
                      history).

(** The number of statements that wrote a row. *)
Definition writes (history : list effect) : nat :=
  length (List.filter (fun e => match e with DbWrite _ => true | _ => false end)
                      history).

(** [Database.get_event_count]: [SELECT COUNT( * ) FROM events]. *)
Definition get_event_count `{Platform} (db : gmap Z Storage.row) : Z :=
  Z.of_nat (size db).

(** The candidates that were not skipped, as the counters tell. *)
Definition processed (s : Crawl.stats) : Z :=
  (Crawl.new_events s + Crawl.updated_events s + Crawl.failed_events s)%Z.

End Accounting.

(* ===================================================================== *)
(** * Well-formed input of the decoder *)
(* ===================================================================== *)

Module Hex.

Definition is_hex (c : ascii) : bool :=
  match Py.hex_value c with
  | Some _ => true
  | None => false
  end.

(** A text of hexadecimal pairs: an even number of hexadecimal digits. *)
Definition hex_pairs (s : string) : bool :=
  forallb is_hex (list_ascii_of_string s) && Nat.even (String.length s).

Definition is_code (c : Z) : Prop := (0 <= c < 256)%Z.

(** All characters, for properties checked on each of them. *)
Definition all_ascii : list ascii := map ascii_of_nat (seq 0 256).

(** The values [int(s, 16)] takes on a text of at most two characters,
    sign included. *)
Definition small (v : Z) : bool := ((-256 <? v) && (v <? 256))%Z.

Definition small_values : list Z :=
  map (fun n => (Z.of_nat n - 255)%Z) (seq 0 511).

(** A pair of hexadecimal digits is read as a byte. *)
Definition pair_ok (p : string) : bool :=
  match p with
  | String a (String b EmptyString) =>
      if is_hex a && is_hex b then
        match Py.int16 p with
        | Some v => ((0 <=? v) && (v <? 256))%Z
        | None => false
        end
      else true
  | _ => true
  end.

End Hex.

(* ===================================================================== *)
(** * The ways one candidate can be handled *)
(* ===================================================================== *)

Module Steps.
Import World Crawl.
Section Steps.
Context `{Platform} `{Outside} `{!Detail.FieldRules}.
Local Open Scope Z_scope.

(** The four ways the body of the loop can end. *)
Inductive step_kind : Type := Skipped | Failed | Inserted | Updated.

Definition step (full_refresh : bool) (link : Listing.EventLink)
    (s : stats) (w : world) (kind : step_kind) (s' : stats) (w' : world)
    : Prop :=
  let i := Listing.id link in
  let w0 := after_check full_refresh link w in
  let w1 := emit (HttpGet (Listing.url link)) w0 in
  match kind with
  | Skipped =>
      full_refresh = false /\ is_Some (db w !! i) /\
      s' = count_skipped (count_total s) /\ w' = emit (DbExists i) w
  | Failed =>
      (full_refresh = true \/ db w !! i = None) /\
      Detail.outcome (Listing.url link) i w0 = None /\
      s' = count_failed (count_total s) /\ w' = w1
  | Inserted =>
      db w !! i = None /\
      exists event,
        Detail.outcome (Listing.url link) i w0 = Some event /\
        Model.id event = i /\
        s' = count_new (count_total s) /\
        db w' = <[i := Storage.insert_row (Model.to_db_tuple event)
                         (current_timestamp (log w1 ++ [DbExists i; DbExists i]))]>
                  (db w) /\
        log w' = log w1 ++ [DbExists i; DbExists i; DbWrite i]
  | Updated =>
      full_refresh = true /\
      exists event r,
        db w !! i = Some r /\
        Detail.outcome (Listing.url link) i w0 = Some event /\
        Model.id event = i /\
        s' = count_updated (count_total s) /\
        db w' = <[i := Storage.update_row event
                         (current_timestamp (log w1 ++ [DbExists i; DbExists i])) r]>
                  (db w) /\
        log w' = log w1 ++ [DbExists i; DbExists i; DbWrite i]
  end.

End Steps.
End Steps.

(* ===================================================================== *)
(** * Sample records *)
(* ===================================================================== *)

Module Samples.

(** The record of event 42 after the site moved it to another day. *)
Definition event42_moved : @Model.Event Demo.platform :=
  {| Model.id := 42; Model.naam := "Rommelmarkt Temse";
     Model.gemeente := Some "Temse"%string; Model.postcode := None;
     Model.adres := None; Model.locatie_naam := None;
     Model.datum := Some {| Py.year := 2026; Py.month := 2; Py.day := 8 |};
     Model.start_tijd := None; Model.eind_tijd := None;
     Model.types := [];
     Model.inkom_prijs := None; Model.standplaats_prijs := None;
     Model.organisator := None; Model.telefoon := None; Model.email := None;
     Model.website := None; Model.beschrijving := None;
     Model.afbeelding_url := None; Model.source_url := Demo.detail_url |}.


(** A constructor that refuses the detail page of [Demo.outside] and
    takes every other page. *)
Definition refusing : @Parse.Constructor :=
  {| Parse.parser_error := fun html =>
       if String.eqb html "Rommelmarkt za 7 feb 2026 van 9.00 - 17:00"
       then Some "UnicodeEncodeError"%string else None |}.

(** A site with a listing page for february in Oost-Vlaanderen that links
    to event 42, and the detail page of that event; the parser finds the
    link on the listing page. *)
Definition listing_html : string := "Rommelmarkten in februari".

Definition site_platform : Platform :=
  {| Decimal := Z;
     float := Z;
     float_of_decimal := fun d => d;
     json_dumps := String.concat ", ";
     BeautifulSoup := fun html =>
       if String.eqb html listing_html
       then Pages.page_of ["/rommelmarkt/42/markt-temse"%string]
       else Pages.text_page html |}.

Definition site : World.Outside :=
  {| World.base_url := "https://www.rommelmarkten.be";
     World.http_get := fun _ url =>
       if String.eqb url
            "https://www.rommelmarkten.be/rommelmarkten-tijdens-februari-in-oost-vlaanderen"
       then Some listing_html
       else if String.eqb url Demo.detail_url
       then Some "Rommelmarkt za 7 feb 2026 van 9.00 - 17:00"%string
       else None;
     World.current_timestamp := fun history => Z.of_nat (length history) |}.

Definition site_rules : @Detail.FieldRules site_platform :=
  {| Detail._extract_location_info := fun _ =>
       Ok {| Detail.li_gemeente := None; Detail.li_postcode := None;
             Detail.li_adres := None |};
     Detail._extract_title := fun _ => Ok "Rommelmarkt Temse"%string;
     Detail._title_from_url := fun _ => Ok "Markt Temse"%string;
     Detail._extract_locatie_naam := fun _ => Ok None;
     Detail._extract_inkom_prijs := fun _ => Ok None;
     Detail._extract_standplaats_prijs := fun _ => Ok None;
     Detail._extract_organisator := fun _ => Ok None;
     Detail._extract_telefoon := fun _ => Ok None;
     Detail._extract_email := fun _ => Ok None;
     Detail._extract_website := fun _ => Ok None;
     Detail._extract_beschrijving := fun _ => Ok None;
     Detail._extract_afbeelding := fun _ => Ok None |}.

(** The row of event 42 as an earlier crawl of the site left it, at
    time 5, before the site gave the event its hours. *)
Definition site_row : @Storage.row site_platform :=
  {| Storage.cols :=
       {| Model.c_id := 42; Model.c_naam := "Rommelmarkt Temse";
          Model.c_gemeente := None; Model.c_postcode := None;
          Model.c_adres := None; Model.c_locatie_naam := None;
          Model.c_datum := Some "2026-02-07"%string;
          Model.c_start_tijd := None; Model.c_eind_tijd := None;
          Model.c_types := "[]";
          Model.c_inkom_prijs := None; Model.c_standplaats_prijs := None;
          Model.c_organisator := None; Model.c_telefoon := None;
          Model.c_email := None; Model.c_website := None;
          Model.c_beschrijving := None; Model.c_afbeelding_url := None;
          Model.c_source_url := Demo.detail_url |};
     Storage.first_scraped_at := 5;
     Storage.last_updated_at := 5 |}.

Definition site_world : @World.world site_platform :=
  {| World.db := {[ 42%Z := site_row ]}; World.log := [] |}.

End Samples.

(* ===================================================================== *)
(** * Facts about the built-ins *)
(* ===================================================================== *)

Module PyFacts.
Local Open Scope Z_scope.

Lemma byte_cases (P : Z -> Prop) :
  Forall P (map Z.of_nat (seq 0 256)) -> forall b, 0 <= b < 256 -> P b.
Proof.
  intros HP b Hb.
  rewrite Forall_forall in HP. apply HP.
  apply list_elem_of_In, in_map_iff. exists (Z.to_nat b). split; [lia|].
  apply in_seq. lia.
Qed.

Lemma int16_hex2 b : 0 <= b < 256 -> Py.int16 (Py.hex2 b) = Some b.
Proof.
  revert b. apply byte_cases.
  apply Forall_forall. intros b Hb.
  assert (Hall : forallb
            (fun b => bool_decide (Py.int16 (Py.hex2 b) = Some b))
            (map Z.of_nat (seq 0 256)) = true) by (vm_compute; reflexivity).
  rewrite forallb_forall in Hall.
  apply list_elem_of_In in Hb. apply Hall in Hb.
  by apply bool_decide_eq_true in Hb.
Qed.

Lemma lxor_byte a b : 0 <= a < 256 -> 0 <= b < 256 -> 0 <= Z.lxor a b < 256.
Proof.
  intros Ha Hb.
  assert (Hnn : 0 <= Z.lxor a b) by (apply Z.lxor_nonneg; lia).
  split; [done|].
  destruct (Z.eq_dec (Z.lxor a b) 0) as [->|Hne]; [lia|].
  change 256 with (2 ^ 8). apply Z.log2_lt_pow2; [lia|].
  pose proof (Z.log2_lxor a b ltac:(lia) ltac:(lia)) as Hl.
  assert (Z.log2 a < 8).
  { destruct (Z.eq_dec a 0) as [->|]; [done|]. apply Z.log2_lt_pow2; lia. }
  assert (Z.log2 b < 8).
  { destruct (Z.eq_dec b 0) as [->|]; [done|]. apply Z.log2_lt_pow2; lia. }
  lia.
Qed.

Lemma lxor_cancel b k : Z.lxor (Z.lxor b k) k = b.
Proof. by rewrite Z.lxor_assoc, Z.lxor_nilpotent, Z.lxor_0_r. Qed.

Lemma chr_byte c : 0 <= c < 256 -> Py.chr c = Some c.
Proof.
  intros Hc. unfold Py.chr.
  destruct (Z.leb_spec 0 c), (Z.ltb_spec c 1114112); simpl; try done; lia.
Qed.

Lemma app_cons c (s t : string) : String c s +:+ t = String c (s +:+ t).
Proof. reflexivity. Qed.

Lemma app_nil (t : string) : EmptyString +:+ t = t.
Proof. reflexivity. Qed.

Lemma substring_pair (pre : string) a b rest :
  String.substring (String.length pre) 2
    (pre +:+ String a (String b rest)) = String a (String b EmptyString).
Proof.
  induction pre as [|c pre IH].
  - rewrite app_nil. cbn. by destruct rest.
  - rewrite app_cons. cbn. exact IH.
Qed.

Lemma length_app (s t : string) :
  String.length (s +:+ t) = (String.length s + String.length t)%nat.
Proof.
  induction s as [|c s IH]; [done|].
  rewrite app_cons. cbn. by rewrite IH.
Qed.

Lemma app_assoc (s t u : string) : (s +:+ t) +:+ u = s +:+ (t +:+ u).
Proof.
  induction s as [|c s IH]; [done|].
  rewrite !app_cons. by rewrite IH.
Qed.

End PyFacts.

(* ===================================================================== *)
(** * The obfuscation decoder, verified *)
(* ===================================================================== *)

Module DecoderSpec.
Import EmailDecoder.
Local Open Scope Z_scope.

Lemma payload_length k p :
  String.length (payload k p) = (2 * length p)%nat.
Proof.
  induction p as [|b p IH]; [done|].
  change (payload k (b :: p)) with (Py.hex2 (Z.lxor b k) +:+ payload k p).
  rewrite PyFacts.length_app, IH. unfold Py.hex2.
  cbn [String.length length]. lia.
Qed.

(** The loop of the decoder, run over the payload that follows any prefix,
    gives the plaintext back. *)
Lemma decode_payload k p :
  is_byte k -> Forall is_byte p ->
  forall pre : string,
    mapM (fun i =>
            code ← Py.int16 (Py.slice (pre +:+ payload k p) i (i + 2));
            Py.chr (Z.lxor code k))
         (map (fun j => (String.length pre + 2 * j)%nat) (seq 0 (length p)))
    = Some p.
Proof.
  intros Hk. induction 1 as [|b p Hb Hp IH]; intros pre; [done|].
  change (payload k (b :: p)) with (Py.hex2 (Z.lxor b k) +:+ payload k p).
  cbn [length seq map mapM].
  replace (String.length pre + 2 * 0)%nat with (String.length pre) by lia.
  assert (Hpair : Py.slice (pre +:+ (Py.hex2 (Z.lxor b k) +:+ payload k p))
                    (String.length pre) (String.length pre + 2)
                  = Py.hex2 (Z.lxor b k)).
  { unfold Py.slice.
    replace (String.length pre + 2 - String.length pre)%nat with 2%nat by lia.
    unfold Py.hex2. rewrite !PyFacts.app_cons, PyFacts.app_nil.
    apply PyFacts.substring_pair. }
  rewrite Hpair, PyFacts.int16_hex2 by (by apply PyFacts.lxor_byte).
  cbn [mbind option_bind].
  rewrite PyFacts.lxor_cancel, (PyFacts.chr_byte b Hb).
  cbn [mbind option_bind].
  rewrite <- seq_shift, map_map.
  specialize (IH (pre +:+ Py.hex2 (Z.lxor b k))).
  rewrite PyFacts.app_assoc, PyFacts.length_app in IH.
  change (String.length (Py.hex2 (Z.lxor b k))) with 2%nat in IH.
  rewrite (map_ext _ (fun j => (String.length pre + 2 + 2 * j)%nat))
    by (intros j; lia).
  by rewrite IH.
Qed.

(** C2.  For every single-byte key [k] and every sequence of bytes
    [plaintext], decoding [hex(k) + concat(hex(byte ^ k) for byte in
    plaintext)] returns exactly [plaintext]: the decoder is a left
    inverse of the XOR encoding. *)
Theorem C2_decode_xor_encode (k : Z) (plaintext : list Z) :
  is_byte k -> Forall is_byte plaintext ->
  decode_cloudflare_email (xor_encode k plaintext) = Some plaintext.
Proof.
  intros Hk Hp.
  unfold xor_encode, decode_cloudflare_email.
  assert (Hlen : String.length (Py.hex2 k +:+ payload k plaintext)
                 = (2 + 2 * length plaintext)%nat).
  { rewrite PyFacts.length_app, payload_length. done. }
  assert (Hkey : Py.slice (Py.hex2 k +:+ payload k plaintext) 0 2
                 = Py.hex2 k).
  { unfold Py.slice, Py.hex2. rewrite !PyFacts.app_cons, PyFacts.app_nil.
    cbn. by destruct (payload k plaintext). }
  destruct (Py.hex2 k +:+ payload k plaintext) as [|c0 s0] eqn:Henc.
  { simpl in Hlen. lia. }
  rewrite <- Henc in *. clear Henc c0 s0.
  rewrite Hkey, PyFacts.int16_hex2 by done.
  cbn [mbind option_bind].
  rewrite Hlen. unfold Py.range_step2.
  replace ((2 + 2 * length plaintext - 2 + 1) / 2)%nat
    with (length plaintext).
  2:{ replace (2 + 2 * length plaintext - 2 + 1)%nat
        with (1 + length plaintext * 2)%nat by lia.
      rewrite Nat.div_add by lia. done. }
  apply (decode_payload k plaintext Hk Hp (Py.hex2 k)).
Qed.

(** A run of C2 on the key 0x42 and the text [a@b.c]. *)
Lemma C2_witness :
  decode_cloudflare_email (xor_encode 66 [97; 64; 98; 46; 99])
  = Some [97; 64; 98; 46; 99].
Proof.
  apply (C2_decode_xor_encode 66 [97; 64; 98; 46; 99]).
  - unfold is_byte. lia.
  - repeat constructor; unfold is_byte; lia.
Defined.

(** C3 (the code departs from the claim).  The odd-length input ["abc"]
    is not rejected: the key is 0xab, the last slice is the single
    character ["c"], which [int] reads as 12, and the decoder returns the
    one-character text U+00A7.  So is a pair with a sign or a blank. *)
Theorem C3_odd_length_is_decoded :
  decode_cloudflare_email "abc" = Some [167] /\
  decode_cloudflare_email "a" = Some [] /\
  decode_cloudflare_email "00+f" = Some [15] /\
  decode_cloudflare_email "00 f" = Some [15].
Proof. repeat split; vm_compute; reflexivity. Qed.

(** What the decoder does reject: an empty text, an unreadable key, and
    any slice that [int] cannot read. *)
Lemma decode_empty : decode_cloudflare_email "" = None.
Proof. reflexivity. Qed.

Lemma decode_bad_key s :
  Py.int16 (Py.slice s 0 2) = None -> decode_cloudflare_email s = None.
Proof. intros Hk. unfold decode_cloudflare_email. rewrite Hk. by destruct s. Qed.

Example decode_rejects_non_hex :
  decode_cloudflare_email "zz12" = None /\
  decode_cloudflare_email "12zz" = None /\
  decode_cloudflare_email "12g" = None.
Proof. repeat split; vm_compute; reflexivity. Qed.

End DecoderSpec.
(* ===================================================================== *)
(** * The first-occurrence loop *)
(* ===================================================================== *)

Module UniqueFacts.
Section Unique.
Context {A K : Type} `{Countable K} (key : A -> K).

(** The accumulator only collects what [firsts] lists. *)
Lemma unique_loop_firsts items seen unique :
  Py.unique_loop key items seen unique = unique ++ Py.firsts key items seen.
Proof.
  revert seen unique. induction items as [|x items IH]; intros seen unique.
  - cbn. by rewrite app_nil_r.
  - cbn. case_decide; [apply IH|].
    rewrite IH. by rewrite <- app_assoc.
Qed.

Lemma firsts_elem items seen y :
  y ∈ Py.firsts key items seen -> y ∈ items /\ key y ∉ seen.
Proof.
  revert seen. induction items as [|x items IH]; intros seen; cbn.
  - by intros ?%elem_of_nil.
  - case_decide as Hx.
    + intros Hin. destruct (IH _ Hin) as [? ?]. split; [by right|done].
    + intros [->|Hin]%elem_of_cons; [split; [by left|done]|].
      destruct (IH _ Hin) as [? Hn]. split; [by right|].
      intros ?. apply Hn, elem_of_union. by right.
Qed.

Lemma firsts_NoDup items seen : NoDup (key <$> Py.firsts key items seen).
Proof.
  revert seen. induction items as [|x items IH]; intros seen; cbn.
  - constructor.
  - case_decide; [apply IH|].
    rewrite fmap_cons. constructor; [|apply IH].
    intros (y & Hy & Hin)%list_elem_of_fmap.
    apply firsts_elem in Hin as [_ Hn]. set_solver.
Qed.


Lemma firsts_covers items seen x :
  x ∈ items -> key x ∉ seen ->
  exists y, y ∈ Py.firsts key items seen /\ key y = key x.
Proof.
  revert seen. induction items as [|z items IH]; intros seen; cbn.
  - by intros ?%elem_of_nil.
  - intros Hin Hx. case_decide as Hz.
    + apply elem_of_cons in Hin as [->|Hin]; [done|by apply IH].
    + destruct (decide (key z = key x)) as [Heq|Hne].
      * exists z. split; [by left|done].
      * apply elem_of_cons in Hin as [->|Hin]; [done|].
        assert (Hx' : key x ∉ {[key z]} ∪ seen).
        { intros [Heq%elem_of_singleton|?]%elem_of_union; [|done].
          by apply Hne. }
        destruct (IH ({[key z]} ∪ seen) Hin Hx') as (y & Hy & Hk).
        exists y. split; [by right|done].
Qed.

Lemma firsts_first items seen y :
  y ∈ Py.firsts key items seen ->
  exists pre post, items = pre ++ y :: post /\ key y ∉ (key <$> pre).
Proof.
  revert seen. induction items as [|z items IH]; intros seen; cbn.
  - by intros ?%elem_of_nil.
  - case_decide as Hz.
    + intros Hin. pose proof (firsts_elem _ _ _ Hin) as [_ Hy].
      destruct (IH _ Hin) as (pre & post & -> & Hpre).
      exists (z :: pre), post. split; [done|].
      rewrite fmap_cons. intros [Heq|?]%elem_of_cons; [|done].
      rewrite Heq in Hy. done.
    + intros [->|Hin]%elem_of_cons.
      * exists [], items. split; [done|]. by intros ?%elem_of_nil.
      * pose proof (firsts_elem _ _ _ Hin) as [_ Hy].
        destruct (IH _ Hin) as (pre & post & -> & Hpre).
        exists (z :: pre), post. split; [done|].
        rewrite fmap_cons. intros [Heq|?]%elem_of_cons; [|done].
        set_solver.
Qed.

(** The order of the output is that of the first occurrences: of two
    items kept, the one kept first stands in the input before the first
    item that has the key of the other. *)
Lemma firsts_order items seen i j a b :
  Py.firsts key items seen !! i = Some a ->
  Py.firsts key items seen !! j = Some b ->
  (i < j)%nat ->
  exists pre mid post,
    items = pre ++ a :: mid ++ b :: post /\
    (key a ∉ (key <$> pre)) /\
    key b ∉ (key <$> (pre ++ a :: mid)).
Proof.
  revert seen i j. induction items as [|z items IH]; intros seen i j; cbn.
  - by rewrite lookup_nil.
  - case_decide as Hz.
    + intros Hi Hj Hlt.
      destruct (firsts_elem _ _ _ (list_elem_of_lookup_2 _ _ _ Hi))
        as [_ Ha].
      destruct (firsts_elem _ _ _ (list_elem_of_lookup_2 _ _ _ Hj))
        as [_ Hb].
      destruct (IH _ _ _ Hi Hj Hlt) as (pre & mid & post & -> & Hpa & Hpb).
      exists (z :: pre), mid, post. split; [done|]. split.
      * rewrite fmap_cons. intros [Heq|?]%elem_of_cons; [|done].
        by rewrite Heq in Ha.
      * cbn [app]. rewrite fmap_cons.
        intros [Heq|?]%elem_of_cons; [|done]. by rewrite Heq in Hb.
    + destruct j as [|j]; [lia|]. cbn [lookup list_lookup].
      intros Hi Hj Hlt.
      destruct (firsts_elem _ _ _ (list_elem_of_lookup_2 _ _ _ Hj))
        as [_ Hb].
      assert (Hbz : key b <> key z) by set_solver.
      destruct i as [|i].
      * injection Hi as <-.
        destruct (firsts_first _ _ _ (list_elem_of_lookup_2 _ _ _ Hj))
          as (mid & post & -> & Hmid).
        exists [], mid, post. split; [done|]. split.
        -- by intros ?%elem_of_nil.
        -- cbn [app]. rewrite fmap_cons.
           intros [?|?]%elem_of_cons; done.
      * cbn [lookup list_lookup] in Hi.
        destruct (firsts_elem _ _ _ (list_elem_of_lookup_2 _ _ _ Hi))
          as [_ Ha].
        assert (Haz : key a <> key z) by set_solver.
        destruct (IH _ _ _ Hi Hj ltac:(lia))
          as (pre & mid & post & -> & Hpa & Hpb).
        exists (z :: pre), mid, post. split; [done|]. split.
        -- rewrite fmap_cons. intros [?|?]%elem_of_cons; done.
        -- cbn [app]. rewrite fmap_cons.
           intros [?|?]%elem_of_cons; done.
Qed.

End Unique.
End UniqueFacts.

(* ===================================================================== *)
(** * Listing discovery, verified *)
(* ===================================================================== *)

Module ListingSpec.
Import Listing Pages.

Lemma unique_links_firsts links : unique_links links = Py.firsts id links ∅.
Proof. unfold unique_links. by rewrite UniqueFacts.unique_loop_firsts. Qed.

(** Whatever the network answers, the links a listing page yields carry
    pairwise different ids. *)
Lemma scrape_listing_page_NoDup `{Platform} `{World.Outside}
    (province month : string) (w : World.world) :
  NoDup (id <$> (ListingScraper.scrape_listing_page province month w).1).
Proof.
  unfold ListingScraper.scrape_listing_page, World.io_bind, World.fetch.
  destruct (World.http_get (World.log w) _) as [[|c html]|]; cbn;
    try constructor.
  unfold links_of_page. rewrite unique_links_firsts.
  apply UniqueFacts.firsts_NoDup.
Qed.


(** The pattern is applied with [match], which anchors it at the first
    character: a matching [href] starts with the slash of the pattern. *)
Lemma match_starts_with_slash href m :
  Re.re_match EVENT_LINK_PATTERN href = Some m -> Py.startswith href "/" = true.
Proof.
  destruct href as [|c href]; [done|].
  unfold Re.re_match, EVENT_LINK_PATTERN.
  cbn [Re.walk Re.seqs Re.lit Py.startswith].
  destruct (Ascii.eqb_spec "/" c) as [<-|]; done.
Qed.

(** So the [else] branch that keeps an absolute [href] is never taken:
    every candidate's URL is the base URL followed by the [href]. *)
Lemma link_of_url base t l :
  link_of base t = Some l ->
  exists href, Soup.href t = Some href /\ url l = base +:+ href /\
               Py.startswith href "/" = true.
Proof.
  unfold link_of. destruct (Soup.href t) as [href|]; [|done].
  cbn [mbind option_bind].
  destruct (Re.re_match EVENT_LINK_PATTERN href) as [m|] eqn:Hm; [|done].
  pose proof (match_starts_with_slash _ _ Hm) as Hs. rewrite Hs.
  intros [= <-]. exists href. done.
Qed.

(** C7 (the code departs from the claim).  An anchor whose [href] is an
    absolute URL of the detail-page shape is selected by [find_all], whose
    filter searches the pattern anywhere in the value, but yields no
    candidate; the same link given site-relative yields the candidate
    with the absolute URL. *)
Theorem C7_absolute_href_is_dropped :
  let base := "https://www.rommelmarkten.be"%string in
  let absolute := "https://www.rommelmarkten.be/rommelmarkt/42/foo"%string in
  Soup.find_all_href EVENT_LINK_PATTERN (page_of [absolute])
    = [anchor absolute] /\
  links_of_page base (page_of [absolute]) = [] /\
  links_of_page base (page_of ["/rommelmarkt/42/foo"%string])
    = [{| id := 42; slug := "foo";
          url := "https://www.rommelmarkten.be/rommelmarkt/42/foo" |}].
Proof. repeat split; vm_compute; reflexivity. Qed.

End ListingSpec.

(* ===================================================================== *)
(** * Field extraction, verified *)
(* ===================================================================== *)

Module DetailSpec.
Import Detail Pages.

(** C8 (the code departs from the claim).  [maart] is a month of the
    synonym table, yet a page that reads [za 7 maart 2026] yields no
    date: the pattern spells the month [mar(?:t)?] and cannot read it.
    The two examples of the specification behave as it says: [za 7 feb
    2026] gives 2026-02-07 and the impossible [zo 30 feb 2026] gives no
    date. *)
Theorem C8_maart_is_not_recognised :
  DUTCH_MONTHS !! "maart"%string = Some 3%Z /\
  _extract_datum (text_page "za 7 maart 2026") = None /\
  _extract_datum (text_page "za 7 feb 2026")
    = Some {| Py.year := 2026; Py.month := 2; Py.day := 7 |} /\
  _extract_datum (text_page "zo 30 feb 2026") = None.
Proof. repeat split; vm_compute; reflexivity. Qed.

(** C9, as worded, fails: a badge that reads [ROMMELMARKT] is reported
    as [Rommelmarkt], a casing that appears nowhere on the page. *)
Lemma C9_counterexample : ~ keeps_page_casing (badge_page ["ROMMELMARKT"%string]).
Proof.
  intros Hk.
  destruct (Hk "Rommelmarkt"%string) as (e & He & Ht).
  { vm_compute. left. }
  vm_compute in He.
  apply list_elem_of_singleton in He. subst e. discriminate Ht.
Qed.

Lemma extract_types_firsts soup :
  _extract_types soup = Py.firsts Py.lower (omap type_of (badges soup)) ∅.
Proof. unfold _extract_types. by rewrite UniqueFacts.unique_loop_firsts. Qed.

(** C9, amended.  No two entries of the extracted types are equal
    ignoring case; each entry is the title-cased form of the lower-cased
    text of a badge of the page (the casing is normalised, not the
    page's); each entry is the first of the types shown that has its
    letters; the entries stand in the order of these first occurrences;
    and every type shown on the page is represented. *)
Theorem C9_types_deduplicated (soup : Soup.soup) :
  let shown := omap type_of (badges soup) in
  let out := _extract_types soup in
  NoDup (Py.lower <$> out) /\
  (forall i j a b, out !! i = Some a -> out !! j = Some b ->
                   Py.lower a = Py.lower b -> i = j) /\
  (forall t, t ∈ out ->
     exists e, e ∈ badges soup /\ t = Py.title (Py.lower (Soup.text e))) /\
  (forall t, t ∈ out ->
     exists pre post, shown = pre ++ t :: post /\
                      Py.lower t ∉ (Py.lower <$> pre)) /\
  (forall i j a b, out !! i = Some a -> out !! j = Some b -> (i < j)%nat ->
     exists pre mid post,
       shown = pre ++ a :: mid ++ b :: post /\
       (Py.lower a ∉ (Py.lower <$> pre)) /\
       Py.lower b ∉ (Py.lower <$> (pre ++ a :: mid))) /\
  (forall t, t ∈ shown -> exists u, u ∈ out /\ Py.lower u = Py.lower t).
Proof.
  intros shown out. unfold out. rewrite extract_types_firsts. fold shown.
  assert (Hnd : NoDup (Py.lower <$> Py.firsts Py.lower shown ∅))
    by apply UniqueFacts.firsts_NoDup.
  split; [done|]. split.
  { intros i j a b Hi Hj Hab.
    eapply NoDup_lookup; [exact Hnd| |].
    - rewrite list_lookup_fmap, Hi. done.
    - rewrite list_lookup_fmap, Hj. cbn. by rewrite Hab. }
  split.
  { intros t Ht. apply UniqueFacts.firsts_elem in Ht as [Ht _].
    apply list_elem_of_omap in Ht as (e & He & Hty).
    exists e. split; [done|]. unfold type_of in Hty.
    destruct (_ || _); [|done]. by injection Hty as <-. }
  split; [intros t Ht; by eapply UniqueFacts.firsts_first|].
  split; [intros i j a b Hi Hj Hlt; by eapply UniqueFacts.firsts_order|].
  intros t Ht. apply UniqueFacts.firsts_covers; [done|set_solver].
Qed.

(** The title case of a badge can leave the code points below 256: a
    badge that reads [(micro sign)rommelmarkt] is reported with the
    capital letter mu, U+039C, in front. *)
Lemma types_title_case_beyond_255 :
  _extract_types (badge_page [String "181" "rommelmarkt"])
  = [String Py.capital_mu "rommelmarkt"] /\
  Py.ord Py.capital_mu = 924%Z.
Proof. split; vm_compute; reflexivity. Qed.

Lemma extract_times_shape soup :
  _extract_times soup = [] \/ exists a b, _extract_times soup = [a; b].
Proof.
  unfold _extract_times. destruct (Re.search _ _); [right; eauto|by left].
Qed.

Lemma start_iff_end soup :
  is_Some (_extract_start_tijd soup) <-> is_Some (_extract_eind_tijd soup).
Proof.
  unfold _extract_start_tijd, _extract_eind_tijd.
  destruct (extract_times_shape soup) as [->|(a & b & ->)]; cbn.
  - split; intros [? ?]; done.
  - split; intros _; eauto.
Qed.

(** C10.  The start time is present if and only if the end time is:
    the time extractor returns no times at all or exactly a pair.  So it
    is on the pages that write the hours with an en dash, as in [9:00
    (en dash) 17:00], which gives the pair [9:00], [17:00]. *)
Theorem C10_start_iff_end (soup : Soup.soup) :
  (is_Some (_extract_start_tijd soup) <-> is_Some (_extract_eind_tijd soup)) /\
  (_extract_times soup = [] \/ length (_extract_times soup) = 2) /\
  _extract_times
    (text_page ("9:00 " +:+ String Py.en_dash EmptyString +:+ " 17:00"))
  = ["9:00"%string; "17:00"%string].
Proof.
  split; [apply start_iff_end|]. split; [|vm_compute; reflexivity].
  destruct (extract_times_shape soup) as [->|(a & b & ->)]; eauto.
Qed.

End DetailSpec.

(* ===================================================================== *)
(** * Upsert, verified *)
(* ===================================================================== *)

Module StorageSpec.
Import Storage.
Section StorageSpec.
Context `{Platform}.

Lemma exists_row_true (db : gmap Z row) i r :
  db !! i = Some r -> exists_row db i = true.
Proof. intros Hr. unfold exists_row. rewrite Hr. by apply bool_decide_eq_true. Qed.

Lemma exists_row_false (db : gmap Z row) i :
  db !! i = None -> exists_row db i = false.
Proof.
  intros Hr. unfold exists_row. rewrite Hr.
  apply bool_decide_eq_false. by intros [? ?].
Qed.

(** The [UPDATE] binds the same values as [to_db_tuple]. *)
Lemma update_row_cols event now r :
  Model.c_id (cols r) = Model.id event ->
  cols (update_row event now r) = Model.to_db_tuple event.
Proof. intros Hid. unfold update_row, Model.to_db_tuple. cbn. by rewrite Hid. Qed.

Lemma upsert_well_keyed now event db :
  well_keyed db -> well_keyed (upsert_event now event db).
Proof.
  intros Hwk i r. unfold upsert_event.
  destruct (exists_row db (Model.id event)).
  - rewrite lookup_alter. case_decide as Hi.
    + subst i. destruct (db !! Model.id event) as [r0|] eqn:Hr0; [|done].
      cbn. intros [= <-]. cbn. by apply Hwk.
    + apply Hwk.
  - rewrite lookup_insert. case_decide as Hi.
    + subst i. by intros [= <-].
    + apply Hwk.
Qed.

(** C4.  An upsert of an event whose id is already stored leaves the
    first-seen time stamp of the row as it was, sets the last-updated
    time stamp to the current time and replaces every extracted column by
    the value of the new record, whatever the row held before; a first
    insert sets both time stamps to the current time; no other row is
    touched. *)
Theorem C4_upsert_replaces (now : Z) (event : Model.Event)
    (db : gmap Z row) :
  (forall r, db !! Model.id event = Some r ->
     Model.c_id (cols r) = Model.id event ->
     upsert_event now event db !! Model.id event =
       Some {| cols := Model.to_db_tuple event;
               first_scraped_at := first_scraped_at r;
               last_updated_at := now |}) /\
  (db !! Model.id event = None ->
     upsert_event now event db !! Model.id event =
       Some {| cols := Model.to_db_tuple event;
               first_scraped_at := now;
               last_updated_at := now |}) /\
  (forall i, i <> Model.id event -> upsert_event now event db !! i = db !! i).
Proof.
  repeat split.
  - intros r Hr Hid. unfold upsert_event.
    rewrite (exists_row_true _ _ _ Hr), lookup_alter_eq, Hr. cbn.
    f_equal. rewrite <- (update_row_cols event now r Hid). done.
  - intros Hr. unfold upsert_event.
    by rewrite (exists_row_false _ _ Hr), lookup_insert_eq.
  - intros i Hi. unfold upsert_event.
    destruct (exists_row db (Model.id event)).
    + by rewrite lookup_alter_ne.
    + by rewrite lookup_insert_ne.
Qed.

End StorageSpec.

(** C4 at work: event 42 is inserted at time 5 and written again at time
    9; the row keeps 5 as its first-seen time and shows 9 as its last
    update. *)
Lemma C4_witness :
  let db := @upsert_event Demo.platform 5 Demo.event42 ∅ in
  exists r,
    db !! 42%Z = Some r /\
    first_scraped_at r = 5%Z /\
    @upsert_event Demo.platform 9 Demo.event42 db !! 42%Z =
      Some {| cols := Model.to_db_tuple Demo.event42;
              first_scraped_at := 5; last_updated_at := 9 |}.
Proof.
  intros db.
  destruct (@C4_upsert_replaces Demo.platform 5 Demo.event42 ∅)
    as (_ & Hins & _).
  specialize (Hins (lookup_empty _)). fold db in Hins. cbn in Hins.
  eexists. split; [exact Hins|]. split; [reflexivity|].
  destruct (@C4_upsert_replaces Demo.platform 9 Demo.event42 db)
    as (Hupd & _ & _).
  apply (Hupd _ Hins). reflexivity.
Defined.

End StorageSpec.

(* ===================================================================== *)
(** * The crawl loop, verified *)
(* ===================================================================== *)

Module CrawlSpec.
Import World Crawl.

Section CrawlSpec.
Context `{Platform} `{Outside} `{!Detail.FieldRules}.

(** A scrape of a detail page is one request and nothing else. *)
Lemma scrape_detail_page_run url event_id w :
  Detail.scrape_detail_page url event_id w
  = (Detail.outcome url event_id w, emit (HttpGet url) w).
Proof.
  unfold Detail.scrape_detail_page, Detail.outcome, io_bind, fetch.
  destruct (http_get (log w) url) as [[|c html]|]; try done.
  by destruct (Detail.extract_event _ _ _).
Qed.

(** A record that leaves the [try] block carries the id and the URL it
    was asked for and the fields found by the embedded heuristics. *)
Lemma extract_event_fields url event_id soup event :
  Detail.extract_event url event_id soup = Ok event ->
  Model.id event = event_id /\ Model.source_url event = url /\
  Model.datum event = Detail._extract_datum soup /\
  Model.start_tijd event = Detail._extract_start_tijd soup /\
  Model.eind_tijd event = Detail._extract_eind_tijd soup /\
  Model.types event = Detail._extract_types soup.
Proof.
  unfold Detail.extract_event.
  repeat match goal with
  | |- context [mbind _ ?r] =>
      let E := fresh "E" in destruct r eqn:E; cbn [mbind result_bind]
  | |- Raise _ = Ok _ -> _ => discriminate
  end.
  all: try discriminate.
  all: intros [= <-]; done.
Qed.

(** No record leaves a scrape with a start time and no end time. *)
Lemma scraped_record_times url event_id w event :
  (Detail.scrape_detail_page url event_id w).1 = Some event ->
  is_Some (Model.start_tijd event) <-> is_Some (Model.eind_tijd event).
Proof.
  rewrite scrape_detail_page_run. cbn [fst]. unfold Detail.outcome.
  destruct (http_get (log w) url) as [[|c html]|]; try done.
  destruct (Detail.extract_event _ _ _) as [ev|e] eqn:Hev; [|done].
  intros [= ->].
  destruct (extract_event_fields _ _ _ _ Hev) as (_ & _ & _ & -> & -> & _).
  apply DetailSpec.start_iff_end.
Qed.

(** In incremental mode a link whose id is stored is skipped after the
    existence check alone. *)
Lemma process_link_skip link s w :
  is_Some (db w !! Listing.id link) ->
  process_link false link s w
  = (count_skipped (count_total s), emit (DbExists (Listing.id link)) w).
Proof.
  intros [r Hr]. unfold process_link, io_bind, event_exists. cbn.
  by rewrite (StorageSpec.exists_row_true _ _ _ Hr).
Qed.

(** A whole page of stored links costs one existence check each and
    leaves the store as it is. *)
Lemma for_each_skip links s w :
  Forall (fun link => is_Some (db w !! Listing.id link)) links ->
  let '(_, w') := for_each (process_link false) links s w in
  db w' = db w /\
  log w' = log w ++ ((fun link => DbExists (Listing.id link)) <$> links).
Proof.
  revert s w. induction links as [|link links IH]; intros s w Hall.
  - cbn. by rewrite app_nil_r.
  - apply Forall_cons in Hall as [Hl Hall].
    cbn [for_each]. unfold io_bind at 1. rewrite (process_link_skip _ _ _ Hl).
    specialize (IH (count_skipped (count_total s))
                   (emit (DbExists (Listing.id link)) w) Hall).
    destruct (for_each _ links _ _) as [s' w']. cbn in IH.
    destruct IH as [-> ->]. split; [done|].
    by rewrite <- app_assoc.
Qed.


(** On the pages the parser takes: the scrape of a detail page returns a
    complete record when the page was fetched and the [try] block ran to
    its end, and otherwise the single failure [None], without touching
    the store.  When it fails, the candidate is counted as failed and
    the upsert is not reached: the store is unchanged and the only
    action is the request. *)
Theorem failed_extraction_never_writes (full_refresh : bool)
    (link : Listing.EventLink) (s : stats) (w : world) :
  (forall url event_id w0,
     db (Detail.scrape_detail_page url event_id w0).2 = db w0 /\
     match (Detail.scrape_detail_page url event_id w0).1 with
     | Some event =>
         Model.id event = event_id /\ Model.source_url event = url /\
         exists html,
           http_get (log w0) url = Some html /\
           Detail.extract_event url event_id (BeautifulSoup html) = Ok event
     | None =>
         http_get (log w0) url = None \/
         http_get (log w0) url = Some EmptyString \/
         exists html e,
           http_get (log w0) url = Some html /\
           Detail.extract_event url event_id (BeautifulSoup html) = Raise e
     end) /\
  (let w0 := after_check full_refresh link w in
   full_refresh = true \/ db w !! Listing.id link = None ->
   (Detail.scrape_detail_page (Listing.url link) (Listing.id link) w0).1
     = None ->
   let '(s', w') := process_link full_refresh link s w in
   db w' = db w /\
   log w' = log w0 ++ [HttpGet (Listing.url link)] /\
   s' = count_failed (count_total s)).
Proof.
  split.
  - intros url event_id w0. rewrite scrape_detail_page_run.
    split; [done|]. cbn [fst]. unfold Detail.outcome.
    destruct (http_get (log w0) url) as [[|c html]|]; [by right; left| |by left].
    destruct (Detail.extract_event _ _ _) as [event|e] eqn:Hev.
    + destruct (extract_event_fields _ _ _ _ Hev) as (Hid & Hurl & _).
      eauto.
    + right; right. eauto.
  - intros w0 Hcase Hnone. subst w0.
    rewrite scrape_detail_page_run in Hnone. cbn in Hnone.
    unfold process_link, io_bind, event_exists, after_check in *.
    destruct full_refresh; cbn -[Detail.scrape_detail_page upsert_event] in *.
    + rewrite scrape_detail_page_run, Hnone. done.
    + destruct Hcase as [?|Hr]; [done|].
      rewrite (StorageSpec.exists_row_false _ _ Hr).
      rewrite scrape_detail_page_run, Hnone. done.
Qed.

End CrawlSpec.


(** The title heuristic raises on the page of the stored event 42 during
    a full refresh; the stored row survives. *)
Lemma failed_extraction_witness :
  let '(s', w') :=
    @process_link Demo.platform Demo.outside Demo.failing_rules true
      Demo.link42 Demo.zero Demo.stored_world in
  db w' = db Demo.stored_world /\
  log w' = [HttpGet Demo.detail_url] /\
  s' = count_failed (count_total Demo.zero).
Proof.
  apply (proj2 (@failed_extraction_never_writes Demo.platform
                  Demo.outside Demo.failing_rules true Demo.link42
                  Demo.zero Demo.stored_world)).
  - by left.
  - vm_compute. reflexivity.
Defined.

End CrawlSpec.

(* ===================================================================== *)
(** * The parser's exception *)
(* ===================================================================== *)

Module ParseSpec.
Import World Crawl.

Section ParseSpec.
Context `{Platform} `{Outside} `{!Detail.FieldRules} `{!Parse.Constructor}.

(** A scrape is one request; what it answers is read off the page. *)
Lemma parse_scrape_run url event_id w :
  Parse.scrape_detail_page url event_id w
  = (match http_get (log w) url with
     | None | Some EmptyString => Ok None
     | Some html =>
         match Parse.parser_error html with
         | Some e => Raise e
         | None => Ok (Detail.outcome url event_id w)
         end
     end, emit (HttpGet url) w).
Proof.
  unfold Parse.scrape_detail_page, Detail.outcome, io_bind, fetch.
  destruct (http_get (log w) url) as [[|c html]|]; try done.
  destruct (Parse.parser_error _); [done|].
  by destruct (Detail.extract_event _ _ _).
Qed.

(** Where the parser takes every page, the scraper and the body of the
    loop are those of [Detail] and [Crawl]. *)
Lemma scrape_of_parsed_pages url event_id w :
  (forall html, Parse.parser_error html = None) ->
  Parse.scrape_detail_page url event_id w
  = (Ok (Detail.scrape_detail_page url event_id w).1,
     (Detail.scrape_detail_page url event_id w).2).
Proof.
  intros Hnone. rewrite parse_scrape_run, CrawlSpec.scrape_detail_page_run.
  cbn [fst snd]. unfold Detail.outcome.
  destruct (http_get (log w) url) as [[|c html]|]; try done.
  by rewrite Hnone.
Qed.

Lemma process_link_of_parsed_pages full_refresh link s w :
  (forall html, Parse.parser_error html = None) ->
  Parse.process_link full_refresh link s w
  = Ok (process_link full_refresh link s w).
Proof.
  intros Hnone. unfold Parse.process_link, process_link, io_bind.
  destruct (if negb full_refresh then _ else _) as [[|] w0]; [done|].
  rewrite scrape_of_parsed_pages by done.
  destruct (Detail.scrape_detail_page _ _ w0) as [[event|] w1];
    cbn [fst snd]; [|done].
  destruct (event_exists _ w1) as [was w2].
  destruct (upsert_event event w2) as [[] w3]. by destruct was.
Qed.

(** C5 (the code departs from the claim).  The parser is called before
    the [try] block.  When it raises on a fetched page, the exception
    leaves [scrape_detail_page] after the one request, and the body of
    the loop with it: the candidate is not counted as failed and the run
    ends. *)
Theorem C5_parser_error_ends_the_run (full_refresh : bool)
    (link : Listing.EventLink) (s : stats) (w : world) (html e : string) :
  let w0 := after_check full_refresh link w in
  full_refresh = true \/ db w !! Listing.id link = None ->
  http_get (log w0) (Listing.url link) = Some html ->
  html <> EmptyString ->
  Parse.parser_error html = Some e ->
  Parse.scrape_detail_page (Listing.url link) (Listing.id link) w0
  = (Raise e, emit (HttpGet (Listing.url link)) w0) /\
  Parse.process_link full_refresh link s w = Raise e.
Proof.
  intros w0 Hcase Hget Hne Herr.
  assert (Hrun : Parse.scrape_detail_page (Listing.url link)
                   (Listing.id link) w0
                 = (Raise e, emit (HttpGet (Listing.url link)) w0)).
  { rewrite parse_scrape_run, Hget. destruct html; [done|].
    by rewrite Herr. }
  split; [exact Hrun|].
  unfold Parse.process_link, event_exists, io_ret. subst w0.
  unfold after_check in Hrun.
  destruct full_refresh; cbn [negb].
  - by rewrite Hrun.
  - destruct Hcase as [?|Hr]; [done|].
    rewrite (StorageSpec.exists_row_false _ _ Hr). by rewrite Hrun.
Qed.

End ParseSpec.

(** A full refresh meets the stored event 42 and fetches its page; the
    parser refuses the page and the run ends with its exception. *)
Lemma C5_witness :
  @Parse.scrape_detail_page Demo.platform Demo.outside Demo.rules
    Samples.refusing Demo.detail_url 42 Demo.stored_world
  = (Raise "UnicodeEncodeError",
     emit (HttpGet Demo.detail_url) Demo.stored_world) /\
  @Parse.process_link Demo.platform Demo.outside Demo.rules
    Samples.refusing true Demo.link42 Demo.zero Demo.stored_world
  = Raise "UnicodeEncodeError".
Proof.
  apply (@C5_parser_error_ends_the_run Demo.platform Demo.outside
           Demo.rules Samples.refusing true Demo.link42 Demo.zero
           Demo.stored_world
           "Rommelmarkt za 7 feb 2026 van 9.00 - 17:00"
           "UnicodeEncodeError").
  - by left.
  - reflexivity.
  - discriminate.
  - reflexivity.
Defined.

End ParseSpec.

(* ===================================================================== *)
(** * Regular expressions: what a match tells *)
(* ===================================================================== *)

Module RegexFacts.
Import Re RegexSem.

Lemma app_length_cancel (w s' : string) :
  (String.length (w +:+ s') - String.length s')%nat = String.length w.
Proof. rewrite PyFacts.length_app. lia. Qed.

Lemma substring_prefix (w s' : string) :
  String.substring 0 (String.length w) (w +:+ s') = w.
Proof.
  induction w as [|c w IH].
  - rewrite PyFacts.app_nil. by destruct s'.
  - rewrite PyFacts.app_cons. cbn. by rewrite IH.
Qed.

Lemma consumed_app (w s' : string) : consumed (w +:+ s') s' = w.
Proof. unfold consumed. by rewrite app_length_cancel, substring_prefix. Qed.

(** What is left after a parse is a suffix of the input. *)
Lemma parses_suffix r : forall s g s' g',
  parses r s g s' g' -> exists w, s = w +:+ s'.
Proof.
  induction r as [|p|r1 IH1 r2 IH2|r1 IH1 r2 IH2|r1 IH1|p lo hi|n r1 IH1];
    intros s g s' g'; cbn.
  - intros [-> _]. by exists EmptyString.
  - intros (c & -> & _). by exists (String c EmptyString).
  - intros (s1 & g1 & H1 & H2).
    destruct (IH1 _ _ _ _ H1) as [w1 ->], (IH2 _ _ _ _ H2) as [w2 ->].
    exists (w1 +:+ w2). by rewrite PyFacts.app_assoc.
  - intros [H|H]; eauto.
  - intros [[-> _]|H]; [by exists EmptyString|eauto].
  - intros (_ & w & -> & _). eauto.
  - intros (g1 & H1 & _). eauto.
Qed.

Section Sound.
Context {R : Type}.

Lemma rep_sound p : forall s lo hi (k : string -> option R) x,
  rep p lo hi s k = Some x ->
  exists w s', s = w +:+ s' /\ all_chars p w /\ lo <= String.length w /\
               within hi (String.length w) /\ k s' = Some x.
Proof.
  induction s as [|c s IH]; intros lo hi k x; cbn [rep].
  - destruct lo; [|done]. intros Hk.
    exists EmptyString, EmptyString. repeat split; try done; try constructor.
    destruct hi; cbn; lia.
  - assert (Hstop : match lo with 0 => k (String c s) | S _ => None end = Some x ->
              exists w s', String c s = w +:+ s' /\ all_chars p w /\
                lo <= String.length w /\ within hi (String.length w) /\
                k s' = Some x).
    { destruct lo; [|done]. intros Hk.
      exists EmptyString, (String c s). repeat split; try done; try constructor.
      destruct hi; cbn; lia. }
    destruct (p c) eqn:Hp; cbn [andb]; [|exact Hstop].
    destruct (bool_decide (hi = Some 0)) eqn:Hhi; cbn [negb]; [exact Hstop|].
    apply bool_decide_eq_false in Hhi.
    destruct (rep p (Nat.pred lo) (Nat.pred <$> hi) s k) as [y|] eqn:Hrec;
      [|exact Hstop].
    intros [= ->].
    destruct (IH _ _ _ _ Hrec) as (w & s' & -> & Hall & Hlo & Hhi' & Hk).
    exists (String c w), s'. rewrite PyFacts.app_cons.
    repeat split; try done.
    + constructor; done.
    + cbn. lia.
    + destruct hi as [[|h]|]; cbn in *; try done. lia.
Qed.

Lemma walk_sound r : forall s g (k : string -> groups -> option R) x,
  walk r s g k = Some x ->
  exists s' g', parses r s g s' g' /\ k s' g' = Some x.
Proof.
  induction r as [|p|r1 IH1 r2 IH2|r1 IH1 r2 IH2|r1 IH1|p lo hi|n r1 IH1];
    intros s g k x; cbn [walk parses].
  - eauto.
  - destruct s as [|c s]; [done|]. destruct (p c) eqn:Hp; [|done].
    intros Hk. exists s, g. eauto 10.
  - intros H. apply IH1 in H as (s1 & g1 & H1 & H).
    apply IH2 in H as (s2 & g2 & H2 & H). eauto 10.
  - destruct (walk r1 s g k) as [y|] eqn:H1.
    + intros [= ->]. apply IH1 in H1 as (s' & g' & ? & ?). eauto.
    + intros H2. apply IH2 in H2 as (s' & g' & ? & ?). eauto.
  - destruct (walk r1 s g k) as [y|] eqn:H1.
    + intros [= ->]. apply IH1 in H1 as (s' & g' & ? & ?). eauto.
    + intros Hk. exists s, g. eauto.
  - intros H. apply rep_sound in H as (w & s' & -> & ? & ? & ? & ?).
    exists s', g. eauto 10.
  - intros H. apply IH1 in H as (s' & g1 & H1 & Hk). eauto 10.
Qed.

End Sound.

(** A successful [match] is a parse of the whole pattern from the start of
    the text; group 0 is what was read. *)
Lemma re_match_sound r s m :
  re_match r s = Some m ->
  exists s', parses r s [] s' (captured m) /\ s = group0 m +:+ s'.
Proof.
  unfold re_match. intros H.
  apply walk_sound in H as (s' & g' & Hp & [= <-]). cbn.
  exists s'. split; [done|].
  destruct (parses_suffix _ _ _ _ _ Hp) as [w ->]. by rewrite consumed_app.
Qed.

(** A successful [search] is a [match] on some suffix of the text. *)
Lemma search_sound r : forall s m,
  search r s = Some m ->
  exists pre s0, s = pre +:+ s0 /\ re_match r s0 = Some m.
Proof.
  induction s as [|c s IH]; intros m; cbn [search].
  - destruct (re_match r EmptyString) eqn:Hm; [|done].
    intros [= ->]. by exists EmptyString, EmptyString.
  - destruct (re_match r (String c s)) eqn:Hm.
    + intros [= ->]. by exists EmptyString, (String c s).
    + intros H. apply IH in H as (pre & s0 & -> & H).
      by exists (String c pre), s0.
Qed.

Lemma parses_lit w : forall s g s' g',
  parses (lit w) s g s' g' -> s = w +:+ s' /\ g' = g.
Proof.
  induction w as [|c w IH]; intros s g s' g'; cbn [lit parses].
  - by intros [-> ->].
  - intros (s1 & g1 & (c0 & -> & Hc & ->) & Hrest).
    apply IH in Hrest as [-> ->].
    apply Ascii.eqb_eq in Hc as ->. by rewrite PyFacts.app_cons.
Qed.

Lemma parses_lit_i w : forall s g s' g',
  parses (lit_i w) s g s' g' ->
  exists w', s = w' +:+ s' /\ g' = g /\ String.length w' = String.length w.
Proof.
  induction w as [|c w IH]; intros s g s' g'; cbn [lit_i parses].
  - intros [-> ->]. by exists EmptyString.
  - intros (s1 & g1 & (c0 & -> & Hc & ->) & Hrest).
    apply IH in Hrest as (w' & -> & -> & Hlen).
    exists (String c0 w'). rewrite PyFacts.app_cons. cbn. by rewrite Hlen.
Qed.

Lemma parses_rep p lo hi s g s' g' :
  parses (Rep p lo hi) s g s' g' ->
  g' = g /\ exists w, s = w +:+ s' /\ all_chars p w /\
                      lo <= String.length w /\ within hi (String.length w).
Proof. done. Qed.

Lemma all_chars_app p u v :
  all_chars p u -> all_chars p v -> all_chars p (u +:+ v).
Proof.
  unfold all_chars. induction u as [|c u IH]; [done|].
  rewrite PyFacts.app_cons. cbn. intros Hu Hv.
  apply Forall_cons in Hu as [? ?]. constructor; auto.
Qed.

Lemma nonempty_of_length (w : string) : 1 <= String.length w -> w <> EmptyString.
Proof. destruct w; cbn; [lia|done]. Qed.

Lemma digit_range c : digit c = true -> (48 <= Py.ord c <= 57)%Z.
Proof. unfold digit, Py.in_range. lia. Qed.

Lemma int_digits_nonneg ds : all_chars digit ds -> (0 <= Py.int_digits ds)%Z.
Proof.
  unfold Py.int_digits, all_chars.
  assert (Hgen : forall l acc, Forall (fun c => digit c = true) l ->
            (0 <= acc)%Z ->
            (0 <= fold_left (fun acc c => acc * 10 + (Py.ord c - 48)) l acc)%Z).
  { induction l as [|c l IH]; intros acc Hl Hacc; [done|].
    apply Forall_cons in Hl as [Hc Hl]. cbn. apply IH; [done|].
    apply digit_range in Hc. lia. }
  intros Hds. by apply Hgen.
Qed.

End RegexFacts.

(* ===================================================================== *)
(** * The crawl loop: counters, requests and rows *)
(* ===================================================================== *)

Module CrawlFacts.
Import World Crawl Accounting Steps.
Local Open Scope Z_scope.

Section CrawlFacts.
Context `{Platform} `{Outside} `{!Detail.FieldRules}.


Lemma outcome_id url i w event :
  Detail.outcome url i w = Some event -> Model.id event = i.
Proof.
  unfold Detail.outcome.
  destruct (http_get (log w) url) as [[|c html]|]; try done.
  destruct (Detail.extract_event _ _ _) as [ev|e] eqn:Hev; [|done].
  intros [= ->]. by destruct (CrawlSpec.extract_event_fields _ _ _ _ Hev).
Qed.

(** The body of the loop, run. *)
Lemma process_link_run full_refresh link s w :
  process_link full_refresh link s w =
  let i := Listing.id link in
  let w0 := after_check full_refresh link w in
  let w1 := emit (HttpGet (Listing.url link)) w0 in
  if negb full_refresh && Storage.exists_row (db w) i
  then (count_skipped (count_total s), emit (DbExists i) w)
  else
    match Detail.outcome (Listing.url link) i w0 with
    | None => (count_failed (count_total s), w1)
    | Some event =>
        (if Storage.exists_row (db w) i then count_updated (count_total s)
         else count_new (count_total s),
         (upsert_event event (emit (DbExists i) w1)).2)
    end.
Proof.
  unfold process_link, io_bind, after_check.
  destruct full_refresh; cbn -[Detail.scrape_detail_page upsert_event].
  - rewrite CrawlSpec.scrape_detail_page_run.
    destruct (Detail.outcome _ _ _); [|done].
    cbn -[upsert_event]. by destruct (Storage.exists_row _ _), (upsert_event _ _).
  - destruct (Storage.exists_row (db w) (Listing.id link)) eqn:Hex; [done|].
    rewrite CrawlSpec.scrape_detail_page_run.
    destruct (Detail.outcome _ _ _); [|done].
    cbn -[upsert_event]. rewrite Hex. by destruct (upsert_event _ _).
Qed.

Lemma process_link_step full_refresh link s w :
  exists kind,
    step full_refresh link s w kind
         (process_link full_refresh link s w).1
         (process_link full_refresh link s w).2.
Proof.
  rewrite process_link_run. cbv zeta.
  destruct (db w !! Listing.id link) as [r|] eqn:Hr.
  - rewrite (StorageSpec.exists_row_true _ _ _ Hr).
    destruct full_refresh; cbn [negb andb].
    + destruct (Detail.outcome _ _ _) as [event|] eqn:Hout.
      * pose proof (outcome_id _ _ _ _ Hout) as Hid.
        exists Updated. unfold step. rewrite Hr, Hout. split; [done|].
        exists event, r. unfold upsert_event, Storage.upsert_event.
        cbn [fst snd db log emit after_check]. rewrite Hid.
        rewrite (StorageSpec.exists_row_true _ _ _ Hr).
        rewrite <- !app_assoc. cbn [app].
        repeat split; try done.
        apply map_eq. intros j. rewrite lookup_alter, lookup_insert.
        by rewrite Hr.
      * exists Failed. unfold step. rewrite Hout. repeat split; try done.
        by left.
    + exists Skipped. unfold step. rewrite Hr. repeat split; done.
  - rewrite (StorageSpec.exists_row_false _ _ Hr), andb_false_r.
    destruct (Detail.outcome _ _ _) as [event|] eqn:Hout.
    + pose proof (outcome_id _ _ _ _ Hout) as Hid.
      exists Inserted. unfold step. rewrite Hr, Hout. split; [done|].
      exists event. unfold upsert_event, Storage.upsert_event.
      cbn [fst snd db log emit]. rewrite Hid.
      assert (Hdb : db (after_check full_refresh link w) = db w)
        by (by destruct full_refresh).
      rewrite Hdb, (StorageSpec.exists_row_false _ _ Hr).
      rewrite <- !app_assoc. cbn [app]. repeat split; done.
    + exists Failed. unfold step. rewrite Hout. repeat split; try done.
      destruct full_refresh; [by left|by right].
Qed.

(** The listing scraper adds its request to the history and nothing
    else. *)
Lemma scrape_listing_page_run province month w :
  exists url,
    (ListingScraper.scrape_listing_page province month w).2
    = emit (HttpGet url) w.
Proof.
  unfold ListingScraper.scrape_listing_page, io_bind, fetch.
  eexists. by destruct (http_get (log w) _) as [[|c html]|].
Qed.

Section Invariant.
Variable I : nat -> stats -> world -> Prop.
Variable full_refresh : bool.
Hypothesis I_request :
  forall url n s w, I n s w -> I (S n) s (emit (HttpGet url) w).
Hypothesis I_link :
  forall link n s w, I n s w ->
    I n (process_link full_refresh link s w).1
        (process_link full_refresh link s w).2.

Lemma for_each_links links : forall n s w,
  I n s w ->
  I n (for_each (process_link full_refresh) links s w).1
      (for_each (process_link full_refresh) links s w).2.
Proof.
  induction links as [|link links IH]; intros n s w Hi; [done|].
  cbn [for_each]. unfold io_bind.
  pose proof (I_link link n s w Hi) as Hstep.
  destruct (process_link full_refresh link s w) as [s1 w1]. by apply IH.
Qed.

Lemma scrape_month_inv province month n s w :
  I n s w ->
  I (S n) (scrape_month full_refresh province month s w).1
          (scrape_month full_refresh province month s w).2.
Proof.
  intros Hi. unfold scrape_month, io_bind.
  destruct (scrape_listing_page_run province month w) as [url Hw].
  destruct (ListingScraper.scrape_listing_page province month w)
    as [links w1]. cbn in Hw. subst w1.
  apply for_each_links. by apply I_request.
Qed.

Lemma for_each_months province months : forall n s w,
  I n s w ->
  I (length months + n)%nat
    (for_each (fun month => scrape_month full_refresh province month)
              months s w).1
    (for_each (fun month => scrape_month full_refresh province month)
              months s w).2.
Proof.
  induction months as [|month months IH]; intros n s w Hi; [done|].
  cbn [for_each length]. unfold io_bind.
  pose proof (scrape_month_inv province month n s w Hi) as Hstep.
  destruct (scrape_month full_refresh province month s w) as [s1 w1].
  replace (S (length months) + n)%nat with (length months + S n)%nat by lia.
  by apply IH.
Qed.

Lemma crawl_inv provinces months : forall n s w,
  I n s w ->
  I (length provinces * length months + n)%nat
    (crawl full_refresh provinces months s w).1
    (crawl full_refresh provinces months s w).2.
Proof.
  unfold crawl.
  induction provinces as [|province provinces IH]; intros n s w Hi; [done|].
  cbn [for_each length]. unfold io_bind.
  pose proof (for_each_months province months n s w Hi) as Hstep.
  destruct (for_each _ months s w) as [s1 w1].
  replace (S (length provinces) * length months + n)%nat
    with (length provinces * length months + (length months + n))%nat by lia.
  by apply IH.
Qed.

End Invariant.

Lemma requests_emit e w :
  requests (log (emit e w)) =
  (requests (log w) + match e with HttpGet _ => 1 | _ => 0 end)%nat.
Proof.
  unfold requests, emit. cbn [log].
  rewrite List.filter_app, List.length_app. by destruct e.
Qed.

Lemma writes_emit e w :
  writes (log (emit e w)) =
  (writes (log w) + match e with DbWrite _ => 1 | _ => 0 end)%nat.
Proof.
  unfold writes, emit. cbn [log].
  rewrite List.filter_app, List.length_app. by destruct e.
Qed.

Lemma requests_app l1 l2 :
  requests (l1 ++ l2) = (requests l1 + requests l2)%nat.
Proof. unfold requests. by rewrite List.filter_app, List.length_app. Qed.

Lemma writes_app l1 l2 : writes (l1 ++ l2) = (writes l1 + writes l2)%nat.
Proof. unfold writes. by rewrite List.filter_app, List.length_app. Qed.

Lemma after_check_db full_refresh link w :
  db (after_check full_refresh link w) = db w.
Proof. by destruct full_refresh. Qed.

Lemma after_check_requests full_refresh link w :
  requests (log (after_check full_refresh link w)) = requests (log w).
Proof.
  destruct full_refresh; [done|]. unfold after_check.
  rewrite requests_emit. lia.
Qed.

Lemma after_check_writes full_refresh link w :
  writes (log (after_check full_refresh link w)) = writes (log w).
Proof.
  destruct full_refresh; [done|]. unfold after_check.
  rewrite writes_emit. lia.
Qed.

(** Case analysis on the way a step ended. *)
Ltac step_cases full_refresh link s w :=
  let kind := fresh "kind" in
  let Hstep := fresh "Hstep" in
  destruct (process_link_step full_refresh link s w) as [kind Hstep];
  destruct (process_link full_refresh link s w) as [?s ?w];
  cbn [fst snd] in Hstep |- *;
  destruct kind; unfold step in Hstep;
  [ destruct Hstep as (Hmode & Hin & -> & ->)
  | destruct Hstep as (Hcase & Hout & -> & ->)
  | destruct Hstep as (Hnone & event & Hout & Hid & -> & Hdb & Hlog)
  | destruct Hstep as (Hmode & event & r & Hsome & Hout & Hid & -> & Hdb & Hlog) ].

(** X1.  Over a whole crawl the counter of candidates grows by exactly
    the sum of what the counters of new, updated, skipped and failed
    events grow by: every candidate is counted once as found and once in
    one of the four other counters. *)
Theorem crawl_counters_balance (full_refresh : bool)
    (provinces months : list string) (s : stats) (w : world) :
  let s' := (crawl full_refresh provinces months s w).1 in
  total_events s' - total_events s =
    (new_events s' - new_events s) + (updated_events s' - updated_events s)
    + (skipped_events s' - skipped_events s)
    + (failed_events s' - failed_events s).
Proof.
  apply (crawl_inv
    (fun _ s' _ =>
       total_events s' - total_events s =
         (new_events s' - new_events s)
         + (updated_events s' - updated_events s)
         + (skipped_events s' - skipped_events s)
         + (failed_events s' - failed_events s))
    full_refresh) with (n := 0%nat); [done| |lia].
  intros link _ s1 w1 Hi. step_cases full_refresh link s1 w1; cbn; lia.
Qed.

(** X2.  After a crawl the number of rows of the table, as
    [get_event_count] reports it, is the number before the crawl plus
    the growth of the counter of new events: rows are only added, and
    only for events counted as new. *)
Theorem crawl_store_growth (full_refresh : bool)
    (provinces months : list string) (s : stats) (w : world) :
  let '(s', w') := crawl full_refresh provinces months s w in
  get_event_count (db w') = get_event_count (db w)
                            + (new_events s' - new_events s).
Proof.
  pose proof (crawl_inv
    (fun _ s' w' =>
       get_event_count (db w') = get_event_count (db w)
                                 + (new_events s' - new_events s))
    full_refresh) as Hinv.
  specialize (Hinv ltac:(done)).
  destruct (crawl full_refresh provinces months s w) as [s' w'] eqn:Hrun.
  specialize (fun Hl => Hinv Hl provinces months 0%nat s w).
  rewrite Hrun in Hinv. apply Hinv; [|lia].
  intros link _ s1 w1 Hi. unfold get_event_count in *.
  step_cases full_refresh link s1 w1; cbn [db emit new_events count_total
    count_skipped count_failed count_new count_updated].
  - lia.
  - rewrite after_check_db. lia.
  - rewrite Hdb, map_size_insert_None by done. lia.
  - rewrite Hdb, map_size_insert_Some by done. lia.
Qed.

(** X3.  A crawl calls [fetch] once for each pair of a province and a
    month, for the listing page, and once for each candidate counted as
    new, updated or failed, for its detail page, and never otherwise
    (the transport may retry below [fetch]); it writes to the table once
    for each event counted as new or updated, and not otherwise. *)
Theorem crawl_request_count (full_refresh : bool)
    (provinces months : list string) (s : stats) (w : world) :
  let '(s', w') := crawl full_refresh provinces months s w in
  Z.of_nat (requests (log w')) =
    Z.of_nat (requests (log w))
    + Z.of_nat (length provinces * length months)
    + (processed s' - processed s) /\
  Z.of_nat (writes (log w')) =
    Z.of_nat (writes (log w))
    + (new_events s' - new_events s)
    + (updated_events s' - updated_events s).
Proof.
  pose proof (crawl_inv
    (fun n s' w' =>
       Z.of_nat (requests (log w')) =
         Z.of_nat (requests (log w)) + Z.of_nat n
         + (processed s' - processed s) /\
       Z.of_nat (writes (log w')) =
         Z.of_nat (writes (log w))
         + (new_events s' - new_events s)
         + (updated_events s' - updated_events s))
    full_refresh) as Hinv.
  destruct (crawl full_refresh provinces months s w) as [s' w'] eqn:Hrun.
  specialize (fun Hr Hl => Hinv Hr Hl provinces months 0%nat s w).
  rewrite Hrun, Nat.add_0_r in Hinv. apply Hinv.
  - intros url n s1 w1 [Hr Hw]. rewrite requests_emit, writes_emit. lia.
  - intros link n s1 w1 [Hr Hw]. unfold processed in *.
    step_cases full_refresh link s1 w1.
    + rewrite requests_emit, writes_emit. cbn. lia.
    + rewrite requests_emit, writes_emit, after_check_requests,
        after_check_writes. cbn. lia.
    + rewrite Hlog, requests_app, writes_app, requests_emit, writes_emit,
        after_check_requests, after_check_writes. cbn. lia.
    + rewrite Hlog, requests_app, writes_app, requests_emit, writes_emit,
        after_check_requests, after_check_writes. cbn. lia.
  - split; lia.
Qed.

(** X4.  An incremental crawl leaves every row that was in the table
    before it exactly as it was, time stamps included, and counts no
    event as updated. *)
Theorem crawl_incremental_keeps_rows (provinces months : list string)
    (s : stats) (w : world) :
  let '(s', w') := crawl false provinces months s w in
  (forall i r, db w !! i = Some r -> db w' !! i = Some r) /\
  updated_events s' = updated_events s.
Proof.
  pose proof (crawl_inv
    (fun _ s' w' =>
       (forall i r, db w !! i = Some r -> db w' !! i = Some r) /\
       updated_events s' = updated_events s)
    false) as Hinv.
  destruct (crawl false provinces months s w) as [s' w'] eqn:Hrun.
  specialize (fun Hr Hl => Hinv Hr Hl provinces months 0%nat s w).
  rewrite Hrun in Hinv. apply Hinv; [done| |done].
  intros link _ s1 w1 [Hrows Hupd].
  step_cases false link s1 w1; cbn [db emit updated_events count_total
    count_skipped count_failed count_new count_updated]; try done.
  split; [|done]. intros i r Hr. rewrite Hdb.
  apply Hrows in Hr. rewrite lookup_insert_ne; [done|congruence].
Qed.

(** X5.  In either mode a crawl deletes no row and never changes the
    first-seen time stamp of a row that existed before it. *)
Theorem crawl_keeps_first_seen (full_refresh : bool)
    (provinces months : list string) (s : stats) (w : world) :
  let w' := (crawl full_refresh provinces months s w).2 in
  forall i r, db w !! i = Some r ->
    exists r', db w' !! i = Some r' /\
               Storage.first_scraped_at r' = Storage.first_scraped_at r.
Proof.
  apply (crawl_inv
    (fun _ _ w' =>
       forall i r, db w !! i = Some r ->
         exists r', db w' !! i = Some r' /\
           Storage.first_scraped_at r' = Storage.first_scraped_at r)
    full_refresh) with (n := 0%nat); [done| |eauto].
  intros link _ s1 w1 Hrows.
  step_cases full_refresh link s1 w1; cbn [db emit]; try done.
  - by rewrite after_check_db.
  - intros i r Hr. rewrite Hdb. apply Hrows in Hr as (r' & Hr' & Hf).
    exists r'. rewrite lookup_insert_ne; [done|congruence].
  - intros i r0 Hr. rewrite Hdb. apply Hrows in Hr as (r' & Hr' & Hf).
    destruct (decide (Listing.id link = i)) as [<-|Hne].
    + rewrite lookup_insert_eq. eexists. split; [done|].
      cbn. congruence.
    + exists r'. by rewrite lookup_insert_ne.
Qed.

(** X6.  For one candidate: it is counted as new exactly when its id was
    absent from the table before and is present after; it is counted as
    updated exactly when its id was present before and one write was
    made. *)
Theorem link_accounting (full_refresh : bool) (link : Listing.EventLink)
    (s : stats) (w : world) :
  let '(s', w') := process_link full_refresh link s w in
  let i := Listing.id link in
  (new_events s' = new_events s + 1 <->
     db w !! i = None /\ is_Some (db w' !! i)) /\
  (updated_events s' = updated_events s + 1 <->
     is_Some (db w !! i) /\ writes (log w') = S (writes (log w))).
Proof.
  step_cases full_refresh link s w; cbv zeta;
    cbn [db emit new_events updated_events count_total count_skipped
         count_failed count_new count_updated].
  - destruct Hin as [r Hr]. rewrite writes_emit. cbn.
    split; (split; [lia|]).
    + intros [Hn _]. congruence.
    + intros [_ Hw]. lia.
  - rewrite after_check_db, writes_emit, after_check_writes. cbn.
    split; (split; [lia|]).
    + intros [Hn [r Hr]]. congruence.
    + intros [_ Hw]. lia.
  - rewrite Hdb, Hlog, writes_app, writes_emit, after_check_writes. cbn.
    split; split.
    + intros _. split; [done|]. rewrite lookup_insert_eq. eauto.
    + lia.
    + lia.
    + intros [[r Hr] _]. congruence.
  - rewrite Hdb, Hlog, writes_app, writes_emit, after_check_writes. cbn.
    split; split.
    + lia.
    + intros [Hn _]. congruence.
    + intros _. split; [eauto|]. lia.
    + lia.
Qed.

End CrawlFacts.

(** A full refresh of february in Oost-Vlaanderen meets event 42, first
    seen at time 5: its page is fetched and its row rewritten (one event
    counted as updated, the hours now stored), and the row still says it
    was first seen at time 5. *)
Lemma first_seen_witness :
  updated_events
    (@crawl Samples.site_platform Samples.site Samples.site_rules true
       ["oost-vlaanderen"%string] ["februari"%string]
       Demo.zero Samples.site_world).1 = 1 /\
  (fun r => Model.c_start_tijd (@Storage.cols Samples.site_platform r)) <$>
    db (@crawl Samples.site_platform Samples.site Samples.site_rules true
          ["oost-vlaanderen"%string] ["februari"%string]
          Demo.zero Samples.site_world).2 !! 42%Z
    = Some (Some "9:00"%string) /\
  exists r',
    db (@crawl Samples.site_platform Samples.site Samples.site_rules true
          ["oost-vlaanderen"%string] ["februari"%string]
          Demo.zero Samples.site_world).2 !! 42%Z = Some r' /\
    Storage.first_scraped_at r' = 5%Z.
Proof.
  split; [vm_compute; reflexivity|]. split; [vm_compute; reflexivity|].
  apply (@crawl_keeps_first_seen Samples.site_platform Samples.site
           Samples.site_rules true
           ["oost-vlaanderen"%string] ["februari"%string]
           Demo.zero Samples.site_world 42%Z Samples.site_row).
  vm_compute. reflexivity.
Defined.

End CrawlFacts.

(* ===================================================================== *)
(** * The shape of candidates and times *)
(* ===================================================================== *)

Module ShapeFacts.
Import Re RegexSem RegexFacts.

(** What a [match] of the link pattern tells about the [href]. *)
Lemma link_pattern_parse href m :
  re_match Listing.EVENT_LINK_PATTERN href = Some m ->
  exists ds rest,
    href = "/rommelmarkt/" +:+ ds +:+ "/" +:+ group m 2 +:+ rest /\
    group m 1 = ds /\ all_chars digit ds /\ ds <> EmptyString /\
    all_chars dot (group m 2) /\ group m 2 <> EmptyString.
Proof.
  intros Hm. apply re_match_sound in Hm as (s' & Hp & _).
  unfold Listing.EVENT_LINK_PATTERN in Hp. cbn [seqs parses] in Hp.
  destruct Hp as (s1 & g1 & Hlit & s2 & g2 & (g1' & Hds & ->) &
                  s3 & g3 & Hslash & g3' & Hslug & Hcap).
  apply parses_lit in Hlit as [-> ->].
  apply parses_rep in Hds as (-> & ds & -> & Hdig & Hlen & _).
  apply parses_lit in Hslash as [-> ->].
  apply parses_rep in Hslug as (-> & slug & -> & Hdot & Hlen2 & _).
  rewrite !consumed_app in Hcap.
  unfold group. rewrite Hcap. cbn.
  exists ds, s'. repeat split; try done.
  - by apply nonempty_of_length.
  - by apply nonempty_of_length.
Qed.

(** X7.  Every candidate of a listing page has a URL made of the base
    URL, [/rommelmarkt/], a non-empty run of digits, a slash and the
    slug; its id is the number these digits spell, hence not negative,
    and its slug is not empty and holds no line feed. *)
Theorem candidate_shape (base : string) (soup : Soup.soup)
    (l : Listing.EventLink) :
  l ∈ Listing.links_of_page base soup ->
  exists ds rest,
    Listing.url l =
      base +:+ "/rommelmarkt/" +:+ ds +:+ "/" +:+ Listing.slug l +:+ rest /\
    Listing.id l = Py.int_digits ds /\ (0 <= Listing.id l)%Z /\
    ds <> EmptyString /\ all_chars digit ds /\
    Listing.slug l <> EmptyString /\ all_chars dot (Listing.slug l).
Proof.
  unfold Listing.links_of_page. rewrite ListingSpec.unique_links_firsts.
  intros Hl. apply UniqueFacts.firsts_elem in Hl as [Hl _].
  apply list_elem_of_omap in Hl as (tag & _ & Hlink).
  unfold Listing.link_of in Hlink.
  destruct (Soup.href tag) as [href|]; [|done]. cbn [mbind option_bind] in Hlink.
  destruct (re_match Listing.EVENT_LINK_PATTERN href) as [m|] eqn:Hm; [|done].
  rewrite (ListingSpec.match_starts_with_slash _ _ Hm) in Hlink.
  destruct (link_pattern_parse _ _ Hm)
    as (ds & rest & Hhref & Hg1 & Hd & Hne & Hs & Hsne).
  rewrite Hg1 in Hlink. remember (group m 2) as slug eqn:Hslug.
  injection Hlink as <-. cbn [Listing.url Listing.id Listing.slug].
  exists ds, rest. repeat split; try done.
  - by rewrite Hhref at 1.
  - by apply int_digits_nonneg.
Qed.

(** The candidate of the link [/rommelmarkt/42/markt-temse]. *)
Lemma candidate_shape_witness :
  exists ds rest,
    "https://www.rommelmarkten.be/rommelmarkt/42/markt-temse" =
      "https://www.rommelmarkten.be" +:+ "/rommelmarkt/" +:+ ds +:+ "/"
      +:+ "markt-temse" +:+ rest /\
    42%Z = Py.int_digits ds /\ (0 <= 42)%Z /\
    ds <> EmptyString /\ all_chars digit ds /\
    "markt-temse"%string <> EmptyString /\
    all_chars dot "markt-temse".
Proof.
  apply (candidate_shape "https://www.rommelmarkten.be"
           (Pages.page_of ["/rommelmarkt/42/markt-temse"%string])
           {| Listing.id := 42; Listing.slug := "markt-temse";
              Listing.url :=
                "https://www.rommelmarkten.be/rommelmarkt/42/markt-temse" |}).
  vm_compute. left.
Defined.

(** ** Times *)

Lemma replace_app a b u v :
  Py.replace a b (u +:+ v) = Py.replace a b u +:+ Py.replace a b v.
Proof.
  induction u as [|c u IH]; [done|].
  rewrite PyFacts.app_cons. cbn [Py.replace].
  by rewrite IH, PyFacts.app_cons.
Qed.

Lemma digit_not c x :
  digit c = true -> digit x = false -> Ascii.eqb c x = false.
Proof.
  intros Hc Hx. destruct (Ascii.eqb_spec c x) as [->|]; congruence.
Qed.

Lemma replace_digits a b w :
  digit a = false -> all_chars digit w -> Py.replace a b w = w.
Proof.
  intros Ha. unfold all_chars. induction w as [|c w IH]; [done|].
  cbn. intros Hw. apply Forall_cons in Hw as [Hc Hw].
  by rewrite (digit_not _ _ Hc Ha), IH.
Qed.

Lemma clock_time_parse s g s' g' :
  parses Detail.clock_time s g s' g' ->
  g' = g /\
  exists h c mm,
    s = (h +:+ String c mm) +:+ s' /\
    all_chars digit h /\ (1 <= String.length h <= 2) /\
    (c = ":"%char \/ c = "."%char) /\
    all_chars digit mm /\ String.length mm = 2.
Proof.
  unfold Detail.clock_time. cbn [seqs parses].
  intros (s1 & g1 & Hh & s2 & g2 & (c & -> & Hc & ->) & Hmm).
  apply parses_rep in Hh as (-> & h & -> & Hhd & Hh1 & Hh2).
  apply parses_rep in Hmm as (-> & mm & -> & Hmd & Hm1 & Hm2).
  split; [done|]. exists h, c, mm. cbn in Hh2, Hm2.
  rewrite PyFacts.app_assoc, PyFacts.app_cons.
  repeat split; try done; try lia.
  unfold one_of in Hc. cbn in Hc.
  destruct (Ascii.eqb_spec c ":"); [by left|].
  destruct (Ascii.eqb_spec c "."); [by right|done].
Qed.

Lemma clock_text_replace h c mm :
  all_chars digit h -> (1 <= String.length h <= 2) ->
  (c = ":"%char \/ c = "."%char) ->
  all_chars digit mm -> String.length mm = 2 ->
  Fields.clock_text (Py.replace "." ":" (h +:+ String c mm)) = true.
Proof.
  intros Hh Hlen Hc Hmm Hlen2.
  rewrite replace_app. cbn [Py.replace].
  rewrite !replace_digits by done.
  assert (Hsep : (if Ascii.eqb c "." then ":"%char else c) = ":"%char)
    by (destruct Hc as [->| ->]; done).
  rewrite Hsep.
  destruct mm as [|m1 [|m2 [|? ?]]]; try done.
  apply Forall_cons in Hmm as [Hm1 Hmm]. apply Forall_cons in Hmm as [Hm2 _].
  destruct h as [|h1 [|h2 [|? ?]]]; cbn in Hlen; try lia.
  - apply Forall_cons in Hh as [Hh1 _].
    rewrite !PyFacts.app_cons, PyFacts.app_nil.
    unfold Fields.clock_text. cbn [list_ascii_of_string].
    by rewrite Hh1, Hm1, Hm2.
  - apply Forall_cons in Hh as [Hh1 Hh]. apply Forall_cons in Hh as [Hh2 _].
    rewrite !PyFacts.app_cons, PyFacts.app_nil.
    unfold Fields.clock_text. cbn [list_ascii_of_string].
    by rewrite Hh1, Hh2, Hm1, Hm2.
Qed.

(** X8.  Every time that [_extract_times] returns reads [H:MM] or
    [HH:MM]: one or two digits, a colon and two digits, whether the page
    wrote the time with a colon or with a dot. *)
Theorem times_are_clock_texts (soup : Soup.soup) (t : string) :
  t ∈ Detail._extract_times soup -> Fields.clock_text t = true.
Proof.
  unfold Detail._extract_times.
  destruct (search Detail.time_pattern (Soup.get_text soup)) as [m|] eqn:Hs;
    [|by intros ?%elem_of_nil].
  apply search_sound in Hs as (pre & s0 & _ & Hm).
  apply re_match_sound in Hm as (s' & Hp & _).
  unfold Detail.time_pattern in Hp. cbn [seqs parses] in Hp.
  destruct Hp as (s1 & g1 & (g0 & Hstart & ->) & s2 & g2 & Hsp1 &
                  s3 & g3 & Hsep & s4 & g4 & Hsp2 & g5 & Hend & Hcap).
  apply clock_time_parse in Hstart as (-> & h & c & mm & -> & Hh & Hhl & Hc & Hmm & Hml).
  apply parses_rep in Hsp1 as (-> & _).
  apply parses_rep in Hsep as (-> & _).
  apply parses_rep in Hsp2 as (-> & _).
  apply clock_time_parse in Hend as (-> & h' & c' & mm' & -> & Hh' & Hhl' & Hc' & Hmm' & Hml').
  rewrite !consumed_app in Hcap.
  unfold group. rewrite Hcap. cbn.
  intros [->|Ht]%elem_of_cons; [by apply clock_text_replace|].
  apply list_elem_of_singleton in Ht as ->. by apply clock_text_replace.
Qed.

(** The page text [Open van 9.00 (en dash) 17:30 uur] gives the start
    [9:00]. *)
Lemma times_witness :
  Fields.clock_text "9:00" = true.
Proof.
  apply (times_are_clock_texts
           (Pages.text_page
              ("Open van 9.00 " +:+ String Py.en_dash EmptyString
               +:+ " 17:30 uur")) "9:00").
  vm_compute. left.
Defined.

End ShapeFacts.

(* ===================================================================== *)
(** * Prices, venue, description and website *)
(* ===================================================================== *)

Module FieldFacts.
Import Re RegexSem RegexFacts ShapeFacts Fields.

(** ** Prices *)

Lemma all_digits_true w : all_chars digit w -> all_digits w = true.
Proof.
  unfold all_chars. induction w as [|c w IH]; [done|]. cbn.
  intros Hw. apply Forall_cons in Hw as [-> Hw]. by apply IH.
Qed.

Lemma digit_is_not_dot c : digit c = true -> Ascii.eqb c "." = false.
Proof. intros Hc. by apply digit_not. Qed.

Lemma cut_at_dot_digits w :
  all_chars digit w -> cut_at_dot w = (w, None).
Proof.
  unfold all_chars. induction w as [|c w IH]; [done|]. cbn.
  intros Hw. apply Forall_cons in Hw as [Hc Hw].
  by rewrite (digit_is_not_dot _ Hc), IH.
Qed.

Lemma cut_at_dot_fraction w f :
  all_chars digit w -> cut_at_dot (w +:+ String "." f) = (w, Some f).
Proof.
  unfold all_chars. induction w as [|c w IH]; [done|].
  rewrite PyFacts.app_cons. cbn. intros Hw.
  apply Forall_cons in Hw as [Hc Hw].
  by rewrite (digit_is_not_dot _ Hc), IH.
Qed.

Lemma length_pos (w : string) : w <> EmptyString -> (0 < String.length w)%nat.
Proof. destruct w; cbn; [done|lia]. Qed.

Lemma decimal_whole ds :
  all_chars digit ds -> ds <> EmptyString ->
  Decimal (Py.replace "," "." ds)
  = Some {| coefficient := Py.int_digits ds; exponent := 0 |}.
Proof.
  intros Hd Hne. rewrite replace_digits by done.
  unfold Decimal. rewrite cut_at_dot_digits by done. cbn [default].
  rewrite all_digits_true by done. cbn [all_digits andb String.length].
  pose proof (length_pos _ Hne).
  destruct (Nat.ltb_spec 0 (String.length ds + 0)); [|lia].
  assert (Happ : ds +:+ EmptyString = ds).
  { clear. induction ds as [|c ds IH]; [done|].
    by rewrite PyFacts.app_cons, IH. }
  by rewrite Happ.
Qed.

Lemma decimal_fraction ds c fs :
  all_chars digit ds -> comma_or_dot c = true -> all_chars digit fs ->
  fs <> EmptyString ->
  Decimal (Py.replace "," "." (ds +:+ String c fs))
  = Some {| coefficient := Py.int_digits (ds +:+ fs);
            exponent := - Z.of_nat (String.length fs) |}.
Proof.
  intros Hd Hc Hf Hne. rewrite replace_app. cbn [Py.replace].
  rewrite !replace_digits by done.
  assert (Hsep : (if Ascii.eqb c "," then "."%char else c) = "."%char).
  { unfold comma_or_dot in Hc. destruct (Ascii.eqb_spec c ","); [done|].
    cbn in Hc. by apply Ascii.eqb_eq in Hc. }
  rewrite Hsep. unfold Decimal. rewrite cut_at_dot_fraction by done.
  cbn [from_option]. unfold id. rewrite !all_digits_true by done. cbn [andb].
  pose proof (length_pos _ Hne).
  destruct (Nat.ltb_spec 0 (String.length ds + String.length fs)); [done|lia].
Qed.

Lemma amount_parse s g s' g' :
  parses amount s g s' g' ->
  g' = g /\
  exists ds, all_chars digit ds /\ ds <> EmptyString /\
    (s = ds +:+ s' \/
     exists c fs, s = (ds +:+ String c fs) +:+ s' /\ comma_or_dot c = true /\
                  all_chars digit fs /\ fs <> EmptyString).
Proof.
  unfold amount. cbn [parses].
  intros (s1 & g1 & Hd & [[-> ->]|(s2 & g2 & (c & -> & Hc & ->) & Hf)]).
  - apply parses_rep in Hd as (-> & ds & -> & Hds & Hlen & _).
    split; [done|]. exists ds. repeat split; try done.
    + by apply nonempty_of_length.
    + by left.
  - apply parses_rep in Hd as (-> & ds & -> & Hds & Hlen & _).
    apply parses_rep in Hf as (-> & fs & -> & Hfs & Hlen2 & _).
    split; [done|]. exists ds. repeat split; try done.
    + by apply nonempty_of_length.
    + right. exists c, fs.
      rewrite PyFacts.app_assoc, PyFacts.app_cons.
      repeat split; try done. by apply nonempty_of_length.
Qed.

(** The amount a price pattern captures is always a number [Decimal]
    reads, and a non-negative one. *)
Lemma price_match_reads keyword text m :
  search (price_pattern keyword) text = Some m ->
  exists price,
    Decimal (Py.replace "," "." (group m 1)) = Some price /\
    (0 <= coefficient price)%Z /\ (exponent price <= 0)%Z.
Proof.
  intros Hs. apply search_sound in Hs as (pre & s0 & _ & Hm).
  apply re_match_sound in Hm as (s' & Hp & _).
  unfold price_pattern in Hp. cbn [seqs parses] in Hp.
  destruct Hp as (s1 & g1 & Hkw & s2 & g2 & Hr1 & s3 & g3 & Hr2 &
                  s4 & g4 & (g0 & Hamount & ->) & s5 & g5 & Hr3 &
                  s6 & g6 & Hcur & Hr4).
  apply parses_lit_i in Hkw as (kw & -> & -> & _).
  apply parses_rep in Hr1 as (-> & _).
  apply parses_rep in Hr2 as (-> & _).
  apply parses_rep in Hr3 as (-> & _).
  apply parses_rep in Hr4 as (Hcap & _).
  assert (Hg6 : g6 = (1, consumed s3 s4) :: g0).
  { destruct Hcur as [[_ ->]|Hcur]; [done|].
    cbn [alts parses] in Hcur.
    destruct Hcur as [Hcur|[Hcur|Hcur]];
      [by apply parses_lit in Hcur as [_ ->]| |];
      by apply parses_lit_i in Hcur as (? & _ & -> & _). }
  rewrite Hg6 in Hcap. unfold group. rewrite Hcap. cbn.
  apply amount_parse in Hamount
    as (_ & ds & Hds & Hne & [->|(c & fs & -> & Hc & Hfs & Hfne)]).
  - rewrite consumed_app, decimal_whole by done.
    eexists. split; [done|]. cbn. split; [|done].
    by apply int_digits_nonneg.
  - rewrite consumed_app, decimal_fraction by done.
    eexists. split; [done|]. cbn. split; [|lia].
    apply int_digits_nonneg. by apply all_chars_app.
Qed.

Lemma extract_price_decides soup keywords :
  first_keyword_decides soup keywords (_extract_price soup keywords).
Proof.
  induction keywords as [|keyword keywords IH]; [by constructor|].
  cbn [_extract_price].
  destruct (search (price_pattern keyword) (Soup.get_text soup))
    as [m|] eqn:Hs.
  - destruct (price_match_reads _ _ _ Hs) as (price & Hd & _).
    rewrite Hd. exists [], keyword, keywords, m. repeat split; try done.
  - destruct (_extract_price soup keywords) as [price|].
    + destruct IH as (before & k & after & m & -> & Hb & Hk & Hd).
      exists (keyword :: before), k, after, m. repeat split; try done.
      by constructor.
    + constructor; done.
Qed.

Lemma extract_price_nonneg soup keywords price :
  _extract_price soup keywords = Some price ->
  (0 <= coefficient price)%Z /\ (exponent price <= 0)%Z.
Proof.
  intros Hp. pose proof (extract_price_decides soup keywords) as Hd.
  rewrite Hp in Hd. destruct Hd as (_ & k & _ & m & _ & _ & Hk & Hd).
  destruct (price_match_reads _ _ _ Hk) as (price' & Hd' & Hc & He).
  rewrite Hd in Hd'. by injection Hd' as <-.
Qed.

(** X9.  For both prices the first keyword of the list that is found in
    the page text decides: the price is the amount that follows it, read
    as a decimal, and there is no price only when no keyword is found
    before an amount.  The branch that goes on to the next keyword when
    the amount cannot be read is never taken. *)
Theorem prices_first_keyword_decides (soup : Soup.soup) :
  first_keyword_decides soup ["inkom"; "toegang"; "entree"; "entrance"]
    (_extract_inkom_prijs soup) /\
  first_keyword_decides soup ["standplaats"; "stand"; "tafel"; "kraam"]
    (_extract_standplaats_prijs soup).
Proof. split; apply extract_price_decides. Qed.

(** X10.  An extracted price is never negative and has no positive
    exponent: it is a whole number of units of [10 ^ exponent]. *)
Theorem prices_are_not_negative (soup : Soup.soup) (price : decimal) :
  _extract_inkom_prijs soup = Some price \/
  _extract_standplaats_prijs soup = Some price ->
  (0 <= coefficient price)%Z /\ (exponent price <= 0)%Z.
Proof. intros [Hp|Hp]; by apply extract_price_nonneg in Hp. Qed.

(** The page text [Inkom 4,50 EUR] gives 4.50, that is 450 hundredths. *)
Lemma prices_witness :
  (0 <= 450)%Z /\ (-2 <= 0)%Z.
Proof.
  apply (prices_are_not_negative (Pages.text_page "Inkom 4,50 EUR")
           {| coefficient := 450; exponent := -2 |}).
  left. vm_compute. reflexivity.
Defined.

(** ** The first item of a list that passes a test *)

Lemma find_first {A : Type} (f : A -> bool) (l : list A) :
  match List.find f l with
  | Some x =>
      f x = true /\
      exists before after,
        l = before ++ x :: after /\ Forall (fun y => f y = false) before
  | None => Forall (fun y => f y = false) l
  end.
Proof.
  induction l as [|y l IH]; cbn; [constructor|].
  destruct (f y) eqn:Hy.
  - split; [done|]. by exists [], l.
  - destruct (List.find f l) as [x|].
    + destruct IH as (Hx & before & after & -> & Hb).
      split; [done|]. exists (y :: before), after. split; [done|].
      by constructor.
    + by constructor.
Qed.

(** ** Venue *)

(** X11.  The venue name is the text of the first [h4] heading that
    names no day of the week, and there is none only when every [h4]
    heading names one. *)
Theorem locatie_naam_is_first_without_day (soup : Soup.soup) :
  match _extract_locatie_naam soup with
  | Some t =>
      mentions day_names t = false /\
      exists before h4 after,
        find_all "h4" soup = before ++ h4 :: after /\
        Soup.text h4 = t /\
        Forall (fun e => mentions day_names (Soup.text e) = true) before
  | None =>
      Forall (fun e => mentions day_names (Soup.text e) = true)
             (find_all "h4" soup)
  end.
Proof.
  unfold _extract_locatie_naam.
  pose proof (find_first
    (fun h4 => negb (mentions day_names (Soup.text h4)))
    (find_all "h4" soup)) as Hf.
  destruct (List.find _ _) as [h4|]; cbn [fmap option_fmap option_map].
  - destruct Hf as (Hx & before & after & Hl & Hb).
    split; [by apply negb_true_iff in Hx|].
    exists before, h4, after. repeat split; try done.
    eapply Forall_impl; [exact Hb|]. intros e He.
    by apply negb_false_iff in He.
  - eapply Forall_impl; [exact Hf|]. intros e He.
    by apply negb_false_iff in He.
Qed.

(** ** Description *)

Lemma length_join_first sep x l :
  (String.length x <= String.length (PyStr.join sep (x :: l)))%nat.
Proof.
  unfold PyStr.join. destruct l as [|y l]; cbn [String.concat]; [done|].
  rewrite PyFacts.length_app. lia.
Qed.

(** X12.  A description is longer than 50 characters and is made of one
    to three paragraphs of the page, in page order, each of them a
    describing paragraph, joined by a blank line; there is none only when
    the page has no describing paragraph. *)
Theorem beschrijving_is_long (soup : Soup.soup) :
  match _extract_beschrijving soup with
  | Some d =>
      (50 < String.length d)%nat /\
      exists parts,
        d = PyStr.join blank_line parts /\
        (1 <= length parts <= 3)%nat /\
        Forall (fun p => describes p = true) parts /\
        parts `sublist_of` (Soup.text <$> find_all "p" soup)
  | None =>
      Forall (fun p => describes (Soup.text p) = false) (find_all "p" soup)
  end.
Proof.
  unfold _extract_beschrijving.
  set (texts := Soup.text <$> find_all "p" soup).
  destruct (List.filter describes texts) as [|p ps] eqn:Hf.
  - apply Forall_forall. intros e He.
    destruct (describes (Soup.text e)) eqn:Hd; [|done].
    assert (Hin : In (Soup.text e) (List.filter describes texts)).
    { apply filter_In. split; [|done].
      apply list_elem_of_In, list_elem_of_fmap. eauto. }
    rewrite Hf in Hin. destruct Hin.
  - assert (Hall : Forall (fun q => describes q = true) (p :: ps)).
    { rewrite <- Hf. apply Forall_forall. intros q Hq.
      apply list_elem_of_In, filter_In in Hq. tauto. }
    assert (Hsub : (p :: ps) `sublist_of` texts).
    { rewrite <- Hf. clear. induction texts as [|t texts IH]; cbn; [done|].
      destruct (describes t); [by apply sublist_skip|by apply sublist_cons]. }
    split.
    + cbn [take]. eapply Nat.lt_le_trans; [|apply length_join_first].
      apply Forall_cons in Hall as [Hp _]. unfold describes in Hp.
      apply andb_true_iff in Hp as [Hp _]. by apply Nat.ltb_lt in Hp.
    + exists (take 3 (p :: ps)). split; [done|]. split.
      * rewrite length_take. cbn [length]. lia.
      * split; [by apply Forall_take|].
        etrans; [apply sublist_take|exact Hsub].
Qed.

(** ** Website *)

Lemma startswith_app prefix rest :
  PyStr.startswith (prefix +:+ rest) prefix = true.
Proof.
  unfold PyStr.startswith. induction prefix as [|c p IH].
  - by destruct rest.
  - rewrite PyFacts.app_cons. cbn [String.prefix].
    by destruct (Ascii.ascii_dec c c).
Qed.

(** X13.  An extracted website address starts with [http]; when it comes
    from a link of the page it is the target of that link and does not
    mention [rommelmarkten.be]. *)
Theorem website_has_scheme (soup : Soup.soup) (url : string) :
  _extract_website soup = Some url ->
  PyStr.startswith url "http" = true /\
  (forall link, List.find external_link (find_all "a" soup) = Some link ->
     Soup.href link = Some url /\
     Py.contains "rommelmarkten.be" url = false).
Proof.
  unfold _extract_website.
  destruct (List.find external_link (find_all "a" soup)) as [link|] eqn:Hf.
  - intros Hurl. apply find_some in Hf as [_ Hext].
    unfold external_link in Hext. rewrite Hurl in Hext.
    apply andb_true_iff in Hext as [Hext _].
    apply andb_true_iff in Hext as [Hs Hc].
    split; [done|]. intros ? [= <-]. split; [done|].
    by apply negb_true_iff in Hc.
  - destruct (search url_pattern (Soup.get_text soup)) as [m|]; [|done].
    remember (group m 1) as u eqn:Hu. intros [= <-]. split; [|done].
    destruct (PyStr.startswith u "http") eqn:Hs; [exact Hs|].
    apply (startswith_app "http" ("://" +:+ u)).
Qed.

(** The page text [Website: www.markt-temse.be], without any link. *)
Lemma website_witness :
  PyStr.startswith "http://www.markt-temse.be" "http" = true /\
  (forall link,
     List.find external_link
       (find_all "a" (Pages.text_page "Website: www.markt-temse.be"))
     = Some link ->
     Soup.href link = Some "http://www.markt-temse.be"%string /\
     Py.contains "rommelmarkten.be" "http://www.markt-temse.be" = false).
Proof.
  apply (website_has_scheme
           (Pages.text_page "Website: www.markt-temse.be")).
  vm_compute. reflexivity.
Defined.

End FieldFacts.

(* ===================================================================== *)
(** * The decoder: size and well-formed input *)
(* ===================================================================== *)

Module DecoderFacts.
Import EmailDecoder Hex.
Local Open Scope Z_scope.


Lemma in_all_ascii c : In c all_ascii.
Proof.
  unfold all_ascii. apply in_map_iff. exists (nat_of_ascii c).
  split; [apply ascii_nat_embedding|].
  apply in_seq. pose proof (nat_ascii_bounded c). lia.
Qed.

(** A property of all one- and two-character texts, checked on each. *)
Lemma short_cases (P : string -> bool) :
  P EmptyString = true ->
  forallb (fun a => P (String a EmptyString)) all_ascii = true ->
  forallb (fun a => forallb (fun b => P (String a (String b EmptyString)))
                            all_ascii) all_ascii = true ->
  forall p, (String.length p <= 2)%nat -> P p = true.
Proof.
  intros H0 H1 H2 p Hp.
  rewrite forallb_forall in H1. rewrite forallb_forall in H2.
  destruct p as [|a [|b [|c p]]]; cbn in Hp; try lia.
  - done.
  - apply H1, in_all_ascii.
  - specialize (H2 a (in_all_ascii a)). rewrite forallb_forall in H2.
    apply H2, in_all_ascii.
Qed.


Lemma int16_short p v :
  (String.length p <= 2)%nat -> Py.int16 p = Some v -> small v = true.
Proof.
  intros Hp Hv.
  pose proof (short_cases
    (fun p => match Py.int16 p with Some v => small v | None => true end)
    ltac:(vm_compute; reflexivity) ltac:(vm_compute; reflexivity)
    ltac:(vm_compute; reflexivity) p Hp) as Hc.
  cbv beta in Hc. by rewrite Hv in Hc.
Qed.


Lemma in_small_values v : small v = true -> In v small_values.
Proof.
  unfold small. intros Hv. apply in_map_iff. exists (Z.to_nat (v + 255)).
  split; [lia|]. apply in_seq. lia.
Qed.

Lemma lxor_small a b :
  small a = true -> small b = true ->
  (Z.lxor a b <? 256) = true.
Proof.
  intros Ha Hb.
  assert (Hall : forallb (fun a => forallb (fun b => Z.lxor a b <? 256)
                                           small_values) small_values = true)
    by (vm_compute; reflexivity).
  rewrite forallb_forall in Hall.
  specialize (Hall a (in_small_values a Ha)).
  rewrite forallb_forall in Hall. by apply Hall, in_small_values.
Qed.

Lemma length_substring_le n m s :
  (String.length (String.substring n m s) <= m)%nat.
Proof.
  revert n m. induction s as [|c s IH]; intros [|n] [|m]; cbn; try lia.
  - specialize (IH 0%nat m). lia.
  - apply (IH n 0%nat).
  - apply (IH n (S m)).
Qed.

Lemma length_slice_le s i : (String.length (Py.slice s i (i + 2)) <= 2)%nat.
Proof.
  unfold Py.slice.
  replace (i + 2 - i)%nat with 2%nat by lia. apply length_substring_le.
Qed.

Lemma decoded_length (s : string) (cs : list Z) :
  decode_cloudflare_email s = Some cs ->
  length cs = ((String.length s - 1) / 2)%nat.
Proof.
  unfold decode_cloudflare_email.
  destruct s as [|c0 s0] eqn:Hs; [done|]. rewrite <- Hs. clear Hs c0 s0.
  destruct (Py.int16 (Py.slice s 0 2)) as [key|]; [|done].
  cbn [mbind option_bind]. intros Hm.
  apply mapM_Some, Forall2_length in Hm. rewrite <- Hm.
  unfold Py.range_step2. rewrite length_map, length_seq.
  destruct (String.length s) as [|[|n]]; [done|done|].
  replace (S (S n) - 2 + 1)%nat with (n + 1)%nat by lia.
  replace (S (S n) - 1)%nat with (n + 1)%nat by lia. done.
Qed.

(** X14.  When the decoder returns a text, the text has one character
    for every two characters after the first character of the input,
    and each character is a code point below 256. *)
Theorem decoded_text_size (s : string) (cs : list Z) :
  decode_cloudflare_email s = Some cs ->
  length cs = ((String.length s - 1) / 2)%nat /\ Forall is_code cs.
Proof.
  intros Hdec. split; [by apply decoded_length|]. revert Hdec.
  unfold decode_cloudflare_email.
  destruct s as [|c0 s0] eqn:Hs; [done|]. rewrite <- Hs. clear Hs c0 s0.
  destruct (Py.int16 (Py.slice s 0 2)) as [key|] eqn:Hkey; [|done].
  cbn [mbind option_bind]. intros Hm.
  apply mapM_Some in Hm.
  assert (Hk : small key = true).
  { eapply int16_short; [|exact Hkey]. apply (length_slice_le s 0). }
  clear Hkey. induction Hm as [|i c l k Hi Hm IH]; constructor; [|done].
  destruct (Py.int16 (Py.slice s i (i + 2))) as [code|] eqn:Hc; [|done].
  cbn [mbind option_bind] in Hi.
  assert (Hcs : small code = true).
  { eapply int16_short; [|exact Hc]. apply length_slice_le. }
  pose proof (lxor_small code key Hcs Hk) as Hx.
  unfold Py.chr in Hi. unfold is_code.
  destruct (0 <=? Z.lxor code key) eqn:H0; [|done].
  destruct (Z.lxor code key <? 1114112); [|done].
  cbn in Hi. injection Hi as <-. lia.
Qed.

(** The input [42230220], key [0x42], decodes to the three characters
    [a@b]. *)
Lemma decoded_text_size_witness :
  length [97; 64; 98]%Z = ((String.length "42230220" - 1) / 2)%nat /\
  Forall is_code [97; 64; 98]%Z.
Proof.
  apply (decoded_text_size "42230220" [97; 64; 98]%Z).
  vm_compute. reflexivity.
Defined.

(** ** Well-formed input *)

Lemma substring_two : forall i s,
  (i + 2 <= String.length s)%nat ->
  exists a b,
    String.substring i 2 s = String a (String b EmptyString) /\
    In a (list_ascii_of_string s) /\ In b (list_ascii_of_string s).
Proof.
  induction i as [|i IH]; intros s Hlen.
  - destruct s as [|a [|b s]]; cbn in Hlen; try lia.
    exists a, b. cbn. split; [by destruct s|]. auto.
  - destruct s as [|c s]; cbn in Hlen; [lia|].
    destruct (IH s ltac:(lia)) as (a & b & Hsub & Ha & Hb).
    exists a, b. cbn. auto.
Qed.


Lemma int16_hex_pair a b :
  is_hex a = true -> is_hex b = true ->
  exists v, Py.int16 (String a (String b EmptyString)) = Some v /\
            0 <= v < 256.
Proof.
  intros Ha Hb.
  pose proof (short_cases pair_ok
    ltac:(vm_compute; reflexivity) ltac:(vm_compute; reflexivity)
    ltac:(vm_compute; reflexivity) (String a (String b EmptyString))
    ltac:(cbn; lia)) as Hc.
  unfold pair_ok in Hc. rewrite Ha, Hb in Hc. cbn [andb] in Hc.
  destruct (Py.int16 _) as [v|]; [|done]. exists v. split; [done|]. lia.
Qed.

Lemma hex_slice s i :
  forallb is_hex (list_ascii_of_string s) = true ->
  (i + 2 <= String.length s)%nat ->
  exists v, Py.int16 (Py.slice s i (i + 2)) = Some v /\ 0 <= v < 256.
Proof.
  intros Hhex Hlen. unfold Py.slice.
  replace (i + 2 - i)%nat with 2%nat by lia.
  destruct (substring_two i s Hlen) as (a & b & -> & Ha & Hb).
  rewrite forallb_forall in Hhex. apply int16_hex_pair; auto.
Qed.

(** X15.  The decoder never fails on an input made of one or more pairs
    of hexadecimal digits: it returns a text with one character for every
    pair after the key. *)
Theorem hex_pairs_always_decode (s : string) :
  hex_pairs s = true -> s <> EmptyString ->
  exists cs,
    decode_cloudflare_email s = Some cs /\
    length cs = (String.length s / 2 - 1)%nat.
Proof.
  unfold hex_pairs. intros [Hhex Heven]%andb_true_iff Hne.
  apply Nat.even_spec in Heven as [k Hk].
  assert (Hk1 : (1 <= k)%nat).
  { destruct s; [done|]. cbn in Hk. lia. }
  assert (Hsome : is_Some (decode_cloudflare_email s)).
  { unfold decode_cloudflare_email.
    destruct s as [|c0 s0] eqn:Hs; [done|]. rewrite <- Hs in *.
    clear Hs c0 s0 Hne.
    destruct (hex_slice s 0 Hhex ltac:(lia)) as (key & Hkeq & Hkey).
    change (0 + 2)%nat with 2%nat in Hkeq. rewrite Hkeq.
    cbn [mbind option_bind]. apply mapM_is_Some, Forall_forall.
    intros i Hi. unfold Py.range_step2 in Hi.
    apply list_elem_of_In, in_map_iff in Hi as (j & <- & Hj).
    apply in_seq in Hj. rewrite Hk in Hj.
    replace (2 * k - 2 + 1)%nat with (1 + (k - 1) * 2)%nat in Hj by lia.
    rewrite Nat.div_add in Hj by lia. cbn in Hj.
    destruct (hex_slice s (2 + 2 * j) Hhex ltac:(lia)) as (v & Hv & Hvr).
    unfold compose. cbv beta zeta. rewrite Hv. cbn [mbind option_bind].
    rewrite PyFacts.chr_byte; [done|]. by apply PyFacts.lxor_byte. }
  destruct Hsome as [cs Hcs]. exists cs. split; [done|].
  apply decoded_length in Hcs as ->. rewrite Hk.
  replace (2 * k - 1)%nat with (1 + (k - 1) * 2)%nat by lia.
  rewrite Nat.div_add by lia.
  replace (2 * k)%nat with (k * 2)%nat by lia.
  rewrite Nat.div_mul by lia. cbn. lia.
Qed.

(** The input [42230220] is made of four pairs. *)
Lemma hex_pairs_witness :
  exists cs,
    decode_cloudflare_email "42230220" = Some cs /\
    length cs = (String.length "42230220" / 2 - 1)%nat.
Proof.
  apply (hex_pairs_always_decode "42230220"); [vm_compute; reflexivity|done].
Defined.

End DecoderFacts.

(* ===================================================================== *)
(** * The months to scrape *)
(* ===================================================================== *)

Module MonthFacts.
Import Months.
Local Open Scope Z_scope.

Lemma getitem_month k :
  0 <= k < 12 -> PyStr.getitem DUTCH_MONTHS k = Some (month_at k).
Proof.
  intros Hk. unfold PyStr.getitem, month_at. cbn [length DUTCH_MONTHS].
  rewrite Z.mod_small by lia.
  destruct (Z.leb_spec 0 k), (Z.ltb_spec k (Z.of_nat 12)); try lia.
  cbn [andb].
  destruct (lookup_lt_is_Some_2 DUTCH_MONTHS (Z.to_nat k)) as [x Hx];
    [cbn; lia|].
  rewrite Hx. f_equal. symmetry. by apply nth_lookup_Some.
Qed.

Lemma month_at_mod k : month_at (k mod 12) = month_at k.
Proof. unfold month_at. by rewrite Z.mod_mod. Qed.

Lemma month_at_member k : month_at k ∈ DUTCH_MONTHS.
Proof.
  unfold month_at. apply list_elem_of_In, nth_In. cbn.
  pose proof (Z.mod_pos_bound k 12). lia.
Qed.

(** The comprehension never meets an [IndexError]. *)
Lemma months_ahead_from idx n : months_ahead idx n = Some (months_from idx n).
Proof.
  unfold months_ahead, months_from. apply mapM_Some.
  induction (PyStr.range n) as [|i l IH]; cbn; constructor; [|done].
  rewrite getitem_month by (apply Z.mod_pos_bound; lia).
  by rewrite month_at_mod.
Qed.

(** X16.  Without an explicit list of months, and in any calendar month,
    [get_months_to_scrape] raises nothing, whatever the selection says,
    and every month it returns is one of the twelve names of
    [DUTCH_MONTHS]. *)
Theorem months_are_dutch (max_str_digits : nat) (now_month : Z)
    (config : target) :
  1 <= now_month <= 12 -> months config = None ->
  exists found,
    get_months_to_scrape max_str_digits now_month config = Some found /\
    Forall (fun m => m ∈ DUTCH_MONTHS) found.
Proof.
  intros Hnow Hm. unfold get_months_to_scrape. rewrite Hm.
  destruct (String.eqb _ "all").
  { eexists. split; [done|]. by apply Forall_forall. }
  destruct (String.eqb _ "current").
  { rewrite getitem_month by lia. cbn [mbind option_bind].
    eexists. split; [done|].
    constructor; [apply month_at_member|constructor]. }
  assert (Hfrom : forall idx n,
            Forall (fun m => m ∈ DUTCH_MONTHS) (months_from idx n)).
  { intros idx n. unfold months_from. apply Forall_fmap, Forall_forall.
    intros i _. apply month_at_member. }
  destruct (PyStr.startswith _ "next_").
  - destruct (PyStr.getitem _ 1) as [piece|]; cbn [mbind option_bind].
    + destruct (PyStr.int10 max_str_digits piece) as [count|];
        cbn [mbind option_bind]; rewrite months_ahead_from; eauto.
    + rewrite months_ahead_from; eauto.
  - rewrite months_ahead_from; eauto.
Qed.

(** The selection [next_3] in november. *)
Lemma months_are_dutch_witness :
  exists found,
    get_months_to_scrape 4300 11
      {| month_selection := Some "next_3"%string; months := None |}
    = Some found /\
    Forall (fun m => m ∈ DUTCH_MONTHS) found.
Proof.
  apply (months_are_dutch 4300 11
           {| month_selection := Some "next_3"%string; months := None |});
    [lia|reflexivity].
Defined.


(** ** Reading the count of [next_N] *)

Lemma app_empty (s : string) : s +:+ EmptyString = s.
Proof.
  induction s as [|c s IH]; [done|]. by rewrite PyFacts.app_cons, IH.
Qed.

Lemma split_from_plain sep s piece :
  Forall (fun c => Ascii.eqb c sep = false) (list_ascii_of_string s) ->
  PyStr.split_from sep s piece = [piece +:+ s].
Proof.
  revert piece. induction s as [|c s IH]; intros piece Hs.
  - cbn. by rewrite app_empty.
  - apply Forall_cons in Hs as [Hc Hs]. cbn [PyStr.split_from].
    rewrite Hc, IH by done.
    by rewrite PyFacts.app_assoc, PyFacts.app_cons, PyFacts.app_nil.
Qed.

Lemma digit_plain c : Re.digit c = true -> Ascii.eqb c "_" = false.
Proof.
  intros Hc. apply RegexFacts.digit_range in Hc.
  destruct (Ascii.eqb_spec c "_") as [->|]; [|done].
  change (Py.ord "_") with 95 in Hc. lia.
Qed.

Lemma digits_plain ds :
  RegexSem.all_chars Re.digit ds ->
  Forall (fun c => Ascii.eqb c "_" = false) (list_ascii_of_string ds).
Proof.
  unfold RegexSem.all_chars. intros Hds.
  eapply Forall_impl; [exact Hds|]. intros c. apply digit_plain.
Qed.

Lemma scan_decimal_digits ds :
  RegexSem.all_chars Re.digit ds ->
  forall n acc,
    PyStr.scan_decimal ds false n acc
    = Some (fold_left (fun acc c => acc * 10 + (Py.ord c - 48))
              (list_ascii_of_string ds) acc,
            (n + String.length ds)%nat, EmptyString).
Proof.
  unfold RegexSem.all_chars.
  induction ds as [|c ds IH]; intros Hds n acc.
  - cbn. by rewrite Nat.add_0_r.
  - cbn in Hds. apply Forall_cons in Hds as [Hc Hds].
    cbn [PyStr.scan_decimal]. unfold PyStr.dec_value.
    unfold Re.digit in Hc. rewrite Hc. rewrite IH by done.
    cbn [list_ascii_of_string fold_left String.length].
    by rewrite Nat.add_succ_r.
Qed.

Lemma digit_not_space c : Re.digit c = true -> Py.int_space c = false.
Proof.
  intros Hc. apply RegexFacts.digit_range in Hc.
  unfold Py.int_space, Py.in_range. lia.
Qed.


Lemma limit_passes max_str_digits ds :
  PyStr.within_limit max_str_digits ds ->
  (0 <? max_str_digits)%nat && (max_str_digits <? String.length ds)%nat
  = false.
Proof.
  intros [->|Hle]; [done|].
  apply andb_false_iff. right. apply Nat.ltb_ge. lia.
Qed.

Ltac digit_cases c Hc :=
  destruct c as [[] [] [] [] [] [] [] []];
  try (exfalso; vm_compute in Hc; discriminate Hc).

Lemma int10_digits max_str_digits ds :
  RegexSem.all_chars Re.digit ds -> ds <> EmptyString ->
  PyStr.within_limit max_str_digits ds ->
  PyStr.int10 max_str_digits ds = Some (Py.int_digits ds).
Proof.
  intros Hds Hne Hlim. destruct ds as [|c ds]; [done|].
  pose proof (scan_decimal_digits _ Hds 0%nat 0) as Hscan.
  pose proof (limit_passes _ _ Hlim) as Hpass.
  assert (Hc : Re.digit c = true) by (by inversion Hds).
  unfold PyStr.int10. cbn [Py.skip_space].
  rewrite (digit_not_space c Hc).
  digit_cases c Hc; cbv beta iota zeta; rewrite Hscan;
    cbn [Nat.add String.length] in *; rewrite Hpass;
    cbn [Py.skip_space]; unfold Py.int_digits; f_equal; lia.
Qed.

Lemma int10_minus_digits max_str_digits ds :
  RegexSem.all_chars Re.digit ds -> ds <> EmptyString ->
  PyStr.within_limit max_str_digits ds ->
  PyStr.int10 max_str_digits (String "-" ds) = Some (- Py.int_digits ds).
Proof.
  intros Hds Hne Hlim. destruct ds as [|c ds]; [done|].
  pose proof (scan_decimal_digits _ Hds 0%nat 0) as Hscan.
  pose proof (limit_passes _ _ Hlim) as Hpass.
  assert (Hc : Re.digit c = true) by (by inversion Hds).
  unfold PyStr.int10. cbn [Py.skip_space].
  change (Py.int_space "-") with false.
  digit_cases c Hc; cbv beta iota zeta; rewrite Hscan;
    cbn [Nat.add String.length] in *; rewrite Hpass;
    cbn [Py.skip_space]; unfold Py.int_digits; f_equal; lia.
Qed.


(** ** The months of [next_N] *)

Lemma range_lookup n (i : nat) :
  (i < Z.to_nat n)%nat -> PyStr.range n !! i = Some (Z.of_nat i).
Proof.
  intros Hi. unfold PyStr.range. rewrite list_lookup_fmap.
  by rewrite lookup_seq_lt.
Qed.

Lemma range_length n : length (PyStr.range n) = Z.to_nat n.
Proof. unfold PyStr.range. by rewrite length_fmap, length_seq. Qed.

Lemma range_bounds n i : i ∈ PyStr.range n -> 0 <= i < n.
Proof.
  unfold PyStr.range. intros Hi.
  apply list_elem_of_fmap in Hi as (j & -> & Hj).
  apply elem_of_seq in Hj. lia.
Qed.

Lemma range_NoDup n : NoDup (PyStr.range n).
Proof.
  unfold PyStr.range. apply NoDup_fmap; [apply _|apply NoDup_seq].
Qed.

Lemma months_from_lookup k n (i : nat) :
  (i < Z.to_nat n)%nat ->
  months_from k n !! i = Some (month_at (k + Z.of_nat i)).
Proof.
  intros Hi. unfold months_from.
  by rewrite list_lookup_fmap, range_lookup.
Qed.

Lemma months_from_length k n : length (months_from k n) = Z.to_nat n.
Proof. unfold months_from. by rewrite length_fmap, range_length. Qed.

Lemma DUTCH_MONTHS_NoDup : NoDup DUTCH_MONTHS.
Proof. apply (bool_decide_unpack _). by vm_compute. Qed.

Lemma month_at_inj a b : month_at a = month_at b -> a mod 12 = b mod 12.
Proof.
  unfold month_at. intros Heq.
  pose proof (Z.mod_pos_bound a 12 ltac:(lia)).
  pose proof (Z.mod_pos_bound b 12 ltac:(lia)).
  pose proof (proj1 (List.NoDup_nth DUTCH_MONTHS EmptyString)
                (proj1 (NoDup_ListNoDup _) DUTCH_MONTHS_NoDup)) as Hnd.
  apply Hnd in Heq; cbn [length DUTCH_MONTHS]; lia.
Qed.

Lemma months_from_NoDup k n : NoDup (months_from k n) <-> n <= 12.
Proof.
  split.
  - intros Hnd. destruct (Z.le_gt_cases n 12) as [|Hgt]; [done|].
    exfalso.
    pose proof (months_from_lookup k n 0 ltac:(lia)) as H0.
    pose proof (months_from_lookup k n 12 ltac:(lia)) as H12.
    replace (month_at (k + Z.of_nat 12)) with (month_at (k + Z.of_nat 0))
      in H12.
    + pose proof (NoDup_lookup _ _ _ _ Hnd H0 H12). lia.
    + rewrite <- (month_at_mod (k + Z.of_nat 0)),
        <- (month_at_mod (k + Z.of_nat 12)).
      f_equal. change (Z.of_nat 12) with 12. change (Z.of_nat 0) with 0.
      rewrite Z.add_0_r.
      replace (k + 12) with (k + 1 * 12) by lia. by rewrite Z.mod_add.
  - intros Hn. unfold months_from.
    apply NoDup_fmap_2_strong; [|apply range_NoDup].
    intros i j Hi Hj Heq.
    apply range_bounds in Hi. apply range_bounds in Hj.
    apply month_at_inj in Heq. Z.div_mod_to_equations. lia.
Qed.

(** The selection [next_] followed by [piece], a text without an
    underscore that [int] reads as [count]. *)
Lemma next_run max_str_digits now_month config piece count :
  months config = None ->
  month_selection config = Some ("next_" +:+ piece)%string ->
  Forall (fun c => Ascii.eqb c "_" = false) (list_ascii_of_string piece) ->
  PyStr.int10 max_str_digits piece = Some count ->
  get_months_to_scrape max_str_digits now_month config
  = Some (months_from (now_month - 1) (count + 1)).
Proof.
  intros Hm Hsel Hplain Hint. unfold get_months_to_scrape.
  rewrite Hm, Hsel. cbn [default from_option]. unfold id.
  rewrite !PyFacts.app_cons, PyFacts.app_nil.
  change (String.eqb (String "n" _) "all") with false.
  cbv beta iota.
  change (String.eqb (String "n" _) "current") with false.
  cbv beta iota.
  assert (Hstart : PyStr.startswith
            (String "n" (String "e" (String "x" (String "t"
               (String "_" piece))))) "next_" = true).
  { unfold PyStr.startswith. cbn [String.prefix].
    repeat (destruct (Ascii.ascii_dec _ _); [|done]). by destruct piece. }
  rewrite Hstart.
  assert (Hsplit : PyStr.split "_"
            (String "n" (String "e" (String "x" (String "t"
               (String "_" piece))))) = ["next"%string; piece]).
  { unfold PyStr.split. cbn [PyStr.split_from].
    change (Ascii.eqb "n" "_") with false.
    change (Ascii.eqb "e" "_") with false.
    change (Ascii.eqb "x" "_") with false.
    change (Ascii.eqb "t" "_") with false.
    change (Ascii.eqb "_" "_") with true.
    cbv beta iota. rewrite split_from_plain by done.
    by rewrite !PyFacts.app_nil, !PyFacts.app_cons, !PyFacts.app_nil. }
  rewrite Hsplit.
  change (PyStr.getitem ["next"%string; piece] 1) with (Some piece).
  cbn [mbind option_bind]. rewrite Hint. cbn [mbind option_bind].
  by rewrite months_ahead_from.
Qed.

(** X17.  The selection [next_N], with [N] written in digits, selects
    [N + 1] months: the current month and the [N] months that follow it,
    january coming after december. *)
Theorem next_selects_following_months (max_str_digits : nat) (now_month : Z)
    (config : target) (ds : string) :
  months config = None ->
  month_selection config = Some ("next_" +:+ ds)%string ->
  RegexSem.all_chars Re.digit ds -> ds <> EmptyString ->
  PyStr.within_limit max_str_digits ds ->
  exists found,
    get_months_to_scrape max_str_digits now_month config = Some found /\
    Z.of_nat (length found) = Py.int_digits ds + 1 /\
    forall i : nat,
      Z.of_nat i <= Py.int_digits ds ->
      found !! i = Some (month_at (now_month - 1 + Z.of_nat i)).
Proof.
  intros Hm Hsel Hds Hne Hlim.
  pose proof (RegexFacts.int_digits_nonneg ds Hds) as Hpos.
  exists (months_from (now_month - 1) (Py.int_digits ds + 1)).
  split; [|split].
  - apply next_run with (piece := ds); auto using digits_plain, int10_digits.
  - rewrite months_from_length. lia.
  - intros i Hi. apply months_from_lookup. lia.
Qed.

(** The selection [next_3] in november: four months. *)
Lemma next_selects_witness :
  exists found,
    get_months_to_scrape 4300 11
      {| month_selection := Some "next_3"%string; months := None |}
    = Some found /\
    Z.of_nat (length found) = Py.int_digits "3" + 1 /\
    forall i : nat,
      Z.of_nat i <= Py.int_digits "3" ->
      found !! i = Some (month_at (11 - 1 + Z.of_nat i)).
Proof.
  apply (next_selects_following_months 4300 11
           {| month_selection := Some "next_3"%string; months := None |}
           "3"%string).
  - reflexivity.
  - reflexivity.
  - repeat constructor.
  - discriminate.
  - right. cbn. lia.
Defined.

(** X18.  The months selected by [next_N] are all different exactly
    when [N] is at most 11; from [next_12] on a month is named, and so
    scraped, more than once. *)
Theorem next_repeats_from_twelve (max_str_digits : nat) (now_month : Z)
    (config : target) (ds : string) :
  months config = None ->
  month_selection config = Some ("next_" +:+ ds)%string ->
  RegexSem.all_chars Re.digit ds -> ds <> EmptyString ->
  PyStr.within_limit max_str_digits ds ->
  exists found,
    get_months_to_scrape max_str_digits now_month config = Some found /\
    (NoDup found <-> Py.int_digits ds <= 11).
Proof.
  intros Hm Hsel Hds Hne Hlim.
  exists (months_from (now_month - 1) (Py.int_digits ds + 1)). split.
  - apply next_run with (piece := ds); auto using digits_plain, int10_digits.
  - rewrite months_from_NoDup. lia.
Qed.

(** The selection [next_12] in november. *)
Lemma next_repeats_witness :
  exists found,
    get_months_to_scrape 4300 11
      {| month_selection := Some "next_12"%string; months := None |}
    = Some found /\
    (NoDup found <-> Py.int_digits "12" <= 11).
Proof.
  apply (next_repeats_from_twelve 4300 11
           {| month_selection := Some "next_12"%string; months := None |}
           "12"%string).
  - reflexivity.
  - reflexivity.
  - repeat constructor.
  - discriminate.
  - right. cbn. lia.
Defined.

(** X19.  A negative count selects no month at all: with [next_-N], [N]
    at least 1, the list is empty, nothing is raised and the default of
    four months is not used. *)
Theorem next_negative_selects_nothing (max_str_digits : nat) (now_month : Z)
    (config : target) (ds : string) :
  months config = None ->
  month_selection config = Some ("next_-" +:+ ds)%string ->
  RegexSem.all_chars Re.digit ds -> ds <> EmptyString ->
  PyStr.within_limit max_str_digits ds ->
  1 <= Py.int_digits ds ->
  get_months_to_scrape max_str_digits now_month config = Some [].
Proof.
  intros Hm Hsel Hds Hne Hlim Hone.
  rewrite (next_run max_str_digits now_month config (String "-" ds)
             (- Py.int_digits ds)).
  - unfold months_from, PyStr.range.
    by replace (Z.to_nat (- Py.int_digits ds + 1)) with 0%nat by lia.
  - done.
  - by rewrite Hsel.
  - cbn. constructor; [done|]. by apply digits_plain.
  - by apply int10_minus_digits.
Qed.

(** The selection [next_-2] in november. *)
Lemma next_negative_witness :
  get_months_to_scrape 4300 11
    {| month_selection := Some "next_-2"%string; months := None |} = Some [].
Proof.
  apply (next_negative_selects_nothing 4300 11
           {| month_selection := Some "next_-2"%string; months := None |}
           "2"%string).
  - reflexivity.
  - reflexivity.
  - repeat constructor.
  - discriminate.
  - right. cbn. lia.
  - change (Py.int_digits "2") with 2. lia.
Defined.

(** X20.  A selection that is neither [all] nor [current] and does not
    start with [next_] gives the current month and the three months that
    follow it, january coming after december. *)
Theorem unknown_selection_gives_four (max_str_digits : nat) (now_month : Z)
    (config : target) (selection : string) :
  months config = None ->
  month_selection config = Some selection ->
  selection <> "all"%string -> selection <> "current"%string ->
  PyStr.startswith selection "next_" = false ->
  get_months_to_scrape max_str_digits now_month config
  = Some [month_at (now_month - 1); month_at now_month;
          month_at (now_month + 1); month_at (now_month + 2)].
Proof.
  intros Hm Hsel Hall Hcur Hnext. unfold get_months_to_scrape.
  rewrite Hm, Hsel. cbn [default from_option]. unfold id.
  apply String.eqb_neq in Hall, Hcur. rewrite Hall, Hcur, Hnext.
  rewrite months_ahead_from. unfold months_from.
  change (PyStr.range 4) with [0; 1; 2; 3]. cbn [fmap list_fmap].
  replace (now_month - 1 + 0) with (now_month - 1) by lia.
  replace (now_month - 1 + 1) with now_month by lia.
  replace (now_month - 1 + 2) with (now_month + 1) by lia.
  by replace (now_month - 1 + 3) with (now_month + 2) by lia.
Qed.

(** The selection [quarter] in november. *)
Lemma unknown_selection_witness :
  get_months_to_scrape 4300 11
    {| month_selection := Some "quarter"%string; months := None |}
  = Some [month_at (11 - 1); month_at 11; month_at (11 + 1);
          month_at (11 + 2)].
Proof.
  apply (unknown_selection_gives_four 4300 11
           {| month_selection := Some "quarter"%string; months := None |}
           "quarter"%string).
  - reflexivity.
  - reflexivity.
  - discriminate.
  - discriminate.
  - reflexivity.
Defined.

End MonthFacts.

(* ===================================================================== *)
(** * The store: writes composed *)
(* ===================================================================== *)

Module StoreFacts.
Import Storage.
Section StoreFacts.
Context `{Platform}.
Local Open Scope Z_scope.

Lemma upsert_lookup_other now event (db : gmap Z row) i :
  i <> Model.id event -> upsert_event now event db !! i = db !! i.
Proof.
  intros Hi. unfold upsert_event. destruct (exists_row _ _).
  - by rewrite lookup_alter_ne.
  - by rewrite lookup_insert_ne.
Qed.

Lemma upsert_lookup_same now event (db : gmap Z row) :
  well_keyed db ->
  upsert_event now event db !! Model.id event
  = Some {| cols := Model.to_db_tuple event;
            first_scraped_at :=
              from_option first_scraped_at now (db !! Model.id event);
            last_updated_at := now |}.
Proof.
  intros Hwk. unfold upsert_event.
  destruct (db !! Model.id event) as [r|] eqn:Hr.
  - rewrite (StorageSpec.exists_row_true _ _ _ Hr).
    rewrite lookup_alter_eq, Hr. cbn [fmap option_fmap option_map from_option].
    f_equal. unfold update_row at 1.
    rewrite <- (StorageSpec.update_row_cols event now r) by by apply Hwk.
    done.
  - rewrite (StorageSpec.exists_row_false _ _ Hr).
    by rewrite lookup_insert_eq.
Qed.

(** X21.  Of two writes of records with the same id the second decides
    what the table holds: every column of every row is what it would be
    had only the second record been written. *)
Theorem last_write_decides (t1 t2 : Z) (e1 e2 : Model.Event)
    (db : gmap Z row) (i : Z) :
  well_keyed db -> Model.id e1 = Model.id e2 ->
  cols <$> upsert_event t2 e2 (upsert_event t1 e1 db) !! i
  = cols <$> upsert_event t2 e2 db !! i.
Proof.
  intros Hwk Hid.
  pose proof (StorageSpec.upsert_well_keyed t1 e1 db Hwk) as Hwk1.
  destruct (decide (i = Model.id e2)) as [->|Hi].
  - by rewrite !upsert_lookup_same.
  - rewrite !upsert_lookup_other by congruence. done.
Qed.



(** X23.  A write adds one row when the id is new and none otherwise,
    and the id is in the table afterwards. *)
Theorem write_counts_new_ids (now : Z) (event : Model.Event)
    (db : gmap Z row) :
  Accounting.get_event_count (upsert_event now event db)
  = Accounting.get_event_count db
    + (if exists_row db (Model.id event) then 0 else 1) /\
  exists_row (upsert_event now event db) (Model.id event) = true.
Proof.
  unfold Accounting.get_event_count, upsert_event.
  destruct (exists_row db (Model.id event)) eqn:Hex.
  - apply bool_decide_eq_true in Hex as [r Hr]. split.
    + rewrite <- !(size_dom (D := gset Z)), dom_alter_L. lia.
    + apply StorageSpec.exists_row_true with (r := update_row event now r).
      by rewrite lookup_alter_eq, Hr.
  - apply bool_decide_eq_false in Hex.
    assert (Hr : db !! Model.id event = None).
    { destruct (db !! Model.id event) eqn:E; [|done]. by destruct Hex. }
    split.
    + rewrite map_size_insert_None by done. lia.
    + eapply StorageSpec.exists_row_true. by rewrite lookup_insert_eq.
Qed.

Section Clock.
Context `{World.Outside}.


End Clock.
End StoreFacts.

(** Event 42 written at time 5 and, moved to another day, at time 9. *)
Lemma last_write_witness :
  @cols Demo.platform <$> @upsert_event Demo.platform 9 Samples.event42_moved
             (@upsert_event Demo.platform 5 Demo.event42 (∅ : gmap Z (@row Demo.platform))) !! 42%Z
  = @cols Demo.platform <$> @upsert_event Demo.platform 9 Samples.event42_moved (∅ : gmap Z (@row Demo.platform)) !! 42%Z.
Proof.
  apply (@last_write_decides Demo.platform 5 9 Demo.event42
           Samples.event42_moved (∅ : gmap Z (@row Demo.platform)) 42%Z).
  - intros i r Hr. rewrite lookup_empty in Hr. discriminate Hr.
  - reflexivity.
Defined.


End StoreFacts.

(* ===================================================================== *)
(** * The alphabet *)
(* ===================================================================== *)

Module AlphabetFacts.
Import Hex.
Local Open Scope Z_scope.

(** Different characters have different code points. *)
Lemma ord_injective c d : Py.ord c = Py.ord d -> c = d.
Proof.
  assert (Hall : forallb (fun c => forallb (fun d =>
                    implb (Py.ord c =? Py.ord d) (Ascii.eqb c d))
                    all_ascii) all_ascii = true)
    by (vm_compute; reflexivity).
  rewrite forallb_forall in Hall.
  specialize (Hall c (DecoderFacts.in_all_ascii c)).
  rewrite forallb_forall in Hall.
  specialize (Hall d (DecoderFacts.in_all_ascii d)).
  intros Heq. rewrite Heq, Z.eqb_refl in Hall. by apply Ascii.eqb_eq.
Qed.

(** The code points of the alphabet: those below 256 but five, and the
    euro sign, the en dash, the two letters mu and the capital y with
    diaeresis. *)
Lemma ord_values c :
  0 <= Py.ord c < 256 /\ ~ In (Py.ord c) [128; 141; 150; 157; 159]
  \/ In (Py.ord c) [8364; 8211; 924; 956; 376].
Proof.
  assert (Hall : forallb (fun c =>
                    ((0 <=? Py.ord c) && (Py.ord c <? 256)
                     && negb (existsb (Z.eqb (Py.ord c))
                                [128; 141; 150; 157; 159]))
                    || existsb (Z.eqb (Py.ord c))
                         [8364; 8211; 924; 956; 376])
                    all_ascii = true)
    by (vm_compute; reflexivity).
  rewrite forallb_forall in Hall.
  specialize (Hall c (DecoderFacts.in_all_ascii c)).
  apply orb_true_iff in Hall as [Hlow|Hhigh].
  - left. apply andb_true_iff in Hlow as [Hrange Hnot].
    split; [lia|]. intros Hin. apply negb_true_iff in Hnot.
    assert (existsb (Z.eqb (Py.ord c)) [128; 141; 150; 157; 159] = true);
      [|congruence].
    apply existsb_exists. exists (Py.ord c). split; [done|lia].
  - right. apply existsb_exists in Hhigh as (v & Hv & Heq).
    apply Z.eqb_eq in Heq. by rewrite Heq.
Qed.

End AlphabetFacts.
